(** * Debug actions and the clipboard bridge of the workbench

    A shallow embedding of
    [src/vs/workbench/api/electron-browser/mainThreadClipboard.ts]
    (the clipboard bridge [MainThreadCommands]) and of the debug actions
    that follow it in the same source file ([AbstractDebugAction] and its
    subclasses, [ToggleReplAction], [CopyValueAction]).

    Objects live in a heap and are mutated in place; event emitters keep a
    registry of listeners, each a closure over the object that registered
    it; a JavaScript [throw] is an abrupt completion that keeps the side
    effects made so far; a promise is a settled value. *)

From Stdlib Require Import String List Bool Arith Lia.
From stdpp Require Import base option list gmap.
Import ListNotations.

Local Open Scope string_scope.
Local Open Scope nat_scope.
Local Open Scope list_scope.

(** ** JavaScript values, completions and promises *)

Inductive JsError : Type :=
| TypeError (message : string)
| Error (message : string).

(** The outcome of evaluating a statement or a call: a value, or a thrown
    error. *)
Inductive Completion (A : Type) : Type :=
| Normal (a : A)
| Throw (e : JsError).
Arguments Normal {A} a.
Arguments Throw {A} e.

Definition completion_bind {A B} (c : Completion A) (k : A -> Completion B)
  : Completion B :=
  match c with
  | Normal a => k a
  | Throw e => Throw e
  end.

(** A settled promise. *)
Inductive Promise (A : Type) : Type :=
| Resolved (a : A)
| Rejected (e : JsError).
Arguments Resolved {A} a.
Arguments Rejected {A} e.

(** [!!s] for a string [s]: the empty string is the only falsy string. *)
Definition truthy (s : string) : bool :=
  match s with
  | EmptyString => false
  | String _ _ => true
  end.

(** [!!s] for [s : string | undefined]. *)
Definition truthy_opt (s : option string) : bool :=
  match s with
  | Some s => truthy s
  | None => false
  end.

(** ** The debug domain ([vs/workbench/contrib/debug/common/debug]) *)

(** [const enum State]. *)
Inductive State : Type := Inactive | Initializing | Stopped | Running.

Definition State_eqb (a b : State) : bool :=
  match a, b with
  | Inactive, Inactive | Initializing, Initializing
  | Stopped, Stopped | Running, Running => true
  | _, _ => false
  end.

(** [IEnablement]: anything with an [enabled] flag. *)
Class IEnablement (A : Type) : Type := enabled : A -> bool.

Module Breakpoint.
Record t : Type := { getId : string; enabled : bool }.
End Breakpoint.

Module FunctionBreakpoint.
Record t : Type := { getId : string; enabled : bool; name : string }.
End FunctionBreakpoint.

Module ExceptionBreakpoint.
Record t : Type := { filter : string; enabled : bool }.
End ExceptionBreakpoint.

#[export] Instance Breakpoint_IEnablement : IEnablement Breakpoint.t :=
  Breakpoint.enabled.
#[export] Instance FunctionBreakpoint_IEnablement
  : IEnablement FunctionBreakpoint.t := FunctionBreakpoint.enabled.
#[export] Instance ExceptionBreakpoint_IEnablement
  : IEnablement ExceptionBreakpoint.t := ExceptionBreakpoint.enabled.

(** A watch expression ([Expression]). *)
Module Expression.
Record t : Type := { getId : string; name : string }.
End Expression.

(** A variable shown in the variables view ([Variable]). *)
Module DebugVariable.
Record t : Type := { value : string; evaluateName : option string }.
End DebugVariable.

Module StackFrame.
Record t : Type := { frameId : nat }.
End StackFrame.

(** [DebugProtocol.EvaluateResponse], reduced to [body.result]. *)
Record EvaluateResponse : Type := { body_result : string }.

(** A debug session.  [evaluate expression frameId context] is the
    session's answer to an evaluate request; what it answers is up to the
    debug adapter and is left open. *)
Module DebugSession.
Record t : Type :=
    { getLabel : string;
      evaluate : string -> nat -> string -> Promise EvaluateResponse }.
End DebugSession.

Module Launch.
Record t : Type := { getConfigurationNames : list string }.
End Launch.

Record IDebugModel : Type :=
  { getSessions : list DebugSession.t;
    getBreakpoints : list Breakpoint.t;
    getFunctionBreakpoints : list FunctionBreakpoint.t;
    getExceptionBreakpoints : list ExceptionBreakpoint.t;
    getWatchExpressions : list Expression.t;
    areBreakpointsActivated : bool }.

Record IViewModel : Type :=
  { getSelectedFunctionBreakpoint : option FunctionBreakpoint.t;
    focusedStackFrame : option StackFrame.t;
    focusedSession : option DebugSession.t }.

Record IConfigurationManager : Type :=
  { getLaunches : list Launch.t }.

Record IDebugService : Type :=
  { state : State;
    getModel : IDebugModel;
    getViewModel : IViewModel;
    getConfigurationManager : IConfigurationManager }.

(** ** Enablement predicates *)

(** The classes that extend [AbstractDebugAction]. *)
Inductive DebugActionClass : Type :=
| ConfigureAction
| StartAction
| RunAction
| SelectAndStartAction
| RemoveBreakpointAction
| RemoveAllBreakpointsAction
| EnableAllBreakpointsAction
| DisableAllBreakpointsAction
| ToggleBreakpointsActivatedAction
| ReapplyBreakpointsAction
| AddFunctionBreakpointAction
| AddWatchExpressionAction
| EditWatchExpressionAction
| RemoveWatchExpressionAction
| RemoveAllWatchExpressionsAction
| FocusSessionAction.

Module AbstractDebugAction.
(** [protected isEnabled(state: State): boolean { return true; }] *)
Definition isEnabled (debugService : IDebugService) (st : State)
    : Completion bool := Normal true.
End AbstractDebugAction.

(** [super.isEnabled(state) && rest] *)
Definition super_and (debugService : IDebugService) (st : State)
    (rest : bool) : Completion bool :=
  completion_bind (AbstractDebugAction.isEnabled debugService st)
    (fun b => Normal (b && rest)).

(** [public static isEnabled(debugService: IDebugService)] of
    [StartAction]. *)
Definition StartAction_isEnabled (debugService : IDebugService)
  : Completion bool :=
  let sessions := getSessions (getModel debugService) in
  if State_eqb (state debugService) Initializing then Normal false
  else if (0 <? length sessions)
          && forallb (fun l => length (Launch.getConfigurationNames l) =? 0)
               (getLaunches (getConfigurationManager debugService))
  then Normal false
  else Normal true.

(** The concatenation of line, function and exception breakpoints, seen
    through [IEnablement]. *)
Definition all_enablements (model : IDebugModel) : list bool :=
  map enabled (getBreakpoints model)
  ++ map enabled (getFunctionBreakpoints model)
  ++ map enabled (getExceptionBreakpoints model).

(** The [isEnabled] method each class ends up with (its own override, or
    the one it inherits). *)
Definition isEnabled (c : DebugActionClass) (debugService : IDebugService)
    (st : State) : Completion bool :=
  let model := getModel debugService in
  match c with
  | StartAction | RunAction => StartAction_isEnabled debugService
  | RemoveAllBreakpointsAction =>
      super_and debugService st
        ((0 <? length (getBreakpoints model))
         || (0 <? length (getFunctionBreakpoints model)))
  | EnableAllBreakpointsAction =>
      super_and debugService st
        (existsb (fun bp_enabled => negb bp_enabled) (all_enablements model))
  | DisableAllBreakpointsAction =>
      super_and debugService st
        (existsb (fun bp_enabled => bp_enabled) (all_enablements model))
  | ToggleBreakpointsActivatedAction =>
      Normal (0 <? length (getFunctionBreakpoints model)
                   + length (getBreakpoints model))
  | ReapplyBreakpointsAction =>
      super_and debugService st
        ((State_eqb st Running || State_eqb st Stopped)
         && (0 <? length (getFunctionBreakpoints model)
                  + length (getBreakpoints model)
                  + length (getExceptionBreakpoints model)))
  | AddFunctionBreakpointAction =>
      Normal
        (negb (bool_decide
                 (is_Some (getSelectedFunctionBreakpoint
                             (getViewModel debugService))))
         && forallb (fun fbp => truthy (FunctionBreakpoint.name fbp))
              (getFunctionBreakpoints model))
  | AddWatchExpressionAction =>
      super_and debugService st
        (forallb (fun we => truthy (Expression.name we))
           (getWatchExpressions model))
  | RemoveAllWatchExpressionsAction =>
      super_and debugService st (0 <? length (getWatchExpressions model))
  | ConfigureAction | SelectAndStartAction | RemoveBreakpointAction
  | EditWatchExpressionAction | RemoveWatchExpressionAction
  | FocusSessionAction => AbstractDebugAction.isEnabled debugService st
  end.

(** ** Events and listeners

    The notification streams the actions consume.  A notification carries
    the payload its emitter fires with: the new [State] for
    [onDidChangeState], the identifier of the opened panel for
    [onDidPanelOpen], nothing the listeners look at for the others. *)

Inductive EventKind : Type :=
| OnDidChangeState
| OnDidChangeBreakpoints
| OnDidChangeWatchExpressions
| OnDidNewSession
| OnDidEndSession
| OnDidChangeWorkbenchState
| OnDidSelectConfiguration
| OnDidPanelOpen.

#[export] Instance EventKind_eq_dec : EqDecision EventKind.
Proof. solve_decision. Defined.

Inductive Notification : Type :=
| DidChangeState (st : State)
| DidChangeBreakpoints
| DidChangeWatchExpressions
| DidNewSession
| DidEndSession
| DidChangeWorkbenchState
| DidSelectConfiguration
| DidPanelOpen (panelId : string).

Definition event_of (n : Notification) : EventKind :=
  match n with
  | DidChangeState _ => OnDidChangeState
  | DidChangeBreakpoints => OnDidChangeBreakpoints
  | DidChangeWatchExpressions => OnDidChangeWatchExpressions
  | DidNewSession => OnDidNewSession
  | DidEndSession => OnDidEndSession
  | DidChangeWorkbenchState => OnDidChangeWorkbenchState
  | DidSelectConfiguration => OnDidSelectConfiguration
  | DidPanelOpen _ => OnDidPanelOpen
  end.

(** The arrow functions the constructors hand to the emitters. *)
Inductive Callback : Type :=
| cb_updateEnablement_state
    (* state => this.updateEnablement(state) *)
| cb_updateEnablement
    (* () => this.updateEnablement() *)
| cb_updateClass
    (* () => this.updateClass() *)
| cb_updateLabel_updateEnablement
    (* () => { this.updateLabel(...); this.updateEnablement(); } *)
| cb_panelOpen.
    (* ({ panel }) => { if (panel.getId() === REPL_ID) { ... } } *)

(** A reference to an object of the heap. *)
Definition Ref : Type := nat.

(** What an emitter hands back on subscription: disposing it removes the
    listener registered under that token. *)
Definition IDisposable : Type := nat.

(** A registered listener: the closure [callback] with its captured
    [this]. *)
Record Listener : Type :=
  { token : IDisposable;
    event : EventKind;
    this : Ref;
    callback : Callback }.

(** ** Action objects *)

(** What [CopyValueAction] receives as [value: any]. *)
Inductive Value : Type :=
| VUndefined
| VString (s : string)
| VVariable (v : DebugVariable.t)
| VExpression (e : Expression.t)
| VOther (description : string).

Inductive ActionClass : Type :=
| DebugAction (c : DebugActionClass)
| ToggleReplAction
| CopyValueAction.

(** An action object: the fields of [Action] ([_id], [_label],
    [_cssClass], [_enabled], [_tooltip]) and the fields the classes of this
    file add.  A field a class does not declare keeps its initial value
    ([toDispose] of a [CopyValueAction], [value] of a debug action). *)
Record ActionObject : Type :=
  { classOf : ActionClass;
    _id : string;
    _label : string;
    _cssClass : string;
    _enabled : bool;
    _tooltip : string;
    toDispose : list IDisposable;
    weight : option nat;
    value : Value;
    context : string }.

Definition blank (c : ActionClass) : ActionObject :=
  {| classOf := c; _id := ""; _label := ""; _cssClass := ""; _enabled := true;
     _tooltip := ""; toDispose := []; weight := None; value := VUndefined;
     context := "" |}.

Definition with_label (l : string) (a : ActionObject) : ActionObject :=
  {| classOf := classOf a; _id := _id a; _label := l;
     _cssClass := _cssClass a; _enabled := _enabled a;
     _tooltip := _tooltip a; toDispose := toDispose a; weight := weight a;
     value := value a; context := context a |}.

Definition with_class (c : string) (a : ActionObject) : ActionObject :=
  {| classOf := classOf a; _id := _id a; _label := _label a;
     _cssClass := c; _enabled := _enabled a;
     _tooltip := _tooltip a; toDispose := toDispose a; weight := weight a;
     value := value a; context := context a |}.

Definition with_enabled (b : bool) (a : ActionObject) : ActionObject :=
  {| classOf := classOf a; _id := _id a; _label := _label a;
     _cssClass := _cssClass a; _enabled := b;
     _tooltip := _tooltip a; toDispose := toDispose a; weight := weight a;
     value := value a; context := context a |}.

Definition with_tooltip (t : string) (a : ActionObject) : ActionObject :=
  {| classOf := classOf a; _id := _id a; _label := _label a;
     _cssClass := _cssClass a; _enabled := _enabled a;
     _tooltip := t; toDispose := toDispose a; weight := weight a;
     value := value a; context := context a |}.

Definition with_toDispose (d : list IDisposable) (a : ActionObject)
  : ActionObject :=
  {| classOf := classOf a; _id := _id a; _label := _label a;
     _cssClass := _cssClass a; _enabled := _enabled a;
     _tooltip := _tooltip a; toDispose := d; weight := weight a;
     value := value a; context := context a |}.

(** ** Services

    What the injected services hold: the debug service's current snapshot,
    the listeners registered with the emitters (in registration order), the
    text on the clipboard, and the evaluate requests sent to debug sessions
    so far. *)
Record Services : Type :=
  { debugService : IDebugService;
    listeners : list Listener;
    nextToken : nat;
    clipboardText : Value;
    evaluateRequests : list (string * nat * string) }.

Definition with_debugService (ds : IDebugService) (env : Services)
  : Services :=
  {| debugService := ds; listeners := listeners env;
     nextToken := nextToken env; clipboardText := clipboardText env;
     evaluateRequests := evaluateRequests env |}.

Definition with_listeners (ls : list Listener) (env : Services) : Services :=
  {| debugService := debugService env; listeners := ls;
     nextToken := nextToken env; clipboardText := clipboardText env;
     evaluateRequests := evaluateRequests env |}.

(** ** Methods: code that runs with a [this] and the services at hand *)

Definition Method (A : Type) : Type :=
  ActionObject -> Services -> Completion A * ActionObject * Services.

Definition ret {A} (a : A) : Method A :=
  fun self env => (Normal a, self, env).

Definition throw {A} (e : JsError) : Method A :=
  fun self env => (Throw e, self, env).

Definition bind {A B} (m : Method A) (k : A -> Method B) : Method B :=
  fun self env =>
    match m self env with
    | (Normal a, self', env') => k a self' env'
    | (Throw e, self', env') => (Throw e, self', env')
    end.

Notation "x <- m ;; k" := (bind m (fun x => k))
  (at level 100, m at next level, right associativity).
Notation "m ;; k" := (bind m (fun _ => k))
  (at level 100, right associativity).

Definition lift {A} (c : Completion A) : Method A :=
  fun self env => (c, self, env).

Definition get_this : Method ActionObject :=
  fun self env => (Normal self, self, env).

Definition get_services : Method Services :=
  fun self env => (Normal env, self, env).

Definition modify_this (f : ActionObject -> ActionObject) : Method unit :=
  fun self env => (Normal tt, f self, env).

Definition modify_services (f : Services -> Services) : Method unit :=
  fun self env => (Normal tt, self, f env).

(** *** The base class and the library calls the actions rely on *)

(** Modelled from the spec: the base class [Action]
    (vs/base/common/actions) is not among the sources.  Per the data model
    an action has [enabled], [label], [tooltip] and a stable [id]; the
    constructor stores its arguments, and [enabled], [label], [class] and
    [tooltip] are plain accessors over the underscored fields. *)
Definition Action_constructor (id label cssClass : string) (enabled : bool)
  : Method unit :=
  modify_this (fun a =>
    {| classOf := classOf a; _id := id; _label := label;
       _cssClass := cssClass; _enabled := enabled;
       _tooltip := _tooltip a; toDispose := toDispose a; weight := weight a;
       value := value a; context := context a |}).

(** Modelled from the spec: [Action.dispose], not among the sources; the
    base class holds no subscription of the debug domain. *)
Definition Action_dispose : Method unit := ret tt.

(** Modelled from the spec: an event emitter (vs/base/common/event), not
    among the sources.  Subscribing appends the listener and returns the
    disposable that removes it again. *)
Definition subscribe (e : EventKind) (self : Ref) (cb : Callback)
  : Method IDisposable :=
  fun a env =>
    (Normal (nextToken env), a,
     {| debugService := debugService env;
        listeners := listeners env
                     ++ [ {| token := nextToken env; event := e;
                             this := self; callback := cb |} ];
        nextToken := S (nextToken env);
        clipboardText := clipboardText env;
        evaluateRequests := evaluateRequests env |}).

(** Modelled from the spec: disposing a subscription removes its listener;
    disposing it again finds nothing to remove. *)
Definition unsubscribe (d : IDisposable) (env : Services) : Services :=
  with_listeners
    (List.filter (fun l => negb (token l =? d)) (listeners env)) env.

(** Modelled from the spec: [lifecycle.dispose] on an array
    (vs/base/common/lifecycle), not among the sources: every element is
    disposed, and the result is the empty array ("release callbacks
    drained-and-cleared on dispose"). *)
Definition lifecycle_dispose (ds : list IDisposable)
  : Method (list IDisposable) :=
  fun a env =>
    (Normal [], a, fold_left (fun env d => unsubscribe d env) ds env).

(** [[...].reduce((sum, current) => sum + current)]: without an initial
    value, reducing an empty array throws. *)
Definition reduce_sum (l : list nat) : Completion nat :=
  match l with
  | [] => Throw (TypeError "Reduce of empty array with no initial value")
  | x :: xs => Normal (fold_left Nat.add xs x)
  end.

(** *** [AbstractDebugAction] *)

(** [this.toDispose.push(emitter(callback))] *)
Definition toDispose_push (e : EventKind) (self : Ref) (cb : Callback)
  : Method unit :=
  d <- subscribe e self cb ;;
  modify_this (fun a => with_toDispose (toDispose a ++ [d]) a).

Definition updateLabel (newLabel : string) : Method unit :=
  modify_this (with_label newLabel).

(** [updateEnablement(state = this.debugService.state)]; [isEnabled] is
    the method of the receiver's class. *)
Definition updateEnablement (st : option State) : Method unit :=
  a <- get_this ;;
  env <- get_services ;;
  match classOf a with
  | DebugAction c =>
      (b <- lift (isEnabled c (debugService env)
                    (default (state (debugService env)) st)) ;;
       modify_this (with_enabled b))
  | _ => throw (TypeError "this.updateEnablement is not a function")
  end.

Definition with_weight (w : option nat) (a : ActionObject) : ActionObject :=
  {| classOf := classOf a; _id := _id a; _label := _label a;
     _cssClass := _cssClass a; _enabled := _enabled a;
     _tooltip := _tooltip a; toDispose := toDispose a; weight := w;
     value := value a; context := context a |}.

Definition AbstractDebugAction_constructor (self : Ref)
    (id label cssClass : string) (weight : option nat) : Method unit :=
  Action_constructor id label cssClass false ;;
  modify_this (with_weight weight) ;;
  modify_this (with_toDispose []) ;;
  toDispose_push OnDidChangeState self cb_updateEnablement_state ;;
  updateLabel label ;;
  updateEnablement None.

(** [AbstractDebugAction.run]: [throw new Error('implement me')]. *)
Definition AbstractDebugAction_run {A} : Method A :=
  throw (Error "implement me").

(** [dispose] of [AbstractDebugAction] (and, with the same body, of
    [ToggleReplAction]). *)
Definition AbstractDebugAction_dispose : Method unit :=
  Action_dispose ;;
  a <- get_this ;;
  emptied <- lifecycle_dispose (toDispose a) ;;
  modify_this (with_toDispose emptied).

(** *** The concrete classes *)

Definition ACTIVATE_LABEL : string := "Activate Breakpoints".
Definition DEACTIVATE_LABEL : string := "Deactivate Breakpoints".
Definition ToggleReplAction_LABEL : string := "Debug Console".

(** Modelled from the spec: [REPL_ID], the identifier of the debug console
    panel, is imported from a file that is not among the sources; nothing
    below depends on its value. *)
Definition REPL_ID : string := "workbench.panel.repl".

(** [ConfigureAction.updateClass] *)
Definition updateClass : Method unit :=
  env <- get_services ;;
  configurationCount <-
    lift (reduce_sum
            (map (fun l => length (Launch.getConfigurationNames l))
               (getLaunches (getConfigurationManager (debugService env))))) ;;
  modify_this
    (with_class (if 0 <? configurationCount then "debug-action configure"
                 else "debug-action configure notification")).

Definition toggle_label (env : Services) : string :=
  if areBreakpointsActivated (getModel (debugService env))
  then DEACTIVATE_LABEL else ACTIVATE_LABEL.

(** The constructors of the subclasses of [AbstractDebugAction]. *)
Definition DebugAction_constructor (c : DebugActionClass) (self : Ref)
    (id label : string) : Method unit :=
  let super := AbstractDebugAction_constructor self id label in
  match c with
  | ConfigureAction =>
      super "debug-action configure" None ;;
      toDispose_push OnDidSelectConfiguration self cb_updateClass ;;
      updateClass
  | StartAction | RunAction =>
      super "debug-action start" None ;;
      toDispose_push OnDidSelectConfiguration self cb_updateEnablement ;;
      toDispose_push OnDidNewSession self cb_updateEnablement ;;
      toDispose_push OnDidEndSession self cb_updateEnablement ;;
      toDispose_push OnDidChangeWorkbenchState self cb_updateEnablement
  | SelectAndStartAction => super "" None
  | RemoveBreakpointAction => super "debug-action remove" None
  | RemoveAllBreakpointsAction =>
      super "debug-action remove-all" None ;;
      toDispose_push OnDidChangeBreakpoints self cb_updateEnablement
  | EnableAllBreakpointsAction =>
      super "debug-action enable-all-breakpoints" None ;;
      toDispose_push OnDidChangeBreakpoints self cb_updateEnablement
  | DisableAllBreakpointsAction =>
      super "debug-action disable-all-breakpoints" None ;;
      toDispose_push OnDidChangeBreakpoints self cb_updateEnablement
  | ToggleBreakpointsActivatedAction =>
      super "debug-action breakpoints-activate" None ;;
      env <- get_services ;;
      updateLabel (toggle_label env) ;;
      toDispose_push OnDidChangeBreakpoints self
        cb_updateLabel_updateEnablement
  | ReapplyBreakpointsAction =>
      super "" None ;;
      toDispose_push OnDidChangeBreakpoints self cb_updateEnablement
  | AddFunctionBreakpointAction =>
      super "debug-action add-function-breakpoint" None ;;
      toDispose_push OnDidChangeBreakpoints self cb_updateEnablement
  | AddWatchExpressionAction =>
      super "debug-action add-watch-expression" None ;;
      toDispose_push OnDidChangeWatchExpressions self cb_updateEnablement
  | EditWatchExpressionAction => super "" None
  | RemoveWatchExpressionAction => super "" None
  | RemoveAllWatchExpressionsAction =>
      super "debug-action remove-all" None ;;
      toDispose_push OnDidChangeWatchExpressions self cb_updateEnablement
  | FocusSessionAction => super "" (Some 100)
  end.

(** [ToggleReplAction]: its base class [TogglePanelAction] (not among the
    sources) passes [id], [label] and the css class on to [Action]. *)
Definition ToggleReplAction_constructor (self : Ref) (id label : string)
  : Method unit :=
  Action_constructor id label "debug-action toggle-repl" true ;;
  modify_this (with_toDispose []) ;;
  toDispose_push OnDidPanelOpen self cb_panelOpen.

Definition with_value (v : Value) (ctx : string) (a : ActionObject)
  : ActionObject :=
  {| classOf := classOf a; _id := _id a; _label := _label a;
     _cssClass := _cssClass a; _enabled := _enabled a;
     _tooltip := _tooltip a; toDispose := toDispose a; weight := weight a;
     value := v; context := ctx |}.

(** [typeof this.value === 'string' ||
     (this.value instanceof Variable && !!this.value.evaluateName)] *)
Definition CopyValueAction_enabled (v : Value) : bool :=
  match v with
  | VString _ => true
  | VVariable var => truthy_opt (DebugVariable.evaluateName var)
  | _ => false
  end.

Definition CopyValueAction_constructor (id label : string) (v : Value)
    (ctx : string) : Method unit :=
  Action_constructor id label "debug-action copy-value" true ;;
  modify_this (with_value v ctx) ;;
  a <- get_this ;;
  modify_this (with_enabled (CopyValueAction_enabled (value a))).

(** What a listener does when its emitter fires with [n]. *)
Definition run_callback (cb : Callback) (n : Notification) : Method unit :=
  match cb with
  | cb_updateEnablement_state =>
      match n with
      | DidChangeState st => updateEnablement (Some st)
      | _ => updateEnablement None
      end
  | cb_updateEnablement => updateEnablement None
  | cb_updateClass => updateClass
  | cb_updateLabel_updateEnablement =>
      env <- get_services ;;
      updateLabel (toggle_label env) ;;
      updateEnablement None
  | cb_panelOpen =>
      match n with
      | DidPanelOpen panelId =>
          if String.eqb panelId REPL_ID then
            modify_this (with_class "debug-action toggle-repl") ;;
            modify_this (with_tooltip ToggleReplAction_LABEL)
          else ret tt
      | _ => throw (TypeError "Cannot destructure property 'panel'")
      end
  end.

(** The [dispose] method of the receiver's class. *)
Definition dispose : Method unit :=
  a <- get_this ;;
  match classOf a with
  | DebugAction _ | ToggleReplAction => AbstractDebugAction_dispose
  | CopyValueAction => Action_dispose
  end.

(** ** The world: services plus the heap of action objects *)

Record World : Type :=
  { services : Services;
    heap : gmap Ref ActionObject;
    nextRef : Ref }.

(** Constructor arguments; [arg_value] and [arg_context] are read by
    [CopyValueAction] only. *)
Record Args : Type :=
  { arg_id : string;
    arg_label : string;
    arg_value : Value;
    arg_context : string }.

Definition constructor (c : ActionClass) (self : Ref) (args : Args)
  : Method unit :=
  match c with
  | DebugAction d =>
      DebugAction_constructor d self (arg_id args) (arg_label args)
  | ToggleReplAction =>
      ToggleReplAction_constructor self (arg_id args) (arg_label args)
  | CopyValueAction =>
      CopyValueAction_constructor (arg_id args) (arg_label args)
        (arg_value args) (arg_context args)
  end.

(** [new C(args)]: a fresh object of class [C] is allocated and the
    constructor runs on it.  The reference is the result when the
    constructor completes normally. *)
Definition new (c : ActionClass) (args : Args) (w : World)
  : Completion Ref * World :=
  let self := nextRef w in
  match constructor c self args (blank c) (services w) with
  | (res, obj, env) =>
      (completion_bind res (fun _ => Normal self),
       {| services := env; heap := <[self := obj]> (heap w);
          nextRef := S self |})
  end.

(** [r.m(...)]: the method runs on the object [r] refers to, which is
    updated in place. *)
Definition call {A} (r : Ref) (m : Method A) (w : World)
  : Completion A * World :=
  match heap w !! r with
  | Some a =>
      match m a (services w) with
      | (res, a', env) =>
          (res, {| services := env; heap := <[r := a']> (heap w);
                   nextRef := nextRef w |})
      end
  | None => (Throw (TypeError "Cannot read properties of undefined"), w)
  end.

(** Modelled from the spec: [Emitter.fire], not among the sources.  Every
    listener registered for the event is called, in registration order, with
    the payload; an error thrown by a listener does not reach the others. *)
Definition invoke (l : Listener) (n : Notification) (w : World) : World :=
  snd (call (this l) (run_callback (callback l) n) w).

Fixpoint deliver (n : Notification) (ls : list Listener) (w : World) : World :=
  match ls with
  | [] => w
  | l :: ls' =>
      deliver n ls'
        (if decide (event l = event_of n) then invoke l n w else w)
  end.

Definition fire (n : Notification) (w : World) : World :=
  deliver n (listeners (services w)) w.

(** One step of the debug domain: its state becomes [ds] and the
    notification [n] is dispatched. *)
Definition step (w : World) (sn : IDebugService * Notification) : World :=
  fire (snd sn)
    {| services := with_debugService (fst sn) (services w);
       heap := heap w; nextRef := nextRef w |}.

Fixpoint steps (w : World) (trace : list (IDebugService * Notification))
  : World :=
  match trace with
  | [] => w
  | sn :: trace' => steps (step w sn) trace'
  end.

(** The [enabled] flag of the object at [r]. *)
Definition enabled_at (r : Ref) (w : World) : option bool :=
  _enabled <$> heap w !! r.

(** The state-changed notification carries the state the debug service is
    in when it fires. *)
Definition payload_current (sn : IDebugService * Notification) : Prop :=
  match snd sn with
  | DidChangeState st => st = state (fst sn)
  | _ => True
  end.

(** Whether a callback ends by calling [updateEnablement]. *)
Definition updates_enablement (cb : Callback) : bool :=
  match cb with
  | cb_updateEnablement_state | cb_updateEnablement
  | cb_updateLabel_updateEnablement => true
  | cb_updateClass | cb_panelOpen => false
  end.

(** Whether the object at [r] holds a subscription to [e] whose listener
    recomputes enablement. *)
Definition subscribed (r : Ref) (e : EventKind) (w : World) : bool :=
  existsb
    (fun l => bool_decide (this l = r) && bool_decide (event l = e)
              && updates_enablement (callback l))
    (listeners (services w)).

(** Whether any listener at all is registered on behalf of [r]. *)
Definition has_listener (r : Ref) (w : World) : bool :=
  existsb (fun l => bool_decide (this l = r)) (listeners (services w)).

(** An empty debug domain and an empty world, for examples. *)
Definition empty_model : IDebugModel :=
  {| getSessions := []; getBreakpoints := []; getFunctionBreakpoints := [];
     getExceptionBreakpoints := []; getWatchExpressions := [];
     areBreakpointsActivated := true |}.

Definition empty_debugService : IDebugService :=
  {| state := Inactive; getModel := empty_model;
     getViewModel := {| getSelectedFunctionBreakpoint := None;
                        focusedStackFrame := None; focusedSession := None |};
     getConfigurationManager := {| getLaunches := [] |} |}.

Definition empty_world : World :=
  {| services := {| debugService := empty_debugService; listeners := [];
                    nextToken := 0; clipboardText := VUndefined;
                    evaluateRequests := [] |};
     heap := ∅; nextRef := 0 |}.

Definition args0 : Args :=
  {| arg_id := "id"; arg_label := "label"; arg_value := VUndefined;
     arg_context := "" |}.

(** ** Operations of the debug domain the actions call *)

Definition with_model (m : IDebugModel) (ds : IDebugService) : IDebugService :=
  {| state := state ds; getModel := m; getViewModel := getViewModel ds;
     getConfigurationManager := getConfigurationManager ds |}.

Definition with_breakpoints (bps : list Breakpoint.t) (m : IDebugModel)
  : IDebugModel :=
  {| getSessions := getSessions m; getBreakpoints := bps;
     getFunctionBreakpoints := getFunctionBreakpoints m;
     getExceptionBreakpoints := getExceptionBreakpoints m;
     getWatchExpressions := getWatchExpressions m;
     areBreakpointsActivated := areBreakpointsActivated m |}.

Definition with_functionBreakpoints (fbps : list FunctionBreakpoint.t)
    (m : IDebugModel) : IDebugModel :=
  {| getSessions := getSessions m; getBreakpoints := getBreakpoints m;
     getFunctionBreakpoints := fbps;
     getExceptionBreakpoints := getExceptionBreakpoints m;
     getWatchExpressions := getWatchExpressions m;
     areBreakpointsActivated := areBreakpointsActivated m |}.

Definition with_exceptionBreakpoints (ebps : list ExceptionBreakpoint.t)
    (m : IDebugModel) : IDebugModel :=
  {| getSessions := getSessions m; getBreakpoints := getBreakpoints m;
     getFunctionBreakpoints := getFunctionBreakpoints m;
     getExceptionBreakpoints := ebps;
     getWatchExpressions := getWatchExpressions m;
     areBreakpointsActivated := areBreakpointsActivated m |}.

(** Modelled from the spec: adding a function breakpoint is an operation of
    the debug model, which is not among the sources.  The new breakpoint is
    appended to the function breakpoints with the given name (the empty
    name for a breakpoint still to be named). *)
Definition addFunctionBreakpoint (functionName id : string)
    (ds : IDebugService) : IDebugService :=
  with_model
    (with_functionBreakpoints
       (getFunctionBreakpoints (getModel ds)
        ++ [ {| FunctionBreakpoint.getId := id;
                FunctionBreakpoint.enabled := true;
                FunctionBreakpoint.name := functionName |} ])
       (getModel ds)) ds.

(** Modelled from the spec: naming a function breakpoint, an operation of
    the debug model, which is not among the sources: the breakpoint with
    the given identifier gets the new name. *)
Definition renameFunctionBreakpoint (id newName : string)
    (ds : IDebugService) : IDebugService :=
  with_model
    (with_functionBreakpoints
       (map (fun fbp =>
               if String.eqb (FunctionBreakpoint.getId fbp) id
               then {| FunctionBreakpoint.getId := FunctionBreakpoint.getId fbp;
                       FunctionBreakpoint.enabled :=
                         FunctionBreakpoint.enabled fbp;
                       FunctionBreakpoint.name := newName |}
               else fbp)
          (getFunctionBreakpoints (getModel ds)))
       (getModel ds)) ds.

(** [!id || x.getId() === id]: whether an optional identifier selects the
    element with identifier [x]. *)
Definition selects (id : option string) (x : string) : bool :=
  negb (truthy_opt id) || bool_decide (id = Some x).

(** Modelled from the spec: [debugService.removeBreakpoints(id?)], not
    among the sources: the line breakpoint with that identifier is removed,
    every line breakpoint when no identifier is given. *)
Definition removeBreakpoints (id : option string) : Method (Promise unit) :=
  modify_services (fun env =>
    with_debugService
      (with_model
         (with_breakpoints
            (List.filter (fun bp => negb (selects id (Breakpoint.getId bp)))
               (getBreakpoints (getModel (debugService env))))
            (getModel (debugService env)))
         (debugService env)) env) ;;
  ret (Resolved tt).

(** Modelled from the spec: [debugService.removeFunctionBreakpoints(id?)],
    not among the sources, the same for function breakpoints. *)
Definition removeFunctionBreakpoints (id : option string)
  : Method (Promise unit) :=
  modify_services (fun env =>
    with_debugService
      (with_model
         (with_functionBreakpoints
            (List.filter
               (fun fbp => negb (selects id (FunctionBreakpoint.getId fbp)))
               (getFunctionBreakpoints (getModel (debugService env))))
            (getModel (debugService env)))
         (debugService env)) env) ;;
  ret (Resolved tt).

(** [Promise.all([p, q])] *)
Definition Promise_all {A B} (p : Promise A) (q : Promise B)
  : Promise (A * B) :=
  match p, q with
  | Resolved a, Resolved b => Resolved (a, b)
  | Rejected e, _ => Rejected e
  | Resolved _, Rejected e => Rejected e
  end.

(** [RemoveAllBreakpointsAction.run] *)
Definition RemoveAllBreakpointsAction_run : Method (Promise (unit * unit)) :=
  p <- removeBreakpoints None ;;
  q <- removeFunctionBreakpoints None ;;
  ret (Promise_all p q).

(** ** [CopyValueAction.run] *)

(** Modelled from the spec: [IClipboardService.writeText], an interface
    whose implementation is not among the sources: the clipboard holds what
    was written last. *)
Definition clipboardService_writeText (text : Value) : Method unit :=
  modify_services (fun env =>
    {| debugService := debugService env; listeners := listeners env;
       nextToken := nextToken env; clipboardText := text;
       evaluateRequests := evaluateRequests env |}).

(** [session.evaluate(expression, frameId, context)]: the request is sent
    (and recorded), the session answers with a promise. *)
Definition session_evaluate (session : DebugSession.t) (expression : string)
    (frameId : nat) (context : string) : Method (Promise EvaluateResponse) :=
  modify_services (fun env =>
    {| debugService := debugService env; listeners := listeners env;
       nextToken := nextToken env; clipboardText := clipboardText env;
       evaluateRequests :=
         evaluateRequests env ++ [(expression, frameId, context)] |}) ;;
  ret (DebugSession.evaluate session expression frameId context).

(** [p.then(onFulfilled, onRejected)]: the handler that matches the
    outcome of [p] runs, and the new promise settles with what it returns,
    or rejects with what it throws. *)
Definition promise_then {A B} (p : Promise A) (onFulfilled : A -> Method B)
    (onRejected : JsError -> Method B) : Method (Promise B) :=
  fun a env =>
    match
      match p with
      | Resolved x => onFulfilled x a env
      | Rejected e => onRejected e a env
      end
    with
    | (Normal b, a', env') => (Normal (Resolved b), a', env')
    | (Throw e, a', env') => (Normal (Rejected e), a', env')
    end.

Definition CopyValueAction_run : Method (Promise unit) :=
  a <- get_this ;;
  env <- get_services ;;
  let stackFrame := focusedStackFrame (getViewModel (debugService env)) in
  let session := focusedSession (getViewModel (debugService env)) in
  let otherwise : Method (Promise unit) :=
    clipboardService_writeText (value a) ;;
    ret (Resolved tt) in
  match value a, stackFrame, session with
  | VVariable v, Some stackFrame, Some session =>
      match DebugVariable.evaluateName v with
      | Some evaluateName =>
          if truthy evaluateName then
            p <- session_evaluate session evaluateName
                   (StackFrame.frameId stackFrame) (context a) ;;
            promise_then p
              (fun result =>
                 clipboardService_writeText (VString (body_result result)))
              (fun err =>
                 clipboardService_writeText (VString (DebugVariable.value v)))
          else otherwise
      | None => otherwise
      end
  | _, _, _ => otherwise
  end.

(** ** The clipboard bridge ([MainThreadCommands]) *)

(** The [clipboard] module of Electron, as far as the bridge uses it: the
    native desktop is some state [W] that can be read and written. *)
Class ElectronClipboard (W : Type) : Type :=
  { clipboard_readText : W -> string;
    clipboard_writeText : string -> W -> W }.

Module MainThreadCommands.
(** [$readText(): Promise<string>] *)
Definition readText {W} `{ElectronClipboard W} (w : W) : Promise string * W :=
  (Resolved (clipboard_readText w), w).

(** [$writeText(value: string): Promise<void>] *)
Definition writeText {W} `{ElectronClipboard W} (value : string) (w : W)
  : Promise unit * W :=
  (Resolved tt, clipboard_writeText value w).

(** [dispose(): void] *)
Definition dispose {W} `{ElectronClipboard W} (w : W) : W := w.
End MainThreadCommands.

(** A desktop whose clipboard is a single text cell. *)
#[export] Instance text_cell : ElectronClipboard string :=
  {| clipboard_readText := fun w => w;
     clipboard_writeText := fun value _ => value |}.

(** * Vocabulary of the properties, and example data *)

(** No launch has a named configuration. *)
Definition no_configuration (ds : IDebugService) : Prop :=
  Forall (fun l => Launch.getConfigurationNames l = [])
    (getLaunches (getConfigurationManager ds)).

(** A running session, and no launch configuration. *)
Definition one_session : IDebugService :=
  {| state := Running;
     getModel :=
       {| getSessions :=
            [ {| DebugSession.getLabel := "node";
                 DebugSession.evaluate := fun _ _ _ =>
                   Rejected (Error "not available") |} ];
          getBreakpoints := []; getFunctionBreakpoints := [];
          getExceptionBreakpoints := []; getWatchExpressions := [];
          areBreakpointsActivated := true |};
     getViewModel := getViewModel empty_debugService;
     getConfigurationManager := {| getLaunches := [] |} |}.

(** The function breakpoints all have a name. *)
Definition all_named (ds : IDebugService) : Prop :=
  Forall (fun fbp => FunctionBreakpoint.name fbp <> "")
    (getFunctionBreakpoints (getModel ds)).

(** Every line, function and exception breakpoint has its [enabled] flag
    equal to [b]. *)
Definition all_flags (b : bool) (m : IDebugModel) : Prop :=
  Forall (fun bp => Breakpoint.enabled bp = b) (getBreakpoints m)
  /\ Forall (fun fbp => FunctionBreakpoint.enabled fbp = b)
       (getFunctionBreakpoints m)
  /\ Forall (fun ebp => ExceptionBreakpoint.enabled ebp = b)
       (getExceptionBreakpoints m).

(** The combined breakpoint set is homogeneous: all enabled, or all
    disabled (the empty set is both). *)
Definition homogeneous (m : IDebugModel) : Prop :=
  all_flags true m \/ all_flags false m.

(** One line breakpoint and one exception breakpoint, both enabled. *)
Definition two_enabled_breakpoints : IDebugService :=
  with_model
    (with_exceptionBreakpoints
       [ {| ExceptionBreakpoint.filter := "uncaught";
            ExceptionBreakpoint.enabled := true |} ]
       (with_breakpoints
          [ {| Breakpoint.getId := "b1"; Breakpoint.enabled := true |} ]
          empty_model))
    empty_debugService.

(** The sizes of the collections the predicate of a class looks at. *)
Definition inspected_sizes (c : DebugActionClass) (ds : IDebugService)
  : list nat :=
  let m := getModel ds in
  match c with
  | StartAction | RunAction =>
      [length (getSessions m);
       length (getLaunches (getConfigurationManager ds))]
  | RemoveAllBreakpointsAction | ToggleBreakpointsActivatedAction =>
      [length (getBreakpoints m); length (getFunctionBreakpoints m)]
  | EnableAllBreakpointsAction | DisableAllBreakpointsAction
  | ReapplyBreakpointsAction =>
      [length (getBreakpoints m); length (getFunctionBreakpoints m);
       length (getExceptionBreakpoints m)]
  | AddFunctionBreakpointAction => [length (getFunctionBreakpoints m)]
  | AddWatchExpressionAction | RemoveAllWatchExpressionsAction =>
      [length (getWatchExpressions m)]
  | ConfigureAction | SelectAndStartAction | RemoveBreakpointAction
  | EditWatchExpressionAction | RemoveWatchExpressionAction
  | FocusSessionAction => []
  end.

(** What each predicate answers when every collection it looks at is
    empty: the predicates that ask for an element or a positive count
    answer false; the predicates that ask something of every element answer
    true, as far as their other conditions allow. *)
Definition on_empty (c : DebugActionClass) (ds : IDebugService) : bool :=
  match c with
  | RemoveAllBreakpointsAction | EnableAllBreakpointsAction
  | DisableAllBreakpointsAction | ToggleBreakpointsActivatedAction
  | ReapplyBreakpointsAction | RemoveAllWatchExpressionsAction => false
  | StartAction | RunAction => negb (State_eqb (state ds) Initializing)
  | AddFunctionBreakpointAction =>
      bool_decide (getSelectedFunctionBreakpoint (getViewModel ds) = None)
  | AddWatchExpressionAction => true
  | ConfigureAction | SelectAndStartAction | RemoveBreakpointAction
  | EditWatchExpressionAction | RemoveWatchExpressionAction
  | FocusSessionAction => true
  end.

(** A session that rejects every evaluate request. *)
Definition failing_session : DebugSession.t :=
  {| DebugSession.getLabel := "node";
     DebugSession.evaluate := fun _ _ _ => Rejected (Error "not available") |}.

(** The variable [x], shown with the value [42]. *)
Definition variable_x : DebugVariable.t :=
  {| DebugVariable.value := "42"; DebugVariable.evaluateName := Some "x" |}.

(** Stopped in frame 7 of [failing_session]. *)
Definition stopped_services : Services :=
  {| debugService :=
       {| state := Stopped;
          getModel := with_breakpoints [] empty_model;
          getViewModel :=
            {| getSelectedFunctionBreakpoint := None;
               focusedStackFrame := Some {| StackFrame.frameId := 7 |};
               focusedSession := Some failing_session |};
          getConfigurationManager := {| getLaunches := [] |} |};
     listeners := []; nextToken := 0; clipboardText := VUndefined;
     evaluateRequests := [] |}.

(** The class and the subscriptions of the object at [r]. *)
Definition identity_at (r : Ref) (w : World)
  : option (ActionClass * list IDisposable) :=
  (fun a => (classOf a, toDispose a)) <$> heap w !! r.

(** The object at [r] is a debug action of class [c] whose [enabled] flag
    equals its predicate on the current state of the debug service. *)
Definition in_sync (r : Ref) (c : DebugActionClass) (w : World) : Prop :=
  exists a,
    heap w !! r = Some a
    /\ classOf a = DebugAction c
    /\ isEnabled c (debugService (services w))
         (state (debugService (services w))) = Normal (_enabled a).

(** A listener that does not recompute the enablement of [r] on [n]. *)
Definition quiet (r : Ref) (n : Notification) (l : Listener) : Prop :=
  this l = r -> event l = event_of n -> updates_enablement (callback l) = false.

(** A listener that recomputes the enablement of [r] on [n]. *)
Definition refreshes (r : Ref) (n : Notification) (l : Listener) : Prop :=
  this l = r /\ event l = event_of n /\ updates_enablement (callback l) = true.

(** A step the debug action at [r] cannot miss: it is subscribed to the
    notification, or the step leaves the value of its predicate as it
    was. *)
Definition announced (r : Ref) (c : DebugActionClass) (w : World)
    (sn : IDebugService * Notification) : Prop :=
  payload_current sn
  /\ (subscribed r (event_of (snd sn)) w = true
      \/ isEnabled c (fst sn) (state (fst sn))
         = isEnabled c (debugService (services w))
             (state (debugService (services w)))).

Fixpoint all_announced (r : Ref) (c : DebugActionClass) (w : World)
    (trace : list (IDebugService * Notification)) : Prop :=
  match trace with
  | [] => True
  | sn :: trace' => announced r c w sn /\ all_announced r c (step w sn) trace'
  end.

(** The listener every debug action registers first. *)
Definition state_listener (self : Ref) (env : Services) : Listener :=
  {| token := nextToken env; event := OnDidChangeState; this := self;
     callback := cb_updateEnablement_state |}.

(** The subscriptions the constructor of each class makes, in order: the
    one of [AbstractDebugAction] first, then the ones of the subclass. *)
Definition registrations (c : ActionClass) : list (EventKind * Callback) :=
  match c with
  | DebugAction d =>
      (OnDidChangeState, cb_updateEnablement_state)
      :: match d with
         | ConfigureAction => [(OnDidSelectConfiguration, cb_updateClass)]
         | StartAction | RunAction =>
             [(OnDidSelectConfiguration, cb_updateEnablement);
              (OnDidNewSession, cb_updateEnablement);
              (OnDidEndSession, cb_updateEnablement);
              (OnDidChangeWorkbenchState, cb_updateEnablement)]
         | RemoveAllBreakpointsAction | EnableAllBreakpointsAction
         | DisableAllBreakpointsAction | ReapplyBreakpointsAction
         | AddFunctionBreakpointAction =>
             [(OnDidChangeBreakpoints, cb_updateEnablement)]
         | ToggleBreakpointsActivatedAction =>
             [(OnDidChangeBreakpoints, cb_updateLabel_updateEnablement)]
         | AddWatchExpressionAction | RemoveAllWatchExpressionsAction =>
             [(OnDidChangeWatchExpressions, cb_updateEnablement)]
         | SelectAndStartAction | RemoveBreakpointAction
         | EditWatchExpressionAction | RemoveWatchExpressionAction
         | FocusSessionAction => []
         end
  | ToggleReplAction => [(OnDidPanelOpen, cb_panelOpen)]
  | CopyValueAction => []
  end.

(** The listeners these subscriptions give, for the object [self], with
    tokens from [t] on. *)
Fixpoint register_all (self : Ref) (t : nat)
    (regs : list (EventKind * Callback)) : list Listener :=
  match regs with
  | [] => []
  | (e, cb) :: regs' =>
      {| token := t; event := e; this := self; callback := cb |}
      :: register_all self (S t) regs'
  end.

(** The notifications on which a debug action of class [c] recomputes its
    enablement. *)
Definition enablement_events (c : DebugActionClass) : list EventKind :=
  OnDidChangeState
  :: match c with
     | StartAction | RunAction =>
         [OnDidSelectConfiguration; OnDidNewSession; OnDidEndSession;
          OnDidChangeWorkbenchState]
     | RemoveAllBreakpointsAction | EnableAllBreakpointsAction
     | DisableAllBreakpointsAction | ToggleBreakpointsActivatedAction
     | ReapplyBreakpointsAction | AddFunctionBreakpointAction =>
         [OnDidChangeBreakpoints]
     | AddWatchExpressionAction | RemoveAllWatchExpressionsAction =>
         [OnDidChangeWatchExpressions]
     | ConfigureAction | SelectAndStartAction | RemoveBreakpointAction
     | EditWatchExpressionAction | RemoveWatchExpressionAction
     | FocusSessionAction => []
     end.

(** What a constructor leaves behind, whether it completes or throws: the
    debug service is untouched; the listeners of [registrations] come after
    the ones that were there, all close over the new object, and all are
    recorded in its [toDispose]; [_enabled] has its initial value. *)
Definition constructed (c : ActionClass) (self : Ref) (args : Args)
    (env : Services) (a1 : ActionObject) (env1 : Services) : Prop :=
  let added := register_all self (nextToken env) (registrations c) in
  debugService env1 = debugService env
  /\ classOf a1 = c
  /\ listeners env1 = listeners env ++ added
  /\ Forall (fun l => this l = self /\ In (token l) (toDispose a1)) added
  /\ match c with
     | DebugAction d =>
         isEnabled d (debugService env) (state (debugService env))
         = Normal (_enabled a1)
     | ToggleReplAction => True
     | CopyValueAction =>
         _enabled a1 = CopyValueAction_enabled (arg_value args)
     end.

(** The empty debug domain while a session is starting. *)
Definition initializing : IDebugService :=
  {| state := Initializing; getModel := empty_model;
     getViewModel := getViewModel empty_debugService;
     getConfigurationManager := getConfigurationManager empty_debugService |}.

(** Every listener that closes over [r] is recorded in the [toDispose] of
    the object at [r]. *)
Definition owns_its_listeners (r : Ref) (w : World) : Prop :=
  exists a,
    heap w !! r = Some a
    /\ forall l, In l (listeners (services w)) -> this l = r ->
       classOf a <> CopyValueAction /\ In (token l) (toDispose a).

(** The object at [r] holds no subscription any more. *)
Definition released (r : Ref) (w : World) : Prop :=
  exists a,
    heap w !! r = Some a
    /\ (classOf a = CopyValueAction \/ toDispose a = []).

(** A single line breakpoint. *)
Definition one_breakpoint : IDebugService :=
  with_model
    (with_breakpoints
       [ {| Breakpoint.getId := "b1"; Breakpoint.enabled := true |} ]
       empty_model)
    empty_debugService.

(** A string, or a [Variable] with a non-empty [evaluateName]. *)
Definition copyable (v : Value) : Prop :=
  (exists s, v = VString s)
  \/ (exists var evaluateName,
        v = VVariable var
        /\ DebugVariable.evaluateName var = Some evaluateName
        /\ evaluateName <> "").

(** The arguments the variables view constructs a [CopyValueAction]
    with. *)
Definition copy_args (v : Value) : Args :=
  {| arg_id := "workbench.debug.viewlet.action.copyValue";
     arg_label := "Copy Value"; arg_value := v; arg_context := "hover" |}.

(** The listeners close over allocated objects only. *)
Definition fresh_refs (w : World) : Prop :=
  Forall (fun l => this l < nextRef w) (listeners (services w)).

(** * More of the source, and the vocabulary of its properties *)

(** Some launch has a named configuration. *)
Definition has_configuration (ds : IDebugService) : Prop :=
  Exists (fun l => Launch.getConfigurationNames l <> [])
    (getLaunches (getConfigurationManager ds)).

(** There is no breakpoint of any kind. *)
Definition no_breakpoints (m : IDebugModel) : Prop :=
  getBreakpoints m = [] /\ getFunctionBreakpoints m = []
  /\ getExceptionBreakpoints m = [].

(** The [label] and the [class] of the object at [r]. *)
Definition label_at (r : Ref) (w : World) : option string :=
  _label <$> heap w !! r.

Definition class_at (r : Ref) (w : World) : option string :=
  _cssClass <$> heap w !! r.

(** The total number of named configurations, as [updateClass] computes
    it. *)
Definition configurationCount (ds : IDebugService) : Completion nat :=
  reduce_sum
    (map (fun l => length (Launch.getConfigurationNames l))
       (getLaunches (getConfigurationManager ds))).

(** The css class [ConfigureAction] shows for a debug service: the plain
    one when some launch has a named configuration, the one with the
    notification badge otherwise. *)
Definition class_for (ds : IDebugService) (cls : string) : Prop :=
  (has_configuration ds /\ cls = "debug-action configure")
  \/ (~ has_configuration ds
      /\ cls = "debug-action configure notification").

(** One launch with one named configuration. *)
Definition one_launch : IDebugService :=
  {| state := Inactive; getModel := empty_model;
     getViewModel := getViewModel empty_debugService;
     getConfigurationManager :=
       {| getLaunches :=
            [ {| Launch.getConfigurationNames := ["Launch Program"] |} ] |} |}.

(** The empty world, with a given debug domain. *)
Definition world_of (ds : IDebugService) : World :=
  {| services := with_debugService ds (services empty_world);
     heap := ∅; nextRef := 0 |}.

(** The empty debug domain with breakpoints deactivated. *)
Definition deactivated : IDebugService :=
  with_model
    {| getSessions := []; getBreakpoints := []; getFunctionBreakpoints := [];
       getExceptionBreakpoints := []; getWatchExpressions := [];
       areBreakpointsActivated := false |}
    empty_debugService.

(** What an embedder does with the actions: construct one, let the debug
    domain take a step, dispose one. *)
Inductive Op : Type :=
| OpNew (c : ActionClass) (args : Args)
| OpStep (sn : IDebugService * Notification)
| OpDispose (r : Ref).

Definition exec (w : World) (op : Op) : World :=
  match op with
  | OpNew c args => snd (new c args w)
  | OpStep sn => step w sn
  | OpDispose r => snd (call r dispose w)
  end.

Fixpoint exec_all (w : World) (ops : list Op) : World :=
  match ops with
  | [] => w
  | op :: ops' => exec_all (exec w op) ops'
  end.

(** The bookkeeping of subscriptions is consistent: every registered
    listener closes over an object of the heap that is not a
    [CopyValueAction] and that records the listener's token in its
    [toDispose]; the tokens an object records are tokens that were handed
    out, and belong to no listener of another object. *)
Definition consistent (w : World) : Prop :=
  (forall l, In l (listeners (services w)) ->
     token l < nextToken (services w)
     /\ exists a, heap w !! this l = Some a
                  /\ classOf a <> CopyValueAction
                  /\ In (token l) (toDispose a))
  /\ (forall r a, heap w !! r = Some a ->
        r < nextRef w
        /\ (forall t, In t (toDispose a) -> t < nextToken (services w))
        /\ (forall l, In l (listeners (services w)) ->
              In (token l) (toDispose a) -> this l = r)).

(** [AbstractDebugAction.tooltip], the getter of the base class, which
    every subclass but [ConfigureAction] inherits.  [lookupKeybinding] is
    the keybinding service: [None] when the action has no keybinding,
    [Some None] when the keybinding has no label ([getLabel()] is
    [null]). *)
Definition AbstractDebugAction_tooltip
    (lookupKeybinding : string -> option (option string))
    (a : ActionObject) : string :=
  let keybinding := lookupKeybinding (_id a) in
  let keybindingLabel :=
    match keybinding with
    | Some k => k
    | None => None
    end in
  if truthy_opt keybindingLabel
  then String.append (_label a)
         (String.append " ("
            (String.append (default "" keybindingLabel) ")"))
  else _label a.

(** [FocusSessionAction.run], its first statement: the session to focus,
    [getSessions().filter(p => p.getLabel() === sessionName).pop()]. *)
Definition FocusSessionAction_session (sessionName : string)
    (ds : IDebugService) : option DebugSession.t :=
  last (List.filter
          (fun p => String.eqb (DebugSession.getLabel p) sessionName)
          (getSessions (getModel ds))).

(** The calls an extension host makes on the clipboard bridge. *)
Inductive BridgeCall : Type :=
| CallReadText
| CallWriteText (value : string)
| CallDispose.

Definition bridge_call {W} `{ElectronClipboard W} (call : BridgeCall) (w : W)
  : W :=
  match call with
  | CallReadText => snd (MainThreadCommands.readText w)
  | CallWriteText value => snd (MainThreadCommands.writeText value w)
  | CallDispose => MainThreadCommands.dispose w
  end.

Fixpoint bridge_calls {W} `{ElectronClipboard W} (calls : list BridgeCall)
    (w : W) : W :=
  match calls with
  | [] => w
  | call :: calls' => bridge_calls calls' (bridge_call call w)
  end.

(** The value of the last [writeText] among the calls, if there is one. *)
Fixpoint last_written (calls : list BridgeCall) : option string :=
  match calls with
  | [] => None
  | call :: calls' =>
      match last_written calls', call with
      | Some v, _ => Some v
      | None, CallWriteText v => Some v
      | None, _ => None
      end
  end.

(** A session that answers every evaluate request with ["43"]. *)
Definition answering_session : DebugSession.t :=
  {| DebugSession.getLabel := "node";
     DebugSession.evaluate := fun _ _ _ =>
       Resolved {| body_result := "43" |} |}.

(** [ConfigureAction.LABEL]: ["Open {0}"] with ['launch.json'] filled
    in. *)
Definition ConfigureAction_LABEL : string := "Open launch.json".

(** [ConfigureAction.tooltip], the getter that overrides the one of
    [AbstractDebugAction]; [selectedConfiguration_name] is
    [getConfigurationManager().selectedConfiguration.name], a string or
    [undefined]. *)
Definition ConfigureAction_tooltip (selectedConfiguration_name : option string)
  : string :=
  if truthy_opt selectedConfiguration_name then ConfigureAction_LABEL
  else "Configure or Fix 'launch.json'".

(** [a.tooltip], the getter of the receiver's class: the override for a
    [ConfigureAction], the getter of [AbstractDebugAction] for the other
    debug actions, and the plain accessor of [Action] for the classes that
    do not extend [AbstractDebugAction]. *)
Definition tooltip (lookupKeybinding : string -> option (option string))
    (selectedConfiguration_name : option string) (a : ActionObject)
  : string :=
  match classOf a with
  | DebugAction ConfigureAction =>
      ConfigureAction_tooltip selectedConfiguration_name
  | DebugAction _ => AbstractDebugAction_tooltip lookupKeybinding a
  | ToggleReplAction | CopyValueAction => _tooltip a
  end.

(** ** The [run] methods of the debug actions *)

(** [WorkbenchState] (vs/platform/workspace). *)
Inductive WorkbenchState : Type := EMPTY | FOLDER | WORKSPACE.

(** What a caller hands to [run(e?: any)]: nothing, a mouse or keyboard
    event, a breakpoint, a watch expression, a string. *)
Inductive RunArg : Type :=
| ArgUndefined
| ArgEvent (ctrlKey metaKey : bool)
| ArgBreakpoint (breakpoint : Breakpoint.t)
| ArgFunctionBreakpoint (breakpoint : FunctionBreakpoint.t)
| ArgExpression (expression : Expression.t)
| ArgString (s : string).

(** A call into a service: it completes or throws, and may change what the
    services hold. *)
Definition ServiceCall (A : Type) : Type :=
  Services -> Completion A * Services.

(** A method calls a service: the receiver is not an argument of the call,
    so the call leaves it as it is. *)
Definition service {A} (f : ServiceCall A) : Method A :=
  fun self env =>
    match f env with
    | (res, env') => (res, self, env')
    end.

(** Modelled from the spec: the services the [run] methods call into are
    not among the sources (workspace context, notifications, the
    configuration manager, [startDebugging] of debugUtils, quick open, the
    debug service, the view model, a stack frame's [openInEditor]).  What
    each of them does is left open: any [ServiceCall].  The notifications
    a call gives rise to reach an action through the listeners it
    registered, when they are dispatched ([fire]). *)
Record Collaborators : Type :=
  { getWorkbenchState : Services -> WorkbenchState;
    notificationService_info : string -> ServiceCall unit;
    selectedConfiguration_launch : Services -> option Launch.t;
    selectConfiguration : option Launch.t -> ServiceCall unit;
    openConfigFile : Launch.t -> bool -> bool -> ServiceCall (Promise unit);
    startDebugging : bool -> ServiceCall (Promise bool);
    quickOpenService_show : string -> ServiceCall (Promise unit);
    enableOrDisableBreakpoints : bool -> ServiceCall (Promise unit);
    setBreakpointsActivated : bool -> ServiceCall (Promise unit);
    debugService_addFunctionBreakpoint : ServiceCall unit;
    addWatchExpression : ServiceCall unit;
    setSelectedExpression : RunArg -> ServiceCall unit;
    removeWatchExpressions : option string -> ServiceCall unit;
    focusStackFrame : option DebugSession.t -> ServiceCall unit;
    openInEditor : StackFrame.t -> bool -> ServiceCall (Promise unit) }.

(** The message of [ConfigureAction.run] when no folder is open. *)
Definition noFolderDebugConfig : string :=
  String.append "Please first open a folder in order to do "
    "advanced debug configuration.".

(** [ConfigureAction.run] *)
Definition ConfigureAction_run (K : Collaborators) (event : RunArg)
  : Method (Promise unit) :=
  env <- get_services ;;
  match getWorkbenchState K env with
  | EMPTY =>
      service (notificationService_info K noFolderDebugConfig) ;;
      ret (Resolved tt)
  | FOLDER | WORKSPACE =>
      let sideBySide :=
        match event with
        | ArgEvent ctrlKey metaKey => ctrlKey || metaKey
        | _ => false
        end in
      let configurationManager := getConfigurationManager (debugService env) in
      match selectedConfiguration_launch K env with
      | Some _ => ret tt
      | None =>
          service
            (selectConfiguration K (head (getLaunches configurationManager)))
      end ;;
      env' <- get_services ;;
      match selectedConfiguration_launch K env' with
      | Some launch => service (openConfigFile K launch sideBySide false)
      | None =>
          throw (TypeError "Cannot read properties of undefined")
      end
  end.

(** [isNoDebug()]: [false] in [StartAction], [true] in [RunAction]. *)
Definition isNoDebug (c : DebugActionClass) : bool :=
  match c with
  | RunAction => true
  | _ => false
  end.

(** [StartAction.run], which [RunAction] inherits. *)
Definition StartAction_run (K : Collaborators) (c : DebugActionClass)
  : Method (Promise bool) :=
  service (startDebugging K (isNoDebug c)).

(** [SelectAndStartAction.run] *)
Definition SelectAndStartAction_run (K : Collaborators)
  : Method (Promise unit) :=
  service (quickOpenService_show K "debug ").

(** [RemoveBreakpointAction.run]: [breakpoint instanceof Breakpoint]
    decides between the two removals; [getId()] of what is not an object
    with that method throws. *)
Definition RemoveBreakpointAction_run (breakpoint : RunArg)
  : Method (Promise unit) :=
  match breakpoint with
  | ArgBreakpoint b => removeBreakpoints (Some (Breakpoint.getId b))
  | ArgFunctionBreakpoint fbp =>
      removeFunctionBreakpoints (Some (FunctionBreakpoint.getId fbp))
  | ArgExpression e => removeFunctionBreakpoints (Some (Expression.getId e))
  | ArgUndefined | ArgEvent _ _ | ArgString _ =>
      throw (TypeError "breakpoint.getId is not a function")
  end.

(** [EnableAllBreakpointsAction.run] and [DisableAllBreakpointsAction.run] *)
Definition EnableAllBreakpointsAction_run (K : Collaborators)
  : Method (Promise unit) :=
  service (enableOrDisableBreakpoints K true).

Definition DisableAllBreakpointsAction_run (K : Collaborators)
  : Method (Promise unit) :=
  service (enableOrDisableBreakpoints K false).

(** [ToggleBreakpointsActivatedAction.run] *)
Definition ToggleBreakpointsActivatedAction_run (K : Collaborators)
  : Method (Promise unit) :=
  env <- get_services ;;
  service
    (setBreakpointsActivated K
       (negb (areBreakpointsActivated (getModel (debugService env))))).

(** [ReapplyBreakpointsAction.run] *)
Definition ReapplyBreakpointsAction_run (K : Collaborators)
  : Method (Promise unit) :=
  service (setBreakpointsActivated K true).

(** [AddFunctionBreakpointAction.run] *)
Definition AddFunctionBreakpointAction_run (K : Collaborators)
  : Method (Promise unit) :=
  service (debugService_addFunctionBreakpoint K) ;;
  ret (Resolved tt).

(** [AddWatchExpressionAction.run] *)
Definition AddWatchExpressionAction_run (K : Collaborators)
  : Method (Promise unit) :=
  service (addWatchExpression K) ;;
  ret (Resolved tt).

(** [EditWatchExpressionAction.run] *)
Definition EditWatchExpressionAction_run (K : Collaborators)
    (expression : RunArg) : Method (Promise unit) :=
  service (setSelectedExpression K expression) ;;
  ret (Resolved tt).

(** [RemoveWatchExpressionAction.run] *)
Definition RemoveWatchExpressionAction_run (K : Collaborators)
    (expression : RunArg) : Method (Promise unit) :=
  match expression with
  | ArgExpression e =>
      service (removeWatchExpressions K (Some (Expression.getId e))) ;;
      ret (Resolved tt)
  | ArgBreakpoint b =>
      service (removeWatchExpressions K (Some (Breakpoint.getId b))) ;;
      ret (Resolved tt)
  | ArgFunctionBreakpoint fbp =>
      service
        (removeWatchExpressions K (Some (FunctionBreakpoint.getId fbp))) ;;
      ret (Resolved tt)
  | ArgUndefined | ArgEvent _ _ | ArgString _ =>
      throw (TypeError "expression.getId is not a function")
  end.

(** [RemoveAllWatchExpressionsAction.run] *)
Definition RemoveAllWatchExpressionsAction_run (K : Collaborators)
  : Method (Promise unit) :=
  service (removeWatchExpressions K None) ;;
  ret (Resolved tt).

(** [FocusSessionAction.run]: [p.getLabel() === sessionName] holds of no
    session when [sessionName] is not a string. *)
Definition FocusSessionAction_run (K : Collaborators) (sessionName : RunArg)
  : Method (Promise unit) :=
  env <- get_services ;;
  let session :=
    match sessionName with
    | ArgString s => FocusSessionAction_session s (debugService env)
    | _ => None
    end in
  service (focusStackFrame K session) ;;
  env' <- get_services ;;
  match focusedStackFrame (getViewModel (debugService env')) with
  | Some stackFrame => service (openInEditor K stackFrame true)
  | None => ret (Resolved tt)
  end.

(** What [run] returns: a [Promise<any>] whose value nobody looks at, the
    [Promise<boolean>] of [StartAction], or the [Promise.all] of
    [RemoveAllBreakpointsAction]. *)
Inductive RunResult : Type :=
| PromiseAny (p : Promise unit)
| PromiseBoolean (p : Promise bool)
| PromiseAll (p : Promise (unit * unit)).

(** The [run] method of each class; every subclass overrides the one of
    [AbstractDebugAction]. *)
Definition run (K : Collaborators) (c : DebugActionClass) (e : RunArg)
  : Method RunResult :=
  let any (m : Method (Promise unit)) : Method RunResult :=
    p <- m ;; ret (PromiseAny p) in
  match c with
  | ConfigureAction => any (ConfigureAction_run K e)
  | StartAction | RunAction =>
      p <- StartAction_run K c ;; ret (PromiseBoolean p)
  | SelectAndStartAction => any (SelectAndStartAction_run K)
  | RemoveBreakpointAction => any (RemoveBreakpointAction_run e)
  | RemoveAllBreakpointsAction =>
      p <- RemoveAllBreakpointsAction_run ;; ret (PromiseAll p)
  | EnableAllBreakpointsAction => any (EnableAllBreakpointsAction_run K)
  | DisableAllBreakpointsAction => any (DisableAllBreakpointsAction_run K)
  | ToggleBreakpointsActivatedAction =>
      any (ToggleBreakpointsActivatedAction_run K)
  | ReapplyBreakpointsAction => any (ReapplyBreakpointsAction_run K)
  | AddFunctionBreakpointAction => any (AddFunctionBreakpointAction_run K)
  | AddWatchExpressionAction => any (AddWatchExpressionAction_run K)
  | EditWatchExpressionAction => any (EditWatchExpressionAction_run K e)
  | RemoveWatchExpressionAction => any (RemoveWatchExpressionAction_run K e)
  | RemoveAllWatchExpressionsAction =>
      any (RemoveAllWatchExpressionsAction_run K)
  | FocusSessionAction => any (FocusSessionAction_run K e)
  end.

(** A method that leaves its receiver as it found it, whether it completes
    or throws. *)
Definition keeps_this {A} (m : Method A) : Prop :=
  forall a env, snd (fst (m a env)) = a.

(** Services that do nothing, for examples. *)
Definition idle : Collaborators :=
  {| getWorkbenchState := fun _ => FOLDER;
     notificationService_info := fun _ env => (Normal tt, env);
     selectedConfiguration_launch := fun _ => None;
     selectConfiguration := fun _ env => (Normal tt, env);
     openConfigFile := fun _ _ _ env => (Normal (Resolved tt), env);
     startDebugging := fun _ env => (Normal (Resolved true), env);
     quickOpenService_show := fun _ env => (Normal (Resolved tt), env);
     enableOrDisableBreakpoints := fun _ env => (Normal (Resolved tt), env);
     setBreakpointsActivated := fun _ env => (Normal (Resolved tt), env);
     debugService_addFunctionBreakpoint := fun env => (Normal tt, env);
     addWatchExpression := fun env => (Normal tt, env);
     setSelectedExpression := fun _ env => (Normal tt, env);
     removeWatchExpressions := fun _ env => (Normal tt, env);
     focusStackFrame := fun _ env => (Normal tt, env);
     openInEditor := fun _ _ env => (Normal (Resolved tt), env) |}.

(** ** The state an enablement listener works with *)

(** The state [updateEnablement] is handed when a notification is
    dispatched: the payload of a state-changed notification, the current
    state of the debug service for the others (the default value of the
    parameter). *)
Definition handed_state (sn : IDebugService * Notification) : State :=
  match snd sn with
  | DidChangeState st => st
  | _ => state (fst sn)
  end.

(** The object at [r] is a debug action of class [c] whose [enabled] flag
    equals its predicate evaluated with the state [st]. *)
Definition enabled_is (r : Ref) (c : DebugActionClass) (st : State)
    (w : World) : Prop :=
  exists a,
    heap w !! r = Some a
    /\ classOf a = DebugAction c
    /\ isEnabled c (debugService (services w)) st = Normal (_enabled a).

(** A Reapply-all-breakpoints action, constructed in the empty world. *)
Definition reapply_world : World :=
  snd (new (DebugAction ReapplyBreakpointsAction) args0 empty_world).

(** A debug domain stopped at a breakpoint: one line breakpoint, state
    [Stopped]. *)
Definition stopped_at_breakpoint : IDebugService :=
  {| state := Stopped; getModel := getModel one_breakpoint;
     getViewModel := getViewModel one_breakpoint;
     getConfigurationManager := getConfigurationManager one_breakpoint |}.

(** * Properties *)

(** ** Booleans and lists *)

Lemma State_eqb_eq a b : State_eqb a b = true <-> a = b.
Proof. destruct a, b; simpl; split; congruence. Qed.

Lemma truthy_nonempty s : truthy s = true <-> s <> "".
Proof. destruct s; simpl; split; congruence. Qed.

Lemma forallb_Forall_iff {A} (f : A -> bool) (P : A -> Prop) (l : list A) :
  (forall x, f x = true <-> P x) -> forallb f l = true <-> Forall P l.
Proof.
  intros Hf. induction l as [|x l IH]; simpl.
  - split; [constructor | reflexivity].
  - rewrite andb_true_iff, IH, Hf. split.
    + intros [Hx Hl]. constructor; assumption.
    + intros H. inversion H; subst. split; assumption.
Qed.

Lemma existsb_Exists_iff {A} (f : A -> bool) (P : A -> Prop) (l : list A) :
  (forall x, f x = true <-> P x) -> existsb f l = true <-> Exists P l.
Proof.
  intros Hf. induction l as [|x l IH]; simpl.
  - split; [discriminate | intros H; inversion H].
  - rewrite orb_true_iff, IH, Hf. split.
    + intros [Hx | Hl]; [left | right]; assumption.
    + intros H. inversion H; subst; [left | right]; assumption.
Qed.

Lemma positive_length {A} (l : list A) : (0 <? length l) = true <-> l <> [].
Proof.
  destruct l; unfold Nat.ltb; simpl; split; intros H;
    congruence || reflexivity.
Qed.

(** ** The enablement predicates *)

(** C2.  The predicate of the Start action (which the Run action inherits)
    is false whenever the debug state is [Initializing], whatever else
    holds; it is false when at least one session exists and no launch has
    a named configuration; in every other case it is true. *)
Theorem StartAction_isEnabled_cases (ds : IDebugService) (st : State) :
  (state ds = Initializing -> isEnabled StartAction ds st = Normal false)
  /\ (getSessions (getModel ds) <> [] /\ no_configuration ds ->
      isEnabled StartAction ds st = Normal false)
  /\ (state ds <> Initializing ->
      ~ (getSessions (getModel ds) <> [] /\ no_configuration ds) ->
      isEnabled StartAction ds st = Normal true)
  /\ isEnabled RunAction ds st = isEnabled StartAction ds st.
Proof.
  assert (Hlaunch :
    forallb (fun l => length (Launch.getConfigurationNames l) =? 0)
      (getLaunches (getConfigurationManager ds)) = true
    <-> no_configuration ds).
  { apply forallb_Forall_iff. intros l. rewrite Nat.eqb_eq.
    destruct (Launch.getConfigurationNames l); simpl; split; congruence. }
  unfold isEnabled, StartAction_isEnabled.
  destruct (State_eqb (state ds) Initializing) eqn:Hst.
  - apply State_eqb_eq in Hst. repeat split; congruence.
  - assert (state ds <> Initializing) as Hne.
    { intros H. apply State_eqb_eq in H. congruence. }
    destruct ((0 <? length (getSessions (getModel ds)))
              && forallb _ _) eqn:Hb.
    + apply andb_true_iff in Hb. destruct Hb as [Hs Hl].
      apply positive_length in Hs. apply Hlaunch in Hl.
      repeat split; try congruence. intros _ H. exfalso. apply H. auto.
    + repeat split; try congruence.
      intros [Hs Hl]. apply positive_length in Hs. apply Hlaunch in Hl.
      rewrite Hs, Hl in Hb. discriminate.
Qed.

Lemma StartAction_isEnabled_cases_witness :
  isEnabled StartAction one_session Running = Normal false.
Proof.
  apply StartAction_isEnabled_cases. split.
  - simpl. discriminate.
  - constructor.
Defined.

Lemma AddFunctionBreakpoint_reflect (ds : IDebugService) (st : State) :
  isEnabled AddFunctionBreakpointAction ds st
  = Normal (bool_decide
              (getSelectedFunctionBreakpoint (getViewModel ds) = None)
            && forallb (fun fbp => truthy (FunctionBreakpoint.name fbp))
                 (getFunctionBreakpoints (getModel ds))).
Proof.
  unfold isEnabled.
  destruct (getSelectedFunctionBreakpoint (getViewModel ds)); reflexivity.
Qed.

Lemma all_named_forallb (ds : IDebugService) :
  forallb (fun fbp => truthy (FunctionBreakpoint.name fbp))
    (getFunctionBreakpoints (getModel ds)) = true <-> all_named ds.
Proof. apply forallb_Forall_iff. intros fbp. apply truthy_nonempty. Qed.

(** C3.  The predicate of the Add-function-breakpoint action is true
    exactly when no function breakpoint is selected for editing and every
    function breakpoint has a non-empty name (and false otherwise).  Adding
    a nameless function breakpoint makes it false; when it was true before,
    giving that breakpoint a non-empty name makes it true again. *)
Theorem AddFunctionBreakpoint_isEnabled_iff (ds : IDebugService) (st : State) :
  let P := getSelectedFunctionBreakpoint (getViewModel ds) = None
           /\ all_named ds in
  (isEnabled AddFunctionBreakpointAction ds st = Normal true <-> P)
  /\ (isEnabled AddFunctionBreakpointAction ds st = Normal false <-> ~ P)
  /\ (forall id,
        isEnabled AddFunctionBreakpointAction
          (addFunctionBreakpoint "" id ds) st = Normal false)
  /\ (forall id newName,
        isEnabled AddFunctionBreakpointAction ds st = Normal true ->
        newName <> "" ->
        isEnabled AddFunctionBreakpointAction
          (renameFunctionBreakpoint id newName
             (addFunctionBreakpoint "" id ds)) st = Normal true).
Proof.
  intros P.
  assert (Hiff : isEnabled AddFunctionBreakpointAction ds st = Normal true
                 <-> P).
  { rewrite AddFunctionBreakpoint_reflect. unfold P.
    rewrite <- all_named_forallb. split.
    - intros H. injection H as H. apply andb_true_iff in H.
      destruct H as [H1 H2]. apply bool_decide_eq_true in H1. auto.
    - intros [H1 H2]. rewrite H2, (bool_decide_eq_true_2 _ H1). reflexivity. }
  split; [exact Hiff|]. split; [|split].
  - rewrite <- Hiff, AddFunctionBreakpoint_reflect.
    destruct (_ && _); split; congruence.
  - intros id. rewrite AddFunctionBreakpoint_reflect. simpl.
    rewrite forallb_app. simpl. rewrite andb_false_r, andb_false_r.
    reflexivity.
  - intros id newName Hen Hname. apply Hiff in Hen. destruct Hen as [Hsel Hall].
    rewrite AddFunctionBreakpoint_reflect. simpl.
    rewrite (bool_decide_eq_true_2 _ Hsel). simpl. f_equal.
    rewrite map_app, forallb_app. simpl. rewrite String.eqb_refl. simpl.
    apply truthy_nonempty in Hname. rewrite Hname, andb_true_r.
    unfold all_named in Hall.
    induction Hall as [|fbp l Hfbp Hl IH]; [reflexivity|].
    simpl. rewrite IH, andb_true_r.
    destruct (String.eqb (FunctionBreakpoint.getId fbp) id); simpl;
      [assumption | apply truthy_nonempty; assumption].
Qed.

Lemma AddFunctionBreakpoint_isEnabled_witness :
  isEnabled AddFunctionBreakpointAction
    (renameFunctionBreakpoint "fb1" "main"
       (addFunctionBreakpoint "" "fb1" empty_debugService)) Inactive
  = Normal true.
Proof.
  apply (AddFunctionBreakpoint_isEnabled_iff empty_debugService Inactive).
  - reflexivity.
  - discriminate.
Defined.

Lemma Forall_map_flag {A} (f : A -> bool) (b : bool) (l : list A) :
  Forall (fun x => f x = b) l -> Forall (eq b) (map f l).
Proof.
  induction 1 as [|x l Hx _ IH]; simpl; constructor; [symmetry|]; assumption.
Qed.

Lemma all_flags_enablements (b : bool) (m : IDebugModel) :
  all_flags b m -> Forall (eq b) (all_enablements m).
Proof.
  intros (H1 & H2 & H3). unfold all_enablements.
  apply Forall_app. split; [|apply Forall_app; split].
  - apply (Forall_map_flag enabled). exact H1.
  - apply (Forall_map_flag enabled). exact H2.
  - apply (Forall_map_flag enabled). exact H3.
Qed.

Lemma existsb_none (f : bool -> bool) (b : bool) (l : list bool) :
  f b = false -> Forall (eq b) l -> existsb f l = false.
Proof.
  intros Hf. induction 1 as [|x l Hx _ IH]; simpl; [reflexivity|].
  subst x. rewrite Hf, IH. reflexivity.
Qed.

(** C4.  When the line, function and exception breakpoints taken together
    are homogeneous (all enabled, or all disabled, the empty set included),
    the predicates of Enable-all-breakpoints and Disable-all-breakpoints
    are not both true. *)
Theorem enable_all_disable_all_exclusive (ds : IDebugService) (st : State) :
  homogeneous (getModel ds) ->
  ~ (isEnabled EnableAllBreakpointsAction ds st = Normal true
     /\ isEnabled DisableAllBreakpointsAction ds st = Normal true).
Proof.
  intros Hhom [Hen Hdis]. unfold isEnabled, super_and in Hen, Hdis.
  simpl in Hen, Hdis.
  destruct Hhom as [Hall | Hall]; apply all_flags_enablements in Hall.
  - rewrite (existsb_none _ true _ eq_refl Hall) in Hen. discriminate.
  - rewrite (existsb_none _ false _ eq_refl Hall) in Hdis. discriminate.
Qed.

Lemma enable_all_disable_all_exclusive_witness :
  homogeneous (getModel two_enabled_breakpoints)
  /\ ~ (isEnabled EnableAllBreakpointsAction two_enabled_breakpoints Stopped
        = Normal true
        /\ isEnabled DisableAllBreakpointsAction two_enabled_breakpoints
             Stopped = Normal true).
Proof.
  assert (H : homogeneous (getModel two_enabled_breakpoints)).
  { left. repeat split; repeat constructor. }
  split; [exact H|].
  exact (enable_all_disable_all_exclusive two_enabled_breakpoints Stopped H).
Defined.

Lemma isEnabled_returns (c : DebugActionClass) (ds : IDebugService)
    (st : State) : exists b, isEnabled c ds st = Normal b.
Proof.
  destruct c; unfold isEnabled, StartAction_isEnabled, super_and; simpl;
    repeat match goal with
           | |- context [if ?b then _ else _] => destruct b
           end; eauto.
Qed.

(** C8, as the code has it.  Every enablement predicate returns a boolean
    for every debug state and every content of the collections, and never
    throws.  When the collections it looks at are all empty, it returns
    what [on_empty] says: false for Remove-all-breakpoints, Enable-all,
    Disable-all, Toggle-breakpoints-activated, Reapply and
    Remove-all-watch-expressions, and true for Add-watch-expression (for
    Add-function-breakpoint unless a breakpoint is selected, for Start and
    Run unless the state is [Initializing]). *)
Theorem isEnabled_total (c : DebugActionClass) (ds : IDebugService)
    (st : State) :
  (exists b, isEnabled c ds st = Normal b)
  /\ (Forall (eq 0) (inspected_sizes c ds) ->
      isEnabled c ds st = Normal (on_empty c ds)).
Proof.
  split; [apply isEnabled_returns|].
  intros Hempty.
  destruct c; simpl in Hempty;
    repeat match goal with
           | H : Forall _ (_ :: _) |- _ => inversion_clear H
           | H : 0 = length ?l |- _ =>
               destruct l eqn:?; [clear H | discriminate H]
           end;
    unfold isEnabled, StartAction_isEnabled, super_and, all_enablements;
    simpl;
    repeat match goal with
           | H : _ = [] |- _ => rewrite H
           end; simpl; try reflexivity.
  - destruct (State_eqb (state ds) Initializing); reflexivity.
  - destruct (State_eqb (state ds) Initializing); reflexivity.
  - rewrite andb_false_r. reflexivity.
  - destruct (getSelectedFunctionBreakpoint (getViewModel ds)); reflexivity.
Qed.

Lemma isEnabled_total_witness :
  isEnabled RemoveAllWatchExpressionsAction empty_debugService Inactive
  = Normal false.
Proof.
  apply (isEnabled_total RemoveAllWatchExpressionsAction empty_debugService).
  repeat constructor.
Defined.

(** C8, as stated, fails: with no watch expression at all, the predicate of
    Add-watch-expression is true, not false. *)
Lemma AddWatchExpression_enabled_on_empty :
  getWatchExpressions (getModel empty_debugService) = []
  /\ isEnabled AddWatchExpressionAction empty_debugService Inactive
     = Normal true
  /\ isEnabled AddWatchExpressionAction empty_debugService Inactive
     <> Normal false.
Proof. repeat split. discriminate. Qed.

(** ** The clipboard bridge *)

(** C5.  The bridge passes text through untouched: [writeText] hands
    exactly its argument to the native clipboard, [readText] resolves with
    exactly what the native clipboard returns and changes nothing; so on a
    clipboard that returns what was written last, [writeText value]
    followed by [readText] resolves with [value]. *)
Theorem clipboard_round_trip {W : Type} `{ElectronClipboard W}
    (value : string) (w : W) :
  (forall v w0, clipboard_readText (clipboard_writeText v w0) = v) ->
  MainThreadCommands.writeText value w
  = (Resolved tt, clipboard_writeText value w)
  /\ MainThreadCommands.readText (snd (MainThreadCommands.writeText value w))
     = (Resolved value, snd (MainThreadCommands.writeText value w)).
Proof.
  intros Hcell. split; [reflexivity|].
  unfold MainThreadCommands.readText, MainThreadCommands.writeText. simpl.
  rewrite Hcell. reflexivity.
Qed.

Lemma clipboard_round_trip_witness :
  fst (MainThreadCommands.readText
         (snd (MainThreadCommands.writeText "hello" "previous text")))
  = Resolved "hello".
Proof.
  pose proof (clipboard_round_trip (W := string) "hello" "previous text"
                (fun v w0 => eq_refl)) as [_ Hread].
  rewrite Hread. reflexivity.
Defined.

(** ** Running actions *)

(** C6.  When the value is a [Variable] with an [evaluateName], a stack
    frame and a session are focused, and the session rejects the evaluate
    request, [run] completes with a resolved promise (the error does not
    surface), the clipboard holds the variable's own [value], and exactly
    one evaluate request was sent (no retry). *)
Theorem CopyValueAction_run_fallback (a : ActionObject) (env : Services)
    (v : DebugVariable.t) (evaluateName : string)
    (stackFrame : StackFrame.t) (session : DebugSession.t) (err : JsError) :
  value a = VVariable v ->
  DebugVariable.evaluateName v = Some evaluateName ->
  evaluateName <> "" ->
  focusedStackFrame (getViewModel (debugService env)) = Some stackFrame ->
  focusedSession (getViewModel (debugService env)) = Some session ->
  DebugSession.evaluate session evaluateName
    (StackFrame.frameId stackFrame) (context a) = Rejected err ->
  exists env',
    CopyValueAction_run a env = (Normal (Resolved tt), a, env')
    /\ clipboardText env' = VString (DebugVariable.value v)
    /\ evaluateRequests env'
       = evaluateRequests env
         ++ [(evaluateName, StackFrame.frameId stackFrame, context a)]
    /\ debugService env' = debugService env
    /\ listeners env' = listeners env.
Proof.
  intros Hval Hname Hne Hframe Hsession Hrejected.
  apply truthy_nonempty in Hne.
  unfold CopyValueAction_run, bind, get_this, get_services.
  rewrite Hval, Hframe, Hsession, Hname, Hne.
  unfold session_evaluate, promise_then, bind, modify_services, ret.
  rewrite Hrejected. simpl.
  eexists. split; [reflexivity|]. simpl. repeat split.
Qed.

Lemma CopyValueAction_run_fallback_witness :
  exists env',
    CopyValueAction_run
      (with_value (VVariable variable_x) "hover" (blank CopyValueAction))
      stopped_services
    = (Normal (Resolved tt),
       with_value (VVariable variable_x) "hover" (blank CopyValueAction),
       env')
    /\ clipboardText env' = VString "42"
    /\ evaluateRequests env' = [("x", 7, "hover")]
    /\ debugService env' = debugService stopped_services
    /\ listeners env' = listeners stopped_services.
Proof.
  apply (CopyValueAction_run_fallback
           (with_value (VVariable variable_x) "hover" (blank CopyValueAction))
           stopped_services variable_x "x" {| StackFrame.frameId := 7 |}
           failing_session (Error "not available")).
  - reflexivity.
  - reflexivity.
  - discriminate.
  - reflexivity.
  - reflexivity.
  - reflexivity.
Defined.

Lemma filter_nothing {A} (l : list A) : List.filter (fun _ => false) l = [].
Proof. induction l as [|x l IH]; simpl; [reflexivity | exact IH]. Qed.

(** C10.  Running Remove-all-breakpoints completes with a resolved
    promise, leaves no line breakpoint and no function breakpoint, and
    leaves the exception breakpoints as they were; its predicate does not
    look at the exception breakpoints either, and is false afterwards. *)
Theorem RemoveAllBreakpoints_run_frame (a : ActionObject) (env : Services) :
  exists env',
    RemoveAllBreakpointsAction_run a env = (Normal (Resolved (tt, tt)), a, env')
    /\ getBreakpoints (getModel (debugService env')) = []
    /\ getFunctionBreakpoints (getModel (debugService env')) = []
    /\ getExceptionBreakpoints (getModel (debugService env'))
       = getExceptionBreakpoints (getModel (debugService env))
    /\ (forall ebps st,
          isEnabled RemoveAllBreakpointsAction
            (with_model
               (with_exceptionBreakpoints ebps (getModel (debugService env)))
               (debugService env)) st
          = isEnabled RemoveAllBreakpointsAction (debugService env) st)
    /\ (forall st,
          isEnabled RemoveAllBreakpointsAction (debugService env') st
          = Normal false).
Proof.
  eexists. split; [reflexivity|]. simpl.
  rewrite !filter_nothing. repeat split.
Qed.

(** ** Methods on one object *)

#[local] Arguments isEnabled : simpl never.

Lemma updateEnablement_debug (a : ActionObject) (env : Services)
    (st : option State) (c : DebugActionClass) (b : bool) :
  classOf a = DebugAction c ->
  isEnabled c (debugService env) (default (state (debugService env)) st)
  = Normal b ->
  updateEnablement st a env = (Normal tt, with_enabled b a, env).
Proof.
  intros Hc Hb. unfold updateEnablement, bind, get_this, get_services.
  rewrite Hc. unfold bind, lift. rewrite Hb. reflexivity.
Qed.

Lemma updateEnablement_not_debug (a : ActionObject) (env : Services)
    (st : option State) :
  (forall c, classOf a <> DebugAction c) ->
  exists e, updateEnablement st a env = (Throw e, a, env).
Proof.
  intros Hc. unfold updateEnablement, bind, get_this, get_services.
  destruct (classOf a) as [c| |]; [destruct (Hc c); reflexivity | |];
    eexists; reflexivity.
Qed.

(** What a callback does to the object it runs on: the services, the class
    and the subscriptions stay; [_enabled] changes only through
    [updateEnablement], which sets it to the value of the predicate. *)
Lemma run_callback_spec (cb : Callback) (n : Notification)
    (a : ActionObject) (env : Services) :
  exists res a',
    run_callback cb n a env = (res, a', env)
    /\ classOf a' = classOf a
    /\ toDispose a' = toDispose a
    /\ (updates_enablement cb = false -> _enabled a' = _enabled a)
    /\ (forall c, classOf a = DebugAction c ->
        updates_enablement cb = true ->
        payload_current (debugService env, n) ->
        isEnabled c (debugService env) (state (debugService env))
        = Normal (_enabled a')).
Proof.
  assert (Hupd : forall st a0,
    exists res a',
      updateEnablement st a0 env = (res, a', env)
      /\ classOf a' = classOf a0 /\ toDispose a' = toDispose a0
      /\ (forall c, classOf a0 = DebugAction c ->
          isEnabled c (debugService env)
            (default (state (debugService env)) st)
          = Normal (_enabled a'))).
  { intros st a0. destruct (classOf a0) as [c| |] eqn:Hc.
    - destruct (isEnabled_returns c (debugService env)
                  (default (state (debugService env)) st)) as [b Hb].
      exists (Normal tt), (with_enabled b a0).
      rewrite (updateEnablement_debug a0 env st c b Hc Hb).
      repeat split; try assumption.
      intros c' Hc'. injection Hc' as <-. exact Hb.
    - destruct (updateEnablement_not_debug a0 env st) as [e He];
        [congruence|].
      exists (Throw e), a0. rewrite He. repeat split; try assumption.
      intros c' Hc'. discriminate.
    - destruct (updateEnablement_not_debug a0 env st) as [e He];
        [congruence|].
      exists (Throw e), a0. rewrite He. repeat split; try assumption.
      intros c' Hc'. discriminate. }
  destruct cb.
  - (* state => this.updateEnablement(state) *)
    assert (exists st, run_callback cb_updateEnablement_state n a env
                       = updateEnablement st a env
                       /\ (payload_current (debugService env, n) ->
                           default (state (debugService env)) st
                           = state (debugService env)))
      as (st & -> & Hst).
    { destruct n; simpl; try (exists None; split; [reflexivity | auto]).
      exists (Some st). split; [reflexivity|]. unfold payload_current.
      simpl. auto. }
    destruct (Hupd st a) as (res & a' & -> & Hc & Hd & Hsync).
    exists res, a'. repeat split; try assumption; try discriminate.
    intros c Hcl _ Hp. rewrite <- (Hst Hp). apply Hsync. exact Hcl.
  - destruct (Hupd None a) as (res & a' & Hrun & Hc & Hd & Hsync).
    exists res, a'. simpl. rewrite Hrun.
    repeat split; try assumption; try discriminate.
    intros c Hcl _ _. apply (Hsync c Hcl).
  - (* updateClass *)
    simpl. unfold updateClass, bind, get_services, lift.
    destruct (reduce_sum _) as [count | e]; eexists _, _;
      (split; [reflexivity|]); simpl; repeat split; discriminate.
  - (* updateLabel, then updateEnablement *)
    destruct (Hupd None (with_label (toggle_label env) a))
      as (res & a' & Hrun & Hc & Hd & Hsync).
    exists res, a'. simpl. unfold bind, get_services, updateLabel, modify_this.
    rewrite Hrun. repeat split; try assumption; try discriminate.
    intros c Hcl _ _. apply (Hsync c Hcl).
  - (* panel opened *)
    destruct n; simpl; try (eexists _, _; split; [reflexivity|];
      repeat split; discriminate).
    destruct (String.eqb panelId REPL_ID); eexists _, _;
      (split; [reflexivity|]); simpl; repeat split; discriminate.
Qed.

(** ** Dispatching a notification *)

Lemma invoke_services (l : Listener) (n : Notification) (w : World) :
  services (invoke l n w) = services w /\ nextRef (invoke l n w) = nextRef w.
Proof.
  unfold invoke, call. destruct (heap w !! this l) as [a|]; [|auto].
  destruct (run_callback_spec (callback l) n a (services w))
    as (res & a' & -> & _). auto.
Qed.

Lemma invoke_other (l : Listener) (n : Notification) (w : World) (r : Ref) :
  this l <> r -> heap (invoke l n w) !! r = heap w !! r.
Proof.
  intros Hne. unfold invoke, call.
  destruct (heap w !! this l) as [a|]; [|reflexivity].
  destruct (run_callback (callback l) n a (services w)) as [[res a'] env].
  simpl. apply lookup_insert_ne. exact Hne.
Qed.

Lemma invoke_self (l : Listener) (n : Notification) (w : World)
    (a : ActionObject) :
  heap w !! this l = Some a ->
  exists res a',
    run_callback (callback l) n a (services w) = (res, a', services w)
    /\ heap (invoke l n w) !! this l = Some a'.
Proof.
  intros Ha.
  destruct (run_callback_spec (callback l) n a (services w))
    as (res & a' & Hrun & _).
  exists res, a'. split; [exact Hrun|].
  unfold invoke, call. rewrite Ha, Hrun. simpl. apply lookup_insert_eq.
Qed.

Lemma invoke_absent (l : Listener) (n : Notification) (w : World) :
  heap w !! this l = None -> invoke l n w = w.
Proof. intros Ha. unfold invoke, call. rewrite Ha. reflexivity. Qed.

Lemma invoke_identity (l : Listener) (n : Notification) (w : World)
    (r : Ref) :
  identity_at r (invoke l n w) = identity_at r w.
Proof.
  unfold identity_at. destruct (decide (this l = r)) as [<- | Hne].
  - destruct (heap w !! this l) as [a|] eqn:Ha.
    + destruct (invoke_self l n w a Ha) as (res & a' & Hrun & ->).
      destruct (run_callback_spec (callback l) n a (services w))
        as (res' & a'' & Hrun' & Hc & Hd & _).
      rewrite Hrun in Hrun'. injection Hrun' as _ <-.
      simpl. rewrite Hc, Hd. reflexivity.
    + rewrite (invoke_absent l n w Ha), Ha. reflexivity.
  - rewrite (invoke_other l n w r Hne). reflexivity.
Qed.

Lemma deliver_services (n : Notification) (ls : list Listener) (w : World) :
  services (deliver n ls w) = services w
  /\ nextRef (deliver n ls w) = nextRef w.
Proof.
  revert w. induction ls as [|l ls IH]; intros w; simpl; [auto|].
  destruct (IH (if decide (event l = event_of n) then invoke l n w else w))
    as [-> ->].
  destruct (decide (event l = event_of n)); [apply invoke_services | auto].
Qed.

Lemma deliver_identity (n : Notification) (ls : list Listener) (w : World)
    (r : Ref) :
  identity_at r (deliver n ls w) = identity_at r w.
Proof.
  revert w. induction ls as [|l ls IH]; intros w; simpl; [reflexivity|].
  rewrite IH. destruct (decide (event l = event_of n));
    [apply invoke_identity | reflexivity].
Qed.

Lemma invoke_quiet (l : Listener) (n : Notification) (w : World) (r : Ref) :
  (this l = r -> updates_enablement (callback l) = false) ->
  enabled_at r (invoke l n w) = enabled_at r w.
Proof.
  intros Hq. unfold enabled_at. destruct (decide (this l = r)) as [He | Hne].
  - specialize (Hq He). subst r.
    destruct (heap w !! this l) as [a|] eqn:Ha.
    + destruct (invoke_self l n w a Ha) as (res & a' & Hrun & ->).
      destruct (run_callback_spec (callback l) n a (services w))
        as (res' & a'' & Hrun' & _ & _ & Hen & _).
      rewrite Hrun in Hrun'. injection Hrun' as _ <-.
      simpl. rewrite (Hen Hq). reflexivity.
    + rewrite (invoke_absent l n w Ha), Ha. reflexivity.
  - rewrite (invoke_other l n w r Hne). reflexivity.
Qed.

Lemma deliver_quiet (n : Notification) (ls : list Listener) (w : World)
    (r : Ref) :
  Forall (quiet r n) ls -> enabled_at r (deliver n ls w) = enabled_at r w.
Proof.
  intros Hq. revert w.
  induction Hq as [|l ls Hl _ IH]; intros w; simpl; [reflexivity|].
  rewrite IH. destruct (decide (event l = event_of n)) as [He|];
    [|reflexivity].
  apply invoke_quiet. intros Hr. exact (Hl Hr He).
Qed.

Lemma is_debug_action_identity (r : Ref) (c : DebugActionClass)
    (w w' : World) :
  identity_at r w' = identity_at r w ->
  (exists a, heap w !! r = Some a /\ classOf a = DebugAction c) ->
  exists a', heap w' !! r = Some a' /\ classOf a' = DebugAction c.
Proof.
  unfold identity_at. intros Hid (a & Ha & Hc). rewrite Ha in Hid.
  destruct (heap w' !! r) as [a'|]; [|discriminate].
  exists a'. split; [reflexivity|]. simpl in Hid. congruence.
Qed.

Lemma invoke_refresh (l : Listener) (n : Notification) (w : World)
    (c : DebugActionClass) :
  payload_current (debugService (services w), n) ->
  (exists a, heap w !! this l = Some a /\ classOf a = DebugAction c) ->
  updates_enablement (callback l) = true ->
  in_sync (this l) c (invoke l n w).
Proof.
  intros Hp (a & Ha & Hc) Hcb.
  destruct (invoke_self l n w a Ha) as (res & a' & Hrun & Ha').
  destruct (run_callback_spec (callback l) n a (services w))
    as (res' & a'' & Hrun' & Hc' & _ & _ & Hsync).
  rewrite Hrun in Hrun'. injection Hrun' as _ <-.
  exists a'. destruct (invoke_services l n w) as [-> _].
  repeat split; [exact Ha' | congruence | apply Hsync; assumption].
Qed.

Lemma invoke_in_sync (l : Listener) (n : Notification) (w : World)
    (r : Ref) (c : DebugActionClass) :
  payload_current (debugService (services w), n) ->
  in_sync r c w -> in_sync r c (invoke l n w).
Proof.
  intros Hp (a & Ha & Hc & Hs).
  destruct (decide (this l = r)) as [He | Hne].
  - subst r. destruct (updates_enablement (callback l)) eqn:Hcb.
    + apply invoke_refresh; eauto.
    + destruct (invoke_self l n w a Ha) as (res & a' & Hrun & Ha').
      destruct (run_callback_spec (callback l) n a (services w))
        as (res' & a'' & Hrun' & Hc' & _ & Hen & _).
      rewrite Hrun in Hrun'. injection Hrun' as _ <-.
      exists a'. destruct (invoke_services l n w) as [-> _].
      repeat split; [exact Ha' | congruence |].
      rewrite (Hen Hcb). exact Hs.
  - exists a. destruct (invoke_services l n w) as [-> _].
    rewrite (invoke_other l n w r Hne). auto.
Qed.

(** After a notification is delivered to a list of listeners, the debug
    action at [r] is in sync if it was before, or if one of the listeners
    recomputes its enablement. *)
Lemma deliver_in_sync (n : Notification) (r : Ref) (c : DebugActionClass)
    (ls : list Listener) (w : World) :
  payload_current (debugService (services w), n) ->
  (exists a, heap w !! r = Some a /\ classOf a = DebugAction c) ->
  in_sync r c w \/ Exists (refreshes r n) ls ->
  in_sync r c (deliver n ls w).
Proof.
  revert w. induction ls as [|l ls IH]; intros w Hp Hobj Hor; simpl.
  { destruct Hor as [H | H]; [exact H | inversion H]. }
  destruct (decide (event l = event_of n)) as [He | Hne].
  - apply IH.
    + destruct (invoke_services l n w) as [-> _]. exact Hp.
    + exact (is_debug_action_identity r c w _ (invoke_identity l n w r) Hobj).
    + destruct Hor as [Hs | Hex].
      * left. apply invoke_in_sync; assumption.
      * inversion Hex as [? ? (Hr & _ & Hcb) | ? ? Htl]; subst.
        -- left. apply invoke_refresh; assumption.
        -- right. exact Htl.
  - apply IH; [exact Hp | exact Hobj |].
    destruct Hor as [Hs | Hex]; [left; exact Hs|].
    right. inversion Hex as [? ? (_ & He & _) | ? ? Htl]; subst;
      [contradiction | exact Htl].
Qed.

(** ** Steps of the debug domain *)

Lemma step_services (w : World) (sn : IDebugService * Notification) :
  services (step w sn) = with_debugService (fst sn) (services w).
Proof. unfold step, fire. apply deliver_services. Qed.

Lemma steps_listeners (trace : list (IDebugService * Notification))
    (w : World) :
  listeners (services (steps w trace)) = listeners (services w).
Proof.
  revert w. induction trace as [|sn trace IH]; intros w; [reflexivity|].
  simpl. rewrite IH, step_services. reflexivity.
Qed.

Lemma step_identity (w : World) (sn : IDebugService * Notification)
    (r : Ref) :
  identity_at r (step w sn) = identity_at r w.
Proof. unfold step, fire. rewrite deliver_identity. reflexivity. Qed.

Lemma steps_identity (trace : list (IDebugService * Notification))
    (w : World) (r : Ref) :
  identity_at r (steps w trace) = identity_at r w.
Proof.
  revert w. induction trace as [|sn trace IH]; intros w; [reflexivity|].
  simpl. rewrite IH. apply step_identity.
Qed.

Lemma subscribed_refreshes (r : Ref) (n : Notification) (w : World) :
  subscribed r (event_of n) w = true <->
  Exists (refreshes r n) (listeners (services w)).
Proof.
  unfold subscribed. apply existsb_Exists_iff. intros l. unfold refreshes.
  rewrite !andb_true_iff, !bool_decide_eq_true. tauto.
Qed.

Lemma not_subscribed_quiet (r : Ref) (n : Notification) (w : World) :
  subscribed r (event_of n) w = false ->
  Forall (quiet r n) (listeners (services w)).
Proof.
  unfold subscribed. intros Hno. apply List.Forall_forall. intros l Hl Hr He.
  destruct (updates_enablement (callback l)) eqn:Hcb; [|reflexivity].
  assert (existsb
            (fun l => bool_decide (this l = r)
                      && bool_decide (event l = event_of n)
                      && updates_enablement (callback l))
            (listeners (services w)) = true) as Hyes; [|congruence].
  apply existsb_exists. exists l. split; [exact Hl|].
  rewrite Hcb, !bool_decide_eq_true_2 by assumption. reflexivity.
Qed.

Lemma no_listener_quiet (r : Ref) (n : Notification) (w : World) :
  has_listener r w = false -> Forall (quiet r n) (listeners (services w)).
Proof.
  unfold has_listener. intros Hno. apply List.Forall_forall. intros l Hl Hr.
  assert (existsb (fun l => bool_decide (this l = r))
            (listeners (services w)) = true) as Hyes; [|congruence].
  apply existsb_exists. exists l. split; [exact Hl|].
  apply bool_decide_eq_true_2. exact Hr.
Qed.

Lemma steps_no_listener (trace : list (IDebugService * Notification))
    (w : World) (r : Ref) :
  has_listener r w = false ->
  enabled_at r (steps w trace) = enabled_at r w.
Proof.
  revert w. induction trace as [|sn trace IH]; intros w Hno; [reflexivity|].
  simpl. rewrite IH.
  - unfold step, fire. simpl. rewrite deliver_quiet; [reflexivity|].
    apply (no_listener_quiet r (snd sn) w Hno).
  - unfold has_listener in *. rewrite step_services. exact Hno.
Qed.

(** ** Construction *)

#[local] Arguments updateEnablement : simpl never.

Lemma bind_normal {A B} (m : Method A) (k : A -> Method B) (a a' : ActionObject)
    (env env' : Services) (x : A) :
  m a env = (Normal x, a', env') -> bind m k a env = k x a' env'.
Proof. intros H. unfold bind. rewrite H. reflexivity. Qed.

Lemma AbstractDebugAction_constructor_spec (self : Ref)
    (id label cssClass : string) (wt : option nat) (a : ActionObject)
    (env : Services) (c : DebugActionClass) (b : bool) :
  classOf a = DebugAction c ->
  isEnabled c (debugService env) (state (debugService env)) = Normal b ->
  AbstractDebugAction_constructor self id label cssClass wt a env
  = (Normal tt,
     {| classOf := classOf a; _id := id; _label := label;
        _cssClass := cssClass; _enabled := b; _tooltip := _tooltip a;
        toDispose := [nextToken env]; weight := wt; value := value a;
        context := context a |},
     {| debugService := debugService env;
        listeners := listeners env ++ [state_listener self env];
        nextToken := S (nextToken env);
        clipboardText := clipboardText env;
        evaluateRequests := evaluateRequests env |}).
Proof.
  intros Hc Hb.
  unfold AbstractDebugAction_constructor, Action_constructor, toDispose_push,
    subscribe, updateLabel, bind, modify_this. simpl.
  erewrite updateEnablement_debug; [reflexivity | exact Hc | exact Hb].
Qed.

Ltac show_constructed Hb :=
  eexists _, _, _; (split; [reflexivity|]);
  (split; [reflexivity|]); (split; [reflexivity|]); simpl;
  (split; [rewrite <- ?app_assoc; reflexivity|]);
  split;
  [ repeat (apply List.Forall_cons; [split; [reflexivity | simpl; auto 10]|]);
    apply List.Forall_nil
  | first [ exact Hb | exact I | reflexivity ] ].

Lemma constructor_spec (c : ActionClass) (self : Ref) (args : Args)
    (env : Services) :
  exists res a1 env1,
    constructor c self args (blank c) env = (res, a1, env1)
    /\ constructed c self args env a1 env1.
Proof.
  destruct c as [d| |].
  - destruct (isEnabled_returns d (debugService env)
                (state (debugService env))) as [b Hb].
    pose proof (fun id label css wt =>
      AbstractDebugAction_constructor_spec self id label css wt
        (blank (DebugAction d)) env d b eq_refl Hb) as Hsuper.
    unfold constructor, DebugAction_constructor.
    destruct d; cbv zeta;
      first [ rewrite Hsuper | erewrite bind_normal by apply Hsuper ];
      unfold updateClass, toDispose_push, subscribe, updateLabel, bind,
        modify_this, get_services, lift; simpl;
      try destruct (reduce_sum _);
      show_constructed Hb.
  - unfold constructor, ToggleReplAction_constructor, Action_constructor,
      toDispose_push, subscribe, bind, modify_this. simpl.
    show_constructed I.
  - unfold constructor, CopyValueAction_constructor, Action_constructor,
      bind, modify_this, get_this. simpl.
    eexists _, _, _. split; [reflexivity|].
    split; [reflexivity|]. split; [reflexivity|]. simpl.
    split; [rewrite app_nil_r; reflexivity|].
    split; [constructor | reflexivity].
Qed.

Lemma new_spec (c : ActionClass) (args : Args) (w : World) :
  exists (res : Completion unit) a1 env1,
    new c args w
    = (completion_bind res (fun _ => Normal (nextRef w)),
       {| services := env1; heap := <[nextRef w := a1]> (heap w);
          nextRef := S (nextRef w) |})
    /\ constructed c (nextRef w) args (services w) a1 env1.
Proof.
  destruct (constructor_spec c (nextRef w) args (services w))
    as (res & a1 & env1 & Hrun & Hc).
  exists res, a1, env1. split; [|exact Hc].
  unfold new. rewrite Hrun. reflexivity.
Qed.

Lemma new_returns (c : ActionClass) (args : Args) (w : World) (r : Ref)
    (w1 : World) :
  new c args w = (Normal r, w1) ->
  r = nextRef w
  /\ exists a1,
       heap w1 !! r = Some a1
       /\ constructed c r args (services w) a1 (services w1).
Proof.
  intros Hnew.
  destruct (new_spec c args w) as (res & a1 & env1 & Heq & Hc).
  rewrite Heq in Hnew. injection Hnew as Hres <-.
  destruct res as [[]|e]; [|discriminate]. injection Hres as <-.
  split; [reflexivity|]. exists a1. split; [|exact Hc].
  simpl. apply lookup_insert_eq.
Qed.

Lemma subscribed_steps (r : Ref) (e : EventKind) (w : World)
    (trace : list (IDebugService * Notification)) :
  subscribed r e (steps w trace) = subscribed r e w.
Proof. unfold subscribed. rewrite steps_listeners. reflexivity. Qed.

Lemma step_in_sync (r : Ref) (c : DebugActionClass) (w : World)
    (sn : IDebugService * Notification) :
  (exists a, heap w !! r = Some a /\ classOf a = DebugAction c) ->
  subscribed r (event_of (snd sn)) w = true ->
  payload_current sn ->
  in_sync r c (step w sn).
Proof.
  intros Hobj Hsub Hp. unfold step, fire. simpl.
  apply deliver_in_sync.
  - destruct sn as [ds n]. exact Hp.
  - exact Hobj.
  - right. apply subscribed_refreshes in Hsub. exact Hsub.
Qed.

Lemma step_quiet (r : Ref) (w : World) (sn : IDebugService * Notification) :
  subscribed r (event_of (snd sn)) w = false ->
  enabled_at r (step w sn) = enabled_at r w.
Proof.
  intros Hsub. unfold step, fire. simpl. rewrite deliver_quiet; [reflexivity|].
  apply (not_subscribed_quiet r (snd sn) w Hsub).
Qed.

Lemma has_listener_false (r : Ref) (w : World) :
  has_listener r w = false
  <-> forall l, In l (listeners (services w)) -> this l <> r.
Proof.
  unfold has_listener. split.
  - intros Hno l Hl Hr.
    assert (existsb (fun l => bool_decide (this l = r))
              (listeners (services w)) = true) as Hyes; [|congruence].
    apply existsb_exists. exists l. split; [exact Hl|].
    apply bool_decide_eq_true_2. exact Hr.
  - intros Hall. apply not_true_is_false. intros Hyes.
    apply existsb_exists in Hyes. destruct Hyes as (l & Hl & Hr).
    apply bool_decide_eq_true in Hr. exact (Hall l Hl Hr).
Qed.

Lemma subscribed_register (self r : Ref) (e : EventKind)
    (regs : list (EventKind * Callback)) (t : nat) :
  existsb
    (fun l => bool_decide (this l = r) && bool_decide (event l = e)
              && updates_enablement (callback l))
    (register_all self t regs)
  = bool_decide (self = r)
    && existsb (fun reg => bool_decide (fst reg = e)
                           && updates_enablement (snd reg)) regs.
Proof.
  revert t. induction regs as [|[e' cb] regs IH]; intros t; simpl.
  - rewrite andb_false_r. reflexivity.
  - rewrite IH. destruct (bool_decide (self = r)); reflexivity.
Qed.

Lemma enablement_events_registrations (c : DebugActionClass)
    (e : EventKind) :
  existsb (fun reg => bool_decide (fst reg = e) && updates_enablement (snd reg))
    (registrations (DebugAction c)) = true
  <-> In e (enablement_events c).
Proof.
  destruct c, e; (split; intros H);
    first [ solve [vm_compute; reflexivity]
          | solve [simpl; auto 10]
          | solve [vm_compute in H; discriminate H]
          | solve [simpl in H; intuition discriminate] ].
Qed.

(** The notifications a freshly constructed debug action has an enablement
    listener for are those of [enablement_events]. *)
Lemma subscribed_new (c : DebugActionClass) (args : Args) (w : World)
    (r : Ref) (w1 : World) (e : EventKind) :
  has_listener (nextRef w) w = false ->
  new (DebugAction c) args w = (Normal r, w1) ->
  subscribed r e w1 = true <-> In e (enablement_events c).
Proof.
  intros Hfresh Hnew.
  destruct (new_returns _ _ _ _ _ Hnew)
    as (-> & a1 & Ha1 & Hds & Hclass & Hls & Hadded & Hsync).
  rewrite <- enablement_events_registrations.
  unfold subscribed. rewrite Hls, existsb_app, subscribed_register.
  rewrite bool_decide_eq_true_2 by reflexivity. simpl.
  assert (existsb
            (fun l => bool_decide (this l = nextRef w)
                      && bool_decide (event l = e)
                      && updates_enablement (callback l))
            (listeners (services w)) = false) as ->; [|reflexivity].
  apply not_true_is_false. intros Hyes. apply existsb_exists in Hyes.
  destruct Hyes as (l & Hl & Hcond).
  rewrite !andb_true_iff, bool_decide_eq_true in Hcond.
  rewrite has_listener_false in Hfresh. apply (Hfresh l Hl). tauto.
Qed.

(** No staleness along a trace: as long as every step is announced to the
    action, [enabled] equals the predicate after each of them. *)
Lemma in_sync_steps (r : Ref) (c : DebugActionClass)
    (trace : list (IDebugService * Notification)) (w : World) :
  in_sync r c w -> all_announced r c w trace -> in_sync r c (steps w trace).
Proof.
  revert w. induction trace as [|sn trace IH]; intros w Hs Hall; [exact Hs|].
  simpl in Hall |- *. destruct Hall as [[Hp Hann] Hall].
  apply IH; [|exact Hall].
  destruct Hs as (a & Ha & Hc & Hsync).
  destruct Hann as [Hsub | Hsame].
  - apply step_in_sync; eauto.
  - unfold step, fire. apply deliver_in_sync.
    + destruct sn as [ds n]. exact Hp.
    + simpl. eauto.
    + left. exists a. simpl. rewrite Hsame. auto.
Qed.

(** ** Disposal *)

Lemma unsubscribe_all_listeners (ds : list IDisposable) (env : Services)
    (l : Listener) :
  In l (listeners (fold_left (fun env d => unsubscribe d env) ds env))
  <-> In l (listeners env) /\ ~ In (token l) ds.
Proof.
  revert env. induction ds as [|d ds IH]; intros env; simpl.
  - tauto.
  - rewrite IH. unfold unsubscribe. simpl. rewrite filter_In.
    rewrite negb_true_iff, Nat.eqb_neq. intuition congruence.
Qed.

(** [dispose] never throws; it leaves [_enabled] and the class alone; a
    [CopyValueAction] has nothing to release, the other classes release
    the subscriptions recorded in [toDispose] and empty it. *)
Lemma dispose_spec (a : ActionObject) (env : Services) :
  exists a' env',
    dispose a env = (Normal tt, a', env')
    /\ _enabled a' = _enabled a
    /\ classOf a' = classOf a
    /\ (classOf a = CopyValueAction \/ toDispose a' = [])
    /\ (forall l, In l (listeners env') ->
        In l (listeners env)
        /\ (classOf a <> CopyValueAction -> ~ In (token l) (toDispose a)))
    /\ (classOf a = CopyValueAction \/ toDispose a = [] -> env' = env).
Proof.
  unfold dispose, bind, get_this.
  destruct (classOf a) eqn:Hc;
    [ exists (with_toDispose [] a),
        (fold_left (fun env d => unsubscribe d env) (toDispose a) env)
    | exists (with_toDispose [] a),
        (fold_left (fun env d => unsubscribe d env) (toDispose a) env)
    | exists a, env ];
    (split; [reflexivity|]); simpl; rewrite ?Hc;
    repeat split; auto; try tauto;
    try (intros [Hcopy | ->]; [discriminate Hcopy | reflexivity]);
    try (intros _);
    match goal with
    | H : In _ (listeners (fold_left _ _ _)) |- _ =>
        apply unsubscribe_all_listeners in H; tauto
    end.
Qed.

Lemma new_owns_its_listeners (c : ActionClass) (args : Args) (w : World)
    (r : Ref) (w1 : World) :
  has_listener (nextRef w) w = false ->
  new c args w = (Normal r, w1) ->
  owns_its_listeners r w1.
Proof.
  intros Hfresh Hnew.
  destruct (new_returns _ _ _ _ _ Hnew)
    as (-> & a1 & Ha1 & Hds & Hclass & Hls & Hadded & Hmore).
  exists a1. split; [exact Ha1|]. intros l Hl Hr. rewrite Hclass.
  rewrite Hls in Hl. apply in_app_or in Hl. destruct Hl as [Hold | Hnew'].
  - rewrite has_listener_false in Hfresh. destruct (Hfresh l Hold Hr).
  - split.
    + intros Hcopy. rewrite Hcopy in Hnew'. destruct Hnew'.
    + rewrite List.Forall_forall in Hadded. apply (Hadded l Hnew').
Qed.

Lemma steps_owns_its_listeners (r : Ref) (w : World)
    (trace : list (IDebugService * Notification)) :
  owns_its_listeners r w -> owns_its_listeners r (steps w trace).
Proof.
  intros (a & Ha & Hown). pose proof (steps_identity trace w r) as Hid.
  unfold identity_at in Hid. rewrite Ha in Hid.
  destruct (heap (steps w trace) !! r) as [a'|] eqn:Ha'; [|discriminate].
  simpl in Hid. injection Hid as Hc Hd.
  exists a'. split; [exact Ha'|]. rewrite steps_listeners, Hc, Hd.
  exact Hown.
Qed.

Lemma steps_released (r : Ref) (w : World)
    (trace : list (IDebugService * Notification)) :
  released r w -> released r (steps w trace).
Proof.
  intros (a & Ha & Hrel). pose proof (steps_identity trace w r) as Hid.
  unfold identity_at in Hid. rewrite Ha in Hid.
  destruct (heap (steps w trace) !! r) as [a'|] eqn:Ha'; [|discriminate].
  simpl in Hid. injection Hid as Hc Hd.
  exists a'. split; [exact Ha'|]. rewrite Hc, Hd. exact Hrel.
Qed.

Lemma call_dispose (r : Ref) (w : World) :
  owns_its_listeners r w ->
  exists w',
    call r dispose w = (Normal tt, w')
    /\ has_listener r w' = false
    /\ enabled_at r w' = enabled_at r w
    /\ owns_its_listeners r w'
    /\ released r w'
    /\ (released r w -> services w' = services w).
Proof.
  intros (a & Ha & Hown).
  destruct (dispose_spec a (services w))
    as (a' & env' & Hrun & Hen & Hc & Hemptied & Hls & Hsame).
  eexists. unfold call. rewrite Ha, Hrun. split; [reflexivity|].
  assert (Hnone : forall l, In l (listeners env') -> this l <> r).
  { intros l Hl Hr. destruct (Hls l Hl) as [Hold Hnot].
    destruct (Hown l Hold Hr) as [Hcl Hin]. exact (Hnot Hcl Hin). }
  split; [|split; [|split; [|split]]].
  - apply has_listener_false. exact Hnone.
  - unfold enabled_at. simpl. rewrite lookup_insert_eq, Ha. simpl.
    rewrite Hen. reflexivity.
  - exists a'. simpl. split; [apply lookup_insert_eq|].
    intros l Hl Hr. destruct (Hnone l Hl Hr).
  - exists a'. simpl. split; [apply lookup_insert_eq|].
    rewrite Hc. exact Hemptied.
  - intros (a0 & Ha0 & Hrel). rewrite Ha in Ha0. injection Ha0 as <-.
    simpl. apply Hsame. exact Hrel.
Qed.

(** C7.  Take any action constructed in a world where its reference is
    fresh, and let the debug domain run.  [dispose] then completes without
    throwing, leaves [enabled] as it is, and leaves no listener registered
    on behalf of the action: whatever notifications fire afterwards,
    [enabled] keeps its value.  Calling [dispose] again, at any later time,
    completes without throwing as well, removes no listener and leaves
    [enabled] as it is. *)
Theorem dispose_releases (c : ActionClass) (args : Args) (w : World)
    (r : Ref) (w1 : World) (trace : list (IDebugService * Notification)) :
  has_listener (nextRef w) w = false ->
  new c args w = (Normal r, w1) ->
  exists w3,
    call r dispose (steps w1 trace) = (Normal tt, w3)
    /\ has_listener r w3 = false
    /\ enabled_at r w3 = enabled_at r (steps w1 trace)
    /\ (forall trace', enabled_at r (steps w3 trace') = enabled_at r w3)
    /\ (forall trace',
          exists w5,
            call r dispose (steps w3 trace') = (Normal tt, w5)
            /\ services w5 = services (steps w3 trace')
            /\ enabled_at r w5 = enabled_at r w3).
Proof.
  intros Hfresh Hnew.
  pose proof (steps_owns_its_listeners r w1 trace
                (new_owns_its_listeners c args w r w1 Hfresh Hnew)) as Hown.
  destruct (call_dispose r (steps w1 trace) Hown)
    as (w3 & Hcall & Hnone & Hen & Hown3 & Hrel3 & _).
  exists w3. repeat split; try assumption.
  - intros trace'. apply steps_no_listener. exact Hnone.
  - intros trace'.
    destruct (call_dispose r (steps w3 trace')
                (steps_owns_its_listeners r w3 trace' Hown3))
      as (w5 & Hcall5 & _ & Hen5 & _ & _ & Hsame).
    exists w5. repeat split; [exact Hcall5 | |].
    + apply Hsame. apply steps_released. exact Hrel3.
    + rewrite Hen5. apply steps_no_listener. exact Hnone.
Qed.

Lemma dispose_releases_witness :
  exists w3,
    call 0 dispose
      (steps (snd (new (DebugAction RemoveAllBreakpointsAction) args0
                     empty_world))
         [(one_breakpoint, DidChangeBreakpoints)])
    = (Normal tt, w3)
    /\ enabled_at 0 w3 = Some true
    /\ enabled_at 0 (steps w3 [(empty_debugService, DidChangeBreakpoints)])
       = Some true.
Proof.
  destruct (dispose_releases (DebugAction RemoveAllBreakpointsAction) args0
              empty_world 0
              (snd (new (DebugAction RemoveAllBreakpointsAction) args0
                      empty_world))
              [(one_breakpoint, DidChangeBreakpoints)] eq_refl eq_refl)
    as (w3 & Hcall & _ & Hen & Hlater & _).
  exists w3. split; [exact Hcall|].
  assert (Hen3 : enabled_at 0 w3 = Some true).
  { rewrite Hen. vm_compute. reflexivity. }
  split; [exact Hen3|]. rewrite Hlater. exact Hen3.
Defined.

Lemma CopyValueAction_enabled_iff (v : Value) :
  CopyValueAction_enabled v = true <-> copyable v.
Proof.
  unfold copyable. destruct v as [|s|var|e|d]; simpl.
  - split; [discriminate | intros [[s H] | (var & n & H & _)]; discriminate].
  - split; [eauto | reflexivity].
  - destruct (DebugVariable.evaluateName var) as [n|] eqn:Hn; simpl.
    + rewrite truthy_nonempty. split.
      * intros Hne. right. exists var, n. auto.
      * intros [[s H] | (var' & n' & H & Hn' & Hne)]; [discriminate|].
        injection H as <-. congruence.
    + split; [discriminate|].
      intros [[s H] | (var' & n' & H & Hn' & _)]; [discriminate|].
      injection H as <-. congruence.
  - split; [discriminate | intros [[s H] | (var & n & H & _)]; discriminate].
  - split; [discriminate | intros [[s H] | (var & n & H & _)]; discriminate].
Qed.

(** C9.  Constructing a [CopyValueAction] completes normally; the new
    action is enabled exactly when its value is a string, or a [Variable]
    with a non-empty [evaluateName], and disabled for every other value.
    The constructor registers no listener, so (the reference being fresh)
    no notification fired later changes [enabled]. *)
Theorem CopyValueAction_enabled_at_construction (args : Args) (w : World) :
  exists w1,
    new CopyValueAction args w = (Normal (nextRef w), w1)
    /\ (enabled_at (nextRef w) w1 = Some true <-> copyable (arg_value args))
    /\ (enabled_at (nextRef w) w1 = Some false
        <-> ~ copyable (arg_value args))
    /\ listeners (services w1) = listeners (services w)
    /\ (has_listener (nextRef w) w = false ->
        forall trace,
          enabled_at (nextRef w) (steps w1 trace)
          = enabled_at (nextRef w) w1).
Proof.
  eexists. split; [reflexivity|].
  assert (Hen : enabled_at (nextRef w)
                  (snd (new CopyValueAction args w))
                = Some (CopyValueAction_enabled (arg_value args))).
  { unfold enabled_at. simpl. rewrite lookup_insert_eq. reflexivity. }
  simpl in Hen |- *. rewrite Hen, <- CopyValueAction_enabled_iff.
  split; [|split; [|split]].
  - split; congruence.
  - destruct (CopyValueAction_enabled (arg_value args)); split; congruence.
  - reflexivity.
  - intros Hfresh trace. rewrite <- Hen. apply steps_no_listener.
    exact Hfresh.
Qed.

Lemma CopyValueAction_enabled_at_construction_witness :
  enabled_at 0
    (steps (snd (new CopyValueAction (copy_args (VVariable variable_x))
                   empty_world))
       [(initializing, DidChangeState Initializing)])
  = Some true.
Proof.
  destruct (CopyValueAction_enabled_at_construction
              (copy_args (VVariable variable_x)) empty_world)
    as (w1 & Hnew & Htrue & _ & _ & Hlater).
  injection Hnew as <-.
  rewrite (Hlater eq_refl). apply Htrue.
  right. exists variable_x, "x". repeat split. discriminate.
Defined.

(** ** Fresh references

    In every world reached from the empty one by constructing actions,
    stepping the debug domain and disposing, the listeners close over
    allocated objects only ([fresh_refs]), so the next reference is
    fresh. *)

Lemma fresh_refs_has_listener (w : World) :
  fresh_refs w -> has_listener (nextRef w) w = false.
Proof.
  intros Hf. apply has_listener_false. intros l Hl Hr.
  unfold fresh_refs in Hf. rewrite List.Forall_forall in Hf.
  specialize (Hf l Hl). lia.
Qed.

Lemma fresh_refs_empty : fresh_refs empty_world.
Proof. constructor. Qed.

Lemma fresh_refs_new (c : ActionClass) (args : Args) (w : World) :
  fresh_refs w -> fresh_refs (snd (new c args w)).
Proof.
  intros Hf. destruct (new_spec c args w)
    as (res & a1 & env1 & -> & _ & _ & Hls & Hadded & _).
  unfold fresh_refs in *. simpl. rewrite Hls. apply List.Forall_app. split.
  - eapply List.Forall_impl; [|exact Hf]. simpl. intros l Hl. lia.
  - eapply List.Forall_impl; [|exact Hadded]. simpl. intros l [-> _]. lia.
Qed.

Lemma fresh_refs_step (w : World) (sn : IDebugService * Notification) :
  fresh_refs w -> fresh_refs (step w sn).
Proof.
  unfold fresh_refs. rewrite step_services. unfold step, fire.
  destruct (deliver_services (snd sn)
              (listeners (services
                 {| services := with_debugService (fst sn) (services w);
                    heap := heap w; nextRef := nextRef w |}))
              {| services := with_debugService (fst sn) (services w);
                 heap := heap w; nextRef := nextRef w |}) as [_ ->].
  simpl. auto.
Qed.

Lemma fresh_refs_dispose (r : Ref) (w : World) :
  fresh_refs w -> fresh_refs (snd (call r dispose w)).
Proof.
  intros Hf. unfold call. destruct (heap w !! r) as [a|]; [|exact Hf].
  destruct (dispose_spec a (services w))
    as (a' & env' & -> & _ & _ & _ & Hls & _).
  unfold fresh_refs in *. simpl. rewrite List.Forall_forall in *.
  intros l Hl. apply Hf. apply (Hls l Hl).
Qed.

(** * Further properties of the source *)

(** ** How the predicates relate *)

(** X1.  Remove-all-breakpoints and Toggle-breakpoints-activated are
    enabled in exactly the same situations, although the first tests the
    two lengths separately and the second tests their sum: when there is a
    line breakpoint or a function breakpoint. *)
Theorem RemoveAll_Toggle_agree (ds : IDebugService) (st st' : State) :
  isEnabled RemoveAllBreakpointsAction ds st
  = isEnabled ToggleBreakpointsActivatedAction ds st'
  /\ (isEnabled RemoveAllBreakpointsAction ds st = Normal true
      <-> getBreakpoints (getModel ds) <> []
          \/ getFunctionBreakpoints (getModel ds) <> []).
Proof.
  unfold isEnabled, super_and. simpl.
  destruct (getBreakpoints (getModel ds)) as [|bp bps];
    destruct (getFunctionBreakpoints (getModel ds)) as [|fbp fbps]; simpl;
    rewrite ?Nat.add_succ_r; (split; [reflexivity|]);
    (split; [intros H; try discriminate H; auto; (left + right); discriminate
            | intros [H | H]; congruence || reflexivity]).
Qed.

Lemma Forall_flag_map {A} (f : A -> bool) (b : bool) (l : list A) :
  Forall (eq b) (map f l) -> Forall (fun x => f x = b) l.
Proof.
  induction l as [|x l IH]; simpl; intros H; [constructor|].
  inversion H; subst. constructor; auto.
Qed.

Lemma all_flags_iff (b : bool) (m : IDebugModel) :
  all_flags b m <-> Forall (eq b) (all_enablements m).
Proof.
  split; [apply all_flags_enablements|].
  unfold all_enablements. intros H.
  apply Forall_app in H. destruct H as [H1 H].
  apply Forall_app in H. destruct H as [H2 H3].
  repeat split; apply (Forall_flag_map enabled); assumption.
Qed.

Lemma existsb_differs (b : bool) (l : list bool) :
  existsb (fun x => negb (eqb x b)) l = true <-> ~ Forall (eq b) l.
Proof.
  induction l as [|x l IH]; simpl.
  - split; [discriminate | intros H; destruct H; constructor].
  - rewrite orb_true_iff, IH. split.
    + intros [Hx | Hl] H; inversion H; subst.
      * rewrite eqb_reflx in Hx. discriminate.
      * contradiction.
    + intros H. destruct (eqb x b) eqn:Hxb; [|left; reflexivity].
      right. intros Hl. apply H. apply eqb_prop in Hxb. subst.
      constructor; auto.
Qed.

Lemma existsb_pointwise {A} (f g : A -> bool) (l : list A) :
  (forall x, f x = g x) -> existsb f l = existsb g l.
Proof.
  intros Hfg. induction l as [|x l IH]; simpl; [reflexivity|].
  rewrite Hfg, IH. reflexivity.
Qed.

Lemma all_flags_decided (b : bool) (m : IDebugModel) :
  all_flags b m \/ ~ all_flags b m.
Proof.
  rewrite all_flags_iff.
  destruct (existsb (fun x => negb (eqb x b)) (all_enablements m)) eqn:He.
  - right. apply existsb_differs. exact He.
  - left. induction (all_enablements m) as [|x l IH]; [constructor|].
    simpl in He. apply orb_false_iff in He. destruct He as [Hx Hl].
    constructor; [|exact (IH Hl)].
    apply negb_false_iff, eqb_prop in Hx. congruence.
Qed.

Lemma EnableAll_iff (ds : IDebugService) (st : State) :
  isEnabled EnableAllBreakpointsAction ds st = Normal true
  <-> ~ all_flags true (getModel ds).
Proof.
  rewrite all_flags_iff, <- existsb_differs.
  unfold isEnabled, super_and. simpl.
  replace (existsb (fun x => negb (eqb x true)) (all_enablements (getModel ds)))
    with (existsb (fun x => negb x) (all_enablements (getModel ds))).
  - split; congruence.
  - apply existsb_pointwise. intros []; reflexivity.
Qed.

Lemma DisableAll_iff (ds : IDebugService) (st : State) :
  isEnabled DisableAllBreakpointsAction ds st = Normal true
  <-> ~ all_flags false (getModel ds).
Proof.
  rewrite all_flags_iff, <- existsb_differs.
  unfold isEnabled, super_and. simpl.
  replace (existsb (fun x => negb (eqb x false))
             (all_enablements (getModel ds)))
    with (existsb (fun x => x) (all_enablements (getModel ds))).
  - split; congruence.
  - apply existsb_pointwise. intros []; reflexivity.
Qed.

Lemma all_flags_both (m : IDebugModel) :
  all_flags true m /\ all_flags false m <-> no_breakpoints m.
Proof.
  unfold no_breakpoints. split.
  - intros [(T1 & T2 & T3) (F1 & F2 & F3)].
    repeat split;
      match goal with
      | |- ?l = [] =>
          destruct l as [|x l'] eqn:E; [reflexivity|];
          rewrite ?E in *;
          repeat match goal with
                 | H : Forall _ (_ :: _) |- _ => inversion_clear H
                 end; congruence
      end.
  - intros (H1 & H2 & H3). unfold all_flags. rewrite H1, H2, H3.
    repeat split; constructor.
Qed.

(** X2.  Enable-all-breakpoints is enabled exactly when some breakpoint
    (line, function or exception) is disabled, Disable-all-breakpoints
    exactly when some breakpoint is enabled.  So both are enabled exactly
    on a mixed set, and neither is enabled exactly when there is no
    breakpoint of any kind. *)
Theorem EnableAll_DisableAll_cases (ds : IDebugService) (st : State) :
  let en := isEnabled EnableAllBreakpointsAction ds st in
  let dis := isEnabled DisableAllBreakpointsAction ds st in
  (en = Normal true <-> ~ all_flags true (getModel ds))
  /\ (dis = Normal true <-> ~ all_flags false (getModel ds))
  /\ (en = Normal true /\ dis = Normal true <-> ~ homogeneous (getModel ds))
  /\ (en = Normal false /\ dis = Normal false
      <-> no_breakpoints (getModel ds)).
Proof.
  intros en dis.
  pose proof (EnableAll_iff ds st) as He.
  pose proof (DisableAll_iff ds st) as Hd.
  fold en in He. fold dis in Hd.
  destruct (isEnabled_returns EnableAllBreakpointsAction ds st) as [be Hbe].
  destruct (isEnabled_returns DisableAllBreakpointsAction ds st) as [bd Hbd].
  fold en in Hbe. fold dis in Hbd.
  split; [exact He|]. split; [exact Hd|]. split.
  - rewrite He, Hd. unfold homogeneous. tauto.
  - rewrite <- all_flags_both. split.
    + intros [H1 H2]. rewrite H1 in He. rewrite H2 in Hd. split.
      * destruct (all_flags_decided true (getModel ds)) as [H | H]; [exact H|].
        apply He in H. discriminate.
      * destruct (all_flags_decided false (getModel ds)) as [H | H]; [exact H|].
        apply Hd in H. discriminate.
    + intros [HT HF]. rewrite Hbe, Hbd in *.
      destruct be, bd; try tauto; exfalso; tauto.
Qed.

(** X3.  Reapply-all-breakpoints is enabled exactly when the state it is
    asked about is [Running] or [Stopped] and Enable-all or Disable-all
    is enabled, that is, when there is a breakpoint of some kind. *)
Theorem Reapply_iff (ds : IDebugService) (st : State) :
  (isEnabled ReapplyBreakpointsAction ds st = Normal true
   <-> (st = Running \/ st = Stopped)
       /\ (isEnabled EnableAllBreakpointsAction ds st = Normal true
           \/ isEnabled DisableAllBreakpointsAction ds st = Normal true))
  /\ (isEnabled ReapplyBreakpointsAction ds st = Normal true
      <-> (st = Running \/ st = Stopped) /\ ~ no_breakpoints (getModel ds)).
Proof.
  assert (Hcount :
    isEnabled ReapplyBreakpointsAction ds st = Normal true
    <-> (st = Running \/ st = Stopped) /\ ~ no_breakpoints (getModel ds)).
  { unfold isEnabled, super_and, no_breakpoints. simpl.
    destruct st; simpl;
      try (split; [discriminate | intros [[H | H] _]; discriminate]).
    all: destruct (getBreakpoints (getModel ds)) as [|bp bps];
      destruct (getFunctionBreakpoints (getModel ds)) as [|fbp fbps];
      destruct (getExceptionBreakpoints (getModel ds)) as [|ebp ebps];
      simpl; rewrite ?Nat.add_succ_r; simpl;
      (split; [intros H; split; [auto|]; try discriminate H;
               intros (? & ? & ?); discriminate
              | intros [_ H]; try reflexivity; exfalso; apply H; auto]). }
  split; [|exact Hcount].
  rewrite Hcount.
  rewrite EnableAll_iff, DisableAll_iff, <- all_flags_both.
  destruct (all_flags_decided true (getModel ds));
    destruct (all_flags_decided false (getModel ds)); tauto.
Qed.

(** X4.  Add-watch-expression and Remove-all-watch-expressions are never
    both disabled: Add is disabled only while some watch expression has no
    name, and then there is an expression to remove.  Likewise, when
    Add-function-breakpoint is disabled although no function breakpoint is
    selected, Remove-all-breakpoints is enabled. *)
Theorem add_or_remove_available (ds : IDebugService) (st : State) :
  (isEnabled AddWatchExpressionAction ds st = Normal true
   \/ isEnabled RemoveAllWatchExpressionsAction ds st = Normal true)
  /\ (getSelectedFunctionBreakpoint (getViewModel ds) = None ->
      isEnabled AddFunctionBreakpointAction ds st = Normal true
      \/ isEnabled RemoveAllBreakpointsAction ds st = Normal true).
Proof.
  unfold isEnabled, super_and. simpl. split.
  - destruct (getWatchExpressions (getModel ds)) as [|we wes]; simpl; auto.
  - intros ->. simpl.
    destruct (getFunctionBreakpoints (getModel ds)) as [|fbp fbps];
      simpl; auto.
    right. rewrite orb_true_r. reflexivity.
Qed.

Lemma add_or_remove_available_witness :
  isEnabled AddFunctionBreakpointAction
    (addFunctionBreakpoint "" "fb1" empty_debugService) Inactive
  = Normal true
  \/ isEnabled RemoveAllBreakpointsAction
       (addFunctionBreakpoint "" "fb1" empty_debugService) Inactive
     = Normal true.
Proof.
  apply (add_or_remove_available
           (addFunctionBreakpoint "" "fb1" empty_debugService) Inactive).
  reflexivity.
Defined.

(** ** What a listener does to the other fields *)

Lemma updateEnablement_look (st : option State) (a : ActionObject)
    (env : Services) :
  _label (snd (fst (updateEnablement st a env))) = _label a
  /\ _cssClass (snd (fst (updateEnablement st a env))) = _cssClass a.
Proof.
  destruct (classOf a) as [c| |] eqn:Hc.
  - destruct (isEnabled_returns c (debugService env)
                (default (state (debugService env)) st)) as [b Hb].
    rewrite (updateEnablement_debug a env st c b Hc Hb). auto.
  - destruct (updateEnablement_not_debug a env st) as [e ->];
      [congruence | auto].
  - destruct (updateEnablement_not_debug a env st) as [e ->];
      [congruence | auto].
Qed.

Lemma run_callback_label (cb : Callback) (n : Notification)
    (a : ActionObject) (env : Services) :
  _label (snd (fst (run_callback cb n a env)))
  = match cb with
    | cb_updateLabel_updateEnablement => toggle_label env
    | _ => _label a
    end.
Proof.
  destruct cb; simpl.
  - destruct n; apply updateEnablement_look.
  - apply updateEnablement_look.
  - unfold updateClass, bind, get_services, lift.
    destruct (reduce_sum _); reflexivity.
  - unfold bind, get_services, updateLabel, modify_this.
    destruct (updateEnablement None (with_label (toggle_label env) a) env)
      as [[res a'] env'] eqn:Hrun.
    pose proof (updateEnablement_look None
                  (with_label (toggle_label env) a) env) as [Hl _].
    rewrite Hrun in Hl. simpl in Hl.
    destruct res; simpl; exact Hl.
  - destruct n; try reflexivity.
    destruct (String.eqb panelId REPL_ID); reflexivity.
Qed.

Lemma run_callback_cssClass (cb : Callback) (n : Notification)
    (a : ActionObject) (env : Services) :
  event_of n <> OnDidPanelOpen ->
  _cssClass (snd (fst (run_callback cb n a env)))
  = match cb, configurationCount (debugService env) with
    | cb_updateClass, Normal count =>
        if 0 <? count then "debug-action configure"
        else "debug-action configure notification"
    | _, _ => _cssClass a
    end.
Proof.
  intros Hn. destruct cb; simpl.
  - destruct n; apply updateEnablement_look.
  - apply updateEnablement_look.
  - unfold updateClass, bind, get_services, lift, configurationCount.
    destruct (reduce_sum _); reflexivity.
  - unfold bind, get_services, updateLabel, modify_this.
    destruct (updateEnablement None (with_label (toggle_label env) a) env)
      as [[res a'] env'] eqn:Hrun.
    pose proof (updateEnablement_look None
                  (with_label (toggle_label env) a) env) as [_ Hc].
    rewrite Hrun in Hc. simpl in Hc.
    destruct res; simpl; exact Hc.
  - destruct n; try reflexivity. destruct Hn. reflexivity.
Qed.

(** A debug action of a class other than Reapply-all-breakpoints never
    looks at the state it is handed. *)
Lemma isEnabled_ignores_state (c : DebugActionClass) (ds : IDebugService)
    (st st' : State) :
  c <> ReapplyBreakpointsAction -> isEnabled c ds st = isEnabled c ds st'.
Proof. intros Hc. destruct c; try reflexivity. destruct Hc. reflexivity. Qed.

Lemma run_callback_refreshes (c : DebugActionClass) (cb : Callback)
    (n : Notification) (a : ActionObject) (env : Services) :
  classOf a = DebugAction c ->
  updates_enablement cb = true ->
  c <> ReapplyBreakpointsAction ->
  isEnabled c (debugService env) (state (debugService env))
  = Normal (_enabled (snd (fst (run_callback cb n a env)))).
Proof.
  intros Hc Hcb Hne.
  assert (Hupd : forall st a0, classOf a0 = DebugAction c ->
            isEnabled c (debugService env) (state (debugService env))
            = Normal (_enabled (snd (fst (updateEnablement st a0 env))))).
  { intros st a0 Hc0.
    destruct (isEnabled_returns c (debugService env)
                (default (state (debugService env)) st)) as [b Hb].
    rewrite (updateEnablement_debug a0 env st c b Hc0 Hb). simpl.
    rewrite <- Hb. apply isEnabled_ignores_state. exact Hne. }
  destruct cb; try discriminate Hcb; simpl.
  - destruct n; apply Hupd; exact Hc.
  - apply Hupd. exact Hc.
  - unfold bind, get_services, updateLabel, modify_this.
    specialize (Hupd None (with_label (toggle_label env) a) Hc).
    destruct (updateEnablement None (with_label (toggle_label env) a) env)
      as [[res a'] env'].
    destruct res; exact Hupd.
Qed.

(** ** Delivering a notification, in general

    What holds of the object at [r] after a notification has been
    delivered: a property that every listener preserves, and that held
    before or is established by one of the listeners. *)
Lemma deliver_establishes (Q : ActionObject -> Prop) (n : Notification)
    (r : Ref) (k : ActionClass) (ls : list Listener) (w : World) :
  (forall l a0, In l ls -> this l = r -> event l = event_of n ->
     classOf a0 = k -> Q a0 ->
     Q (snd (fst (run_callback (callback l) n a0 (services w))))) ->
  (exists a, heap w !! r = Some a /\ classOf a = k
     /\ (Q a
         \/ Exists (fun l => this l = r /\ event l = event_of n
                     /\ forall a0, classOf a0 = k ->
                        Q (snd (fst (run_callback (callback l) n a0
                                       (services w))))) ls)) ->
  exists a', heap (deliver n ls w) !! r = Some a' /\ classOf a' = k /\ Q a'.
Proof.
  revert w. induction ls as [|l ls IH]; intros w Hkeep (a & Ha & Hk & Hor).
  { destruct Hor as [HQ | Hex]; [simpl; eauto | inversion Hex]. }
  simpl. destruct (decide (event l = event_of n)) as [He | Hne].
  - destruct (invoke_services l n w) as [Hsv _].
    apply IH; [rewrite Hsv; intros; apply Hkeep; simpl; auto|].
    rewrite Hsv. destruct (decide (this l = r)) as [Hr | Hnr].
    + subst r. destruct (invoke_self l n w a Ha) as (res & a' & Hrun & Ha').
      destruct (run_callback_spec (callback l) n a (services w))
        as (res' & a'' & Hrun' & Hc' & _).
      rewrite Hrun in Hrun'. injection Hrun' as _ <-.
      exists a'. split; [exact Ha'|]. split; [congruence|].
      assert (Ha'eq : a' = snd (fst (run_callback (callback l) n a
                                       (services w)))).
      { rewrite Hrun. reflexivity. }
      destruct Hor as [HQ | Hex].
      * left. rewrite Ha'eq. apply Hkeep; simpl; auto.
      * inversion Hex as [? ? (_ & _ & Hest) | ? ? Htl]; subst.
        -- left. apply Hest. reflexivity.
        -- right. exact Htl.
    + exists a. rewrite (invoke_other l n w r Hnr).
      split; [exact Ha|]. split; [exact Hk|].
      destruct Hor as [HQ | Hex]; [left; exact HQ|].
      inversion Hex as [? ? (Hr & _) | ? ? Htl]; subst;
        [contradiction | right; exact Htl].
  - apply IH; [intros; apply Hkeep; simpl; auto|].
    exists a. split; [exact Ha|]. split; [exact Hk|].
    destruct Hor as [HQ | Hex]; [left; exact HQ|].
    inversion Hex as [? ? (_ & He & _) | ? ? Htl]; subst;
      [contradiction | right; exact Htl].
Qed.

(** ** What the constructors build *)

Ltac show_fields :=
  eexists _, _, _; (split; [reflexivity|]); simpl;
  repeat split; reflexivity.

Lemma constructor_fields (c : ActionClass) (self : Ref) (args : Args)
    (env : Services) :
  exists res a1 env1,
    constructor c self args (blank c) env = (res, a1, env1)
    /\ toDispose a1
       = map token (register_all self (nextToken env) (registrations c))
    /\ nextToken env1 = length (registrations c) + nextToken env
    /\ _label a1
       = match c with
         | DebugAction ToggleBreakpointsActivatedAction => toggle_label env
         | _ => arg_label args
         end
    /\ match c with
       | DebugAction ConfigureAction =>
           match configurationCount (debugService env) with
           | Normal count =>
               res = Normal tt
               /\ _cssClass a1
                  = if 0 <? count then "debug-action configure"
                    else "debug-action configure notification"
           | Throw e => res = Throw e
           end
       | _ => res = Normal tt
       end.
Proof.
  destruct c as [d| |].
  - destruct (isEnabled_returns d (debugService env)
                (state (debugService env))) as [b Hb].
    pose proof (fun id label css wt =>
      AbstractDebugAction_constructor_spec self id label css wt
        (blank (DebugAction d)) env d b eq_refl Hb) as Hsuper.
    unfold constructor, DebugAction_constructor.
    destruct d; cbv zeta;
      first [ rewrite Hsuper | erewrite bind_normal by apply Hsuper ];
      unfold updateClass, toDispose_push, subscribe, updateLabel, bind,
        modify_this, get_services, lift, configurationCount; simpl;
      try destruct (reduce_sum _);
      show_fields.
  - unfold constructor, ToggleReplAction_constructor, Action_constructor,
      toDispose_push, subscribe, bind, modify_this. simpl.
    show_fields.
  - unfold constructor, CopyValueAction_constructor, Action_constructor,
      bind, modify_this, get_this. simpl.
    show_fields.
Qed.

(** Everything known about a new object and the world it is in. *)
Lemma new_fields (c : ActionClass) (args : Args) (w : World) :
  exists (res : Completion unit) a1 env1,
    new c args w
    = (completion_bind res (fun _ => Normal (nextRef w)),
       {| services := env1; heap := <[nextRef w := a1]> (heap w);
          nextRef := S (nextRef w) |})
    /\ constructed c (nextRef w) args (services w) a1 env1
    /\ toDispose a1
       = map token (register_all (nextRef w) (nextToken (services w))
                      (registrations c))
    /\ nextToken env1 = length (registrations c) + nextToken (services w)
    /\ _label a1
       = match c with
         | DebugAction ToggleBreakpointsActivatedAction =>
             toggle_label (services w)
         | _ => arg_label args
         end
    /\ match c with
       | DebugAction ConfigureAction =>
           match configurationCount (debugService (services w)) with
           | Normal count =>
               res = Normal tt
               /\ _cssClass a1
                  = if 0 <? count then "debug-action configure"
                    else "debug-action configure notification"
           | Throw e => res = Throw e
           end
       | _ => res = Normal tt
       end.
Proof.
  destruct (constructor_spec c (nextRef w) args (services w))
    as (res & a1 & env1 & Hrun & Hc).
  destruct (constructor_fields c (nextRef w) args (services w))
    as (res' & a1' & env1' & Hrun' & Hfields).
  rewrite Hrun in Hrun'. injection Hrun' as <- <- <-.
  exists res, a1, env1. split; [|split; [exact Hc | exact Hfields]].
  unfold new. rewrite Hrun. reflexivity.
Qed.

Lemma object_after_steps (r : Ref) (k : ActionClass) (w : World)
    (trace : list (IDebugService * Notification)) :
  (exists a, heap w !! r = Some a /\ classOf a = k) ->
  exists a, heap (steps w trace) !! r = Some a /\ classOf a = k.
Proof.
  intros (a & Ha & Hk). pose proof (steps_identity trace w r) as Hid.
  unfold identity_at in Hid. rewrite Ha in Hid.
  destruct (heap (steps w trace) !! r) as [a'|]; [|discriminate].
  exists a'. split; [reflexivity|]. simpl in Hid. congruence.
Qed.

(** X5.  Reapply-all-breakpoints is the only debug action whose predicate
    depends on the state handed to [updateEnablement]; the predicate of
    every other class reads the debug service itself.  So for every other
    class the enablement is right after any notification the action is
    subscribed to, whatever state the notification carries. *)
Theorem payload_matters_for_Reapply_only (c : DebugActionClass) :
  ((forall ds st st', isEnabled c ds st = isEnabled c ds st')
   <-> c <> ReapplyBreakpointsAction)
  /\ (c <> ReapplyBreakpointsAction ->
      forall args w r w1 trace sn,
        new (DebugAction c) args w = (Normal r, w1) ->
        subscribed r (event_of (snd sn)) w1 = true ->
        in_sync r c (step (steps w1 trace) sn)).
Proof.
  split.
  - split.
    + intros Hall ->.
      specialize (Hall one_breakpoint Running Inactive). discriminate Hall.
    + intros Hne ds st st'. apply isEnabled_ignores_state. exact Hne.
  - intros Hne args w r w1 trace sn Hnew Hsub.
    destruct (new_returns _ _ _ _ _ Hnew)
      as (-> & a1 & Ha1 & _ & Hclass & _).
    destruct (object_after_steps (nextRef w) (DebugAction c) w1 trace)
      as (a & Ha & Hk); [eauto|].
    rewrite <- (subscribed_steps _ _ w1 trace) in Hsub.
    apply subscribed_refreshes in Hsub.
    unfold step, fire. simpl.
    set (env := with_debugService (fst sn) (services (steps w1 trace))).
    destruct (deliver_establishes
                (fun a0 => isEnabled c (debugService env)
                             (state (debugService env))
                           = Normal (_enabled a0))
                (snd sn) (nextRef w) (DebugAction c)
                (listeners (services (steps w1 trace)))
                {| services := env; heap := heap (steps w1 trace);
                   nextRef := nextRef (steps w1 trace) |})
      as (a' & Ha' & Hk' & HQ).
    + simpl. intros l a0 _ _ _ Hk0 HQ0.
      destruct (updates_enablement (callback l)) eqn:Hcb.
      * exact (run_callback_refreshes c _ (snd sn) a0 env Hk0 Hcb Hne).
      * destruct (run_callback_spec (callback l) (snd sn) a0 env)
          as (res & a0' & -> & _ & _ & Hen & _).
        simpl. rewrite (Hen Hcb). exact HQ0.
    + exists a. simpl. split; [exact Ha|]. split; [exact Hk|]. right.
      apply List.Exists_exists in Hsub.
      destruct Hsub as (l & Hl & Hr & He & Hcb).
      apply List.Exists_exists. exists l. split; [exact Hl|].
      repeat split; try assumption.
      intros a0 Hk0.
      exact (run_callback_refreshes c _ (snd sn) a0 env Hk0 Hcb Hne).
    + exists a'. repeat split; try assumption.
      destruct (deliver_services (snd sn)
                  (listeners (services (steps w1 trace)))
                  {| services := env; heap := heap (steps w1 trace);
                     nextRef := nextRef (steps w1 trace) |}) as [-> _].
      exact HQ.
Qed.

Lemma payload_matters_for_Reapply_only_witness :
  in_sync 0 StartAction
    (step (snd (new (DebugAction StartAction) args0 empty_world))
       (initializing, DidChangeState Running)).
Proof.
  apply (proj2 (payload_matters_for_Reapply_only StartAction)
           ltac:(discriminate) args0 empty_world 0
           (snd (new (DebugAction StartAction) args0 empty_world)) []
           (initializing, DidChangeState Running));
    reflexivity.
Defined.

Lemma configurationCount_throws (ds : IDebugService) :
  (exists e, configurationCount ds = Throw e)
  <-> getLaunches (getConfigurationManager ds) = [].
Proof.
  unfold configurationCount.
  destruct (getLaunches (getConfigurationManager ds)); simpl; split;
    try discriminate; eauto.
  intros [e He]. discriminate.
Qed.

(** X6.  Constructing an action completes normally for every class and
    every world, with one exception: the constructor of [ConfigureAction]
    throws a [TypeError] when there is no launch at all (it reduces an
    empty array without an initial value).  It throws after having
    subscribed, so the half-built action, which nobody holds a reference
    to, stays registered with the emitters and keeps tracking the debug
    state. *)
Theorem new_completes_or_leaks (c : ActionClass) (args : Args) (w : World) :
  let none :=
    c = DebugAction ConfigureAction
    /\ getLaunches (getConfigurationManager (debugService (services w))) = []
  in
  (~ none -> exists w1, new c args w = (Normal (nextRef w), w1))
  /\ (none ->
      exists message w1,
        new c args w = (Throw (TypeError message), w1)
        /\ in_sync (nextRef w) ConfigureAction w1
        /\ subscribed (nextRef w) OnDidChangeState w1 = true
        /\ length (listeners (services w1))
           = 2 + length (listeners (services w))).
Proof.
  intros none.
  destruct (new_fields c args w)
    as (res & a1 & env1 & Hnew & Hc & _ & _ & _ & Hres).
  split.
  - intros Hsome. eexists. rewrite Hnew.
    assert (res = Normal tt) as ->; [|reflexivity].
    destruct c as [[]| |]; try exact Hres.
    destruct (configurationCount (debugService (services w))) as [n | e] eqn:E;
      [apply Hres|].
    destruct Hsome. split; [reflexivity|].
    apply configurationCount_throws. eauto.
  - intros [-> Hnone]. rewrite Hnew.
    unfold configurationCount in Hres. rewrite Hnone in Hres. simpl in Hres.
    subst res. eexists _, _. split; [reflexivity|].
    destruct Hc as (Hds & Hclass & Hls & _ & Hsync). simpl.
    split; [|split].
    + exists a1. simpl. rewrite lookup_insert_eq, Hds. auto.
    + unfold subscribed. simpl. rewrite Hls, existsb_app. simpl.
      rewrite !bool_decide_eq_true_2 by reflexivity. simpl.
      apply orb_true_r.
    + rewrite Hls, length_app. simpl. lia.
Qed.

Lemma new_completes_or_leaks_witness :
  (exists w1, new (DebugAction StartAction) args0 empty_world = (Normal 0, w1))
  /\ exists message w1,
       new (DebugAction ConfigureAction) args0 empty_world
       = (Throw (TypeError message), w1)
       /\ length (listeners (services w1)) = 2.
Proof.
  split.
  - apply (new_completes_or_leaks (DebugAction StartAction) args0 empty_world).
    intros [H _]. discriminate H.
  - destruct (proj2 (new_completes_or_leaks (DebugAction ConfigureAction)
                       args0 empty_world) (conj eq_refl eq_refl))
      as (message & w1 & Hnew & _ & _ & Hlen).
    exists message, w1. split; [exact Hnew | exact Hlen].
Defined.

(** ** The look of [ConfigureAction] and [ToggleBreakpointsActivatedAction] *)

Lemma fold_add_positive (xs : list nat) (x : nat) :
  0 < fold_left Nat.add xs x <-> 0 < x \/ Exists (fun y => 0 < y) xs.
Proof.
  revert x. induction xs as [|y xs IH]; intros x; simpl.
  - split; [auto | intros [H | H]; [exact H | inversion H]].
  - rewrite IH. split.
    + intros [H | H]; [|right; right; exact H].
      destruct x; [right; left; lia | left; lia].
    + intros [H | H]; [left; lia|].
      inversion H; subst; [left; lia | right; assumption].
Qed.

Lemma configurationCount_positive (ds : IDebugService) (count : nat) :
  configurationCount ds = Normal count ->
  (0 <? count) = true <-> has_configuration ds.
Proof.
  unfold configurationCount, has_configuration.
  destruct (getLaunches (getConfigurationManager ds)) as [|l ls]; simpl;
    [discriminate|].
  intros H. injection H as <-. rewrite Nat.ltb_lt, fold_add_positive.
  assert (Hlen : forall l0 : Launch.t,
            0 < length (Launch.getConfigurationNames l0)
            <-> Launch.getConfigurationNames l0 <> []).
  { intros l0. destruct (Launch.getConfigurationNames l0); simpl;
      split; intros H; try lia; congruence. }
  split.
  - intros [H | H]; [left; apply Hlen; exact H|].
    right. apply List.Exists_exists in H. destruct H as (y & Hy & Hpos).
    apply in_map_iff in Hy. destruct Hy as (l0 & <- & Hl0).
    apply List.Exists_exists. exists l0. split; [exact Hl0|].
    apply Hlen. exact Hpos.
  - intros H. inversion H as [? ? Hhd | ? ? Htl]; subst;
      [left; apply Hlen; exact Hhd|].
    right. apply List.Exists_exists in Htl. destruct Htl as (l0 & Hl0 & Hne).
    apply List.Exists_exists.
    exists (length (Launch.getConfigurationNames l0)).
    split; [|apply Hlen; exact Hne].
    apply (in_map (fun l => length (Launch.getConfigurationNames l))).
    exact Hl0.
Qed.

Lemma class_for_count (ds : IDebugService) (count : nat) :
  configurationCount ds = Normal count ->
  class_for ds (if 0 <? count then "debug-action configure"
                else "debug-action configure notification").
Proof.
  intros Hcount. pose proof (configurationCount_positive ds count Hcount) as H.
  unfold class_for. destruct (0 <? count).
  - left. split; [apply H; reflexivity | reflexivity].
  - right. split; [|reflexivity]. intros Hc. apply H in Hc. discriminate.
Qed.

(** X7.  A [ConfigureAction] that was constructed shows the plain class
    when some launch has a named configuration and the class with the
    notification badge when no launch has one.  From then on, whatever
    happened in between, the same holds again after every
    configuration-selected notification, as long as there is a launch; with
    no launch at all the listener throws inside the dispatch and the class
    stays what it was. *)
Theorem ConfigureAction_class_tracks (args : Args) (w : World) (r : Ref)
    (w1 : World) :
  new (DebugAction ConfigureAction) args w = (Normal r, w1) ->
  (exists cls,
     class_at r w1 = Some cls /\ class_for (debugService (services w)) cls)
  /\ (forall trace ds,
        getLaunches (getConfigurationManager ds) <> [] ->
        exists cls,
          class_at r (step (steps w1 trace) (ds, DidSelectConfiguration))
          = Some cls
          /\ class_for ds cls)
  /\ (forall trace ds,
        getLaunches (getConfigurationManager ds) = [] ->
        class_at r (step (steps w1 trace) (ds, DidSelectConfiguration))
        = class_at r (steps w1 trace)).
Proof.
  intros Hnew.
  destruct (new_fields (DebugAction ConfigureAction) args w)
    as (res & a1 & env1 & Heq & Hc & _ & _ & _ & Hres).
  rewrite Heq in Hnew. injection Hnew as Hr <-.
  destruct Hc as (Hds & Hclass & Hls & _).
  destruct (configurationCount (debugService (services w))) as [count|e]
    eqn:Hcount; [|subst res; discriminate Hr].
  destruct Hres as [-> Hcss]. injection Hr as <-.
  set (w1 := {| services := env1; heap := <[nextRef w:=a1]> (heap w);
                nextRef := S (nextRef w) |}).
  assert (Hobj : forall trace,
            exists a, heap (steps w1 trace) !! nextRef w = Some a
                      /\ classOf a = DebugAction ConfigureAction).
  { intros trace. apply object_after_steps. exists a1.
    split; [apply lookup_insert_eq | exact Hclass]. }
  split; [|split].
  - eexists. unfold class_at. simpl. rewrite lookup_insert_eq. simpl.
    split; [reflexivity|]. rewrite Hcss. apply class_for_count. exact Hcount.
  - intros trace ds Hlaunch. destruct (Hobj trace) as (a & Ha & Hk).
    destruct (configurationCount ds) as [n|e] eqn:Hn;
      [|destruct Hlaunch; apply configurationCount_throws; eauto].
    unfold step, fire. simpl.
    set (env := with_debugService ds (services (steps w1 trace))).
    destruct (deliver_establishes
                (fun a0 => _cssClass a0
                           = if 0 <? n then "debug-action configure"
                             else "debug-action configure notification")
                DidSelectConfiguration (nextRef w)
                (DebugAction ConfigureAction)
                (listeners (services (steps w1 trace)))
                {| services := env; heap := heap (steps w1 trace);
                   nextRef := nextRef (steps w1 trace) |})
      as (a' & Ha' & _ & HQ).
    + simpl. intros l a0 _ _ _ _ HQ0.
      rewrite run_callback_cssClass by discriminate. simpl. rewrite Hn.
      destruct (callback l); try exact HQ0. reflexivity.
    + exists a. simpl. split; [exact Ha|]. split; [exact Hk|]. right.
      apply List.Exists_exists.
      exists {| token := S (nextToken (services w));
                event := OnDidSelectConfiguration; this := nextRef w;
                callback := cb_updateClass |}.
      split.
      * rewrite steps_listeners. simpl. rewrite Hls. apply in_or_app.
        right. simpl. auto.
      * split; [reflexivity|]. split; [reflexivity|]. intros a0 _.
        pose proof (run_callback_cssClass cb_updateClass
                      DidSelectConfiguration a0 env ltac:(discriminate))
          as Hcss'.
        change (debugService env) with ds in Hcss'. rewrite Hn in Hcss'.
        exact Hcss'.
    + exists (_cssClass a'). unfold class_at. rewrite Ha'. simpl.
      split; [reflexivity|]. rewrite HQ. apply class_for_count. exact Hn.
  - intros trace ds Hlaunch. destruct (Hobj trace) as (a & Ha & Hk).
    assert (Hn : exists e, configurationCount ds = Throw e).
    { apply configurationCount_throws. exact Hlaunch. }
    destruct Hn as [e Hn].
    unfold step, fire. simpl.
    set (env := with_debugService ds (services (steps w1 trace))).
    destruct (deliver_establishes
                (fun a0 => _cssClass a0 = _cssClass a)
                DidSelectConfiguration (nextRef w)
                (DebugAction ConfigureAction)
                (listeners (services (steps w1 trace)))
                {| services := env; heap := heap (steps w1 trace);
                   nextRef := nextRef (steps w1 trace) |})
      as (a' & Ha' & _ & HQ).
    + simpl. intros l a0 _ _ _ _ HQ0.
      rewrite run_callback_cssClass by discriminate. simpl. rewrite Hn.
      destruct (callback l); exact HQ0.
    + exists a. simpl. auto.
    + unfold class_at. rewrite Ha', Ha. simpl. rewrite HQ. reflexivity.
Qed.

Lemma ConfigureAction_class_tracks_witness :
  exists cls,
    class_at 0
      (step
         (snd (new (DebugAction ConfigureAction) args0
                 (world_of one_launch)))
         (one_launch, DidSelectConfiguration)) = Some cls
    /\ class_for one_launch cls.
Proof.
  apply (proj1 (proj2 (ConfigureAction_class_tracks args0
                         (world_of one_launch) 0
                         (snd (new (DebugAction ConfigureAction) args0
                                 (world_of one_launch)))
                         eq_refl)) [] one_launch).
  discriminate.
Defined.

(** X8.  The label of a [ToggleBreakpointsActivatedAction] says what
    running it will do: whatever label the constructor is given, the new
    action is labelled "Deactivate Breakpoints" when breakpoints are
    activated and "Activate Breakpoints" when they are not, and this holds
    again after every breakpoints-changed notification.  Every other
    debug action is labelled as the constructor is told. *)
Theorem Toggle_label_tracks (c : DebugActionClass) (args : Args) (w : World)
    (r : Ref) (w1 : World) :
  new (DebugAction c) args w = (Normal r, w1) ->
  (c <> ToggleBreakpointsActivatedAction ->
   label_at r w1 = Some (arg_label args))
  /\ (c = ToggleBreakpointsActivatedAction ->
      label_at r w1
      = Some (if areBreakpointsActivated
                   (getModel (debugService (services w)))
              then DEACTIVATE_LABEL else ACTIVATE_LABEL)
      /\ forall trace ds,
           label_at r (step (steps w1 trace) (ds, DidChangeBreakpoints))
           = Some (if areBreakpointsActivated (getModel ds)
                   then DEACTIVATE_LABEL else ACTIVATE_LABEL)).
Proof.
  intros Hnew.
  destruct (new_fields (DebugAction c) args w)
    as (res & a1 & env1 & Heq & Hc & _ & _ & Hlabel & _).
  rewrite Heq in Hnew. injection Hnew as Hr <-.
  destruct res as [[]|e]; [injection Hr as <- | discriminate Hr].
  destruct Hc as (Hds & Hclass & Hls & _).
  split.
  - intros Hne. unfold label_at. simpl. rewrite lookup_insert_eq. simpl.
    rewrite Hlabel. destruct c; try reflexivity. destruct Hne. reflexivity.
  - intros ->. split.
    + unfold label_at. simpl. rewrite lookup_insert_eq. simpl.
      rewrite Hlabel. reflexivity.
    + intros trace ds.
      set (w1 := {| services := env1; heap := <[nextRef w:=a1]> (heap w);
                    nextRef := S (nextRef w) |}).
      destruct (object_after_steps (nextRef w)
                  (DebugAction ToggleBreakpointsActivatedAction) w1 trace)
        as (a & Ha & Hk).
      { exists a1. split; [apply lookup_insert_eq | exact Hclass]. }
      unfold step, fire. simpl.
      set (env := with_debugService ds (services (steps w1 trace))).
      destruct (deliver_establishes
                  (fun a0 => _label a0 = toggle_label env)
                  DidChangeBreakpoints (nextRef w)
                  (DebugAction ToggleBreakpointsActivatedAction)
                  (listeners (services (steps w1 trace)))
                  {| services := env; heap := heap (steps w1 trace);
                     nextRef := nextRef (steps w1 trace) |})
        as (a' & Ha' & _ & HQ).
      * simpl. intros l a0 _ _ _ _ HQ0. rewrite run_callback_label.
        destruct (callback l); try exact HQ0. reflexivity.
      * exists a. simpl. split; [exact Ha|]. split; [exact Hk|]. right.
        apply List.Exists_exists.
        exists {| token := S (nextToken (services w));
                  event := OnDidChangeBreakpoints; this := nextRef w;
                  callback := cb_updateLabel_updateEnablement |}.
        split.
        -- rewrite steps_listeners. simpl. rewrite Hls. apply in_or_app.
           right. simpl. auto.
        -- split; [reflexivity|]. split; [reflexivity|]. intros a0 _.
           exact (run_callback_label cb_updateLabel_updateEnablement
                    DidChangeBreakpoints a0 env).
      * unfold label_at. rewrite Ha'. simpl. rewrite HQ. reflexivity.
Qed.

Lemma Toggle_label_tracks_witness :
  label_at 0
    (snd (new (DebugAction ToggleBreakpointsActivatedAction) args0
            empty_world)) = Some "Deactivate Breakpoints"
  /\ label_at 0
       (step (snd (new (DebugAction ToggleBreakpointsActivatedAction) args0
                     empty_world))
          (deactivated, DidChangeBreakpoints))
     = Some "Activate Breakpoints".
Proof.
  destruct (proj2 (Toggle_label_tracks ToggleBreakpointsActivatedAction
                     args0 empty_world 0
                     (snd (new (DebugAction ToggleBreakpointsActivatedAction)
                             args0 empty_world)) eq_refl) eq_refl)
    as [Hnew Hlater].
  split; [exact Hnew | exact (Hlater [] deactivated)].
Defined.

(** ** The bookkeeping of subscriptions *)

Lemma register_all_spec (self : Ref) (regs : list (EventKind * Callback))
    (t : nat) (l : Listener) :
  In l (register_all self t regs) ->
  this l = self /\ t <= token l < length regs + t.
Proof.
  revert t. induction regs as [|[e cb] regs IH]; intros t; simpl; [tauto|].
  intros [<- | Hl]; [simpl; lia|].
  destruct (IH (S t) Hl) as [Hs Ht]. split; [exact Hs | lia].
Qed.

Lemma consistent_empty : consistent empty_world.
Proof.
  split.
  - intros l [].
  - intros r a Ha. simpl in Ha. rewrite lookup_empty in Ha. discriminate.
Qed.

Lemma consistent_new (c : ActionClass) (args : Args) (w : World) :
  consistent w -> consistent (snd (new c args w)).
Proof.
  intros [HL HO].
  destruct (new_fields c args w)
    as (res & a1 & env1 & -> & Hc & Htokens & Hnext & _).
  destruct Hc as (_ & Hclass & Hls & _). simpl.
  set (added := register_all (nextRef w) (nextToken (services w))
                  (registrations c)) in *.
  assert (Hadded : forall l, In l added ->
            this l = nextRef w
            /\ nextToken (services w) <= token l
               < length (registrations c) + nextToken (services w)).
  { intros l Hl. apply (register_all_spec _ _ _ _ Hl). }
  split; simpl.
  - intros l Hl. rewrite Hls in Hl. apply in_app_or in Hl.
    destruct Hl as [Hold | Hnew].
    + destruct (HL l Hold) as (Ht & a & Ha & Hk & Hin).
      split; [lia|]. exists a. destruct (HO _ _ Ha) as (Hr & _).
      rewrite lookup_insert_ne by lia. auto.
    + destruct (Hadded l Hnew) as [Hthis Ht]. split; [lia|].
      exists a1. rewrite Hthis, lookup_insert_eq.
      split; [reflexivity|]. split.
      * rewrite Hclass. intros ->. destruct Hnew.
      * rewrite Htokens. apply in_map. exact Hnew.
  - intros r a Ha. destruct (decide (r = nextRef w)) as [-> | Hne].
    + rewrite lookup_insert_eq in Ha. injection Ha as <-.
      split; [lia|]. rewrite Htokens. split.
      * intros t Ht. apply in_map_iff in Ht. destruct Ht as (l & <- & Hl).
        apply Hadded in Hl. lia.
      * intros l Hl Ht. rewrite Hls in Hl. apply in_app_or in Hl.
        destruct Hl as [Hold | Hnew]; [|apply Hadded; exact Hnew].
        apply in_map_iff in Ht. destruct Ht as (l' & Heq & Hl').
        apply Hadded in Hl'. destruct (HL l Hold) as (Hlt & _). lia.
    + rewrite lookup_insert_ne in Ha by congruence.
      destruct (HO r a Ha) as (Hr & Ht & Hown).
      split; [lia|]. split.
      * intros t Hin. specialize (Ht t Hin). lia.
      * intros l Hl Hin. rewrite Hls in Hl. apply in_app_or in Hl.
        destruct Hl as [Hold | Hnew]; [exact (Hown l Hold Hin)|].
        apply Hadded in Hnew. specialize (Ht _ Hin). lia.
Qed.

Lemma identity_at_eq (r : Ref) (w w' : World) (a' : ActionObject) :
  identity_at r w' = identity_at r w ->
  heap w' !! r = Some a' ->
  exists a, heap w !! r = Some a /\ classOf a = classOf a'
            /\ toDispose a = toDispose a'.
Proof.
  unfold identity_at. intros Hid Ha'. rewrite Ha' in Hid.
  destruct (heap w !! r) as [a|]; [|discriminate].
  exists a. simpl in Hid. injection Hid as Hc Hd. auto.
Qed.

Lemma consistent_step (w : World) (sn : IDebugService * Notification) :
  consistent w -> consistent (step w sn).
Proof.
  intros [HL HO].
  assert (Hnext : nextRef (step w sn) = nextRef w).
  { unfold step, fire.
    exact (proj2 (deliver_services _ _ _)). }
  split; rewrite step_services; simpl.
  - intros l Hl. destruct (HL l Hl) as (Ht & a & Ha & Hk & Hin).
    split; [exact Ht|].
    pose proof (step_identity w sn (this l)) as Hid.
    unfold identity_at in Hid. rewrite Ha in Hid.
    destruct (heap (step w sn) !! this l) as [a'|]; [|discriminate].
    exists a'. simpl in Hid. injection Hid as Hc Hd.
    split; [reflexivity|]. rewrite Hc, Hd. auto.
  - intros r a' Ha'.
    destruct (identity_at_eq r w _ a' (step_identity w sn r) Ha')
      as (a & Ha & _ & Hd).
    rewrite Hnext, <- Hd. apply (HO r a Ha).
Qed.

Lemma filter_twice {A} (f g : A -> bool) (l : list A) :
  List.filter g (List.filter f l) = List.filter (fun x => f x && g x) l.
Proof.
  induction l as [|x l IH]; simpl; [reflexivity|].
  destruct (f x); simpl; [destruct (g x); rewrite IH; reflexivity | exact IH].
Qed.

Lemma unsubscribe_all_spec (ds : list IDisposable) (env : Services) :
  fold_left (fun env d => unsubscribe d env) ds env
  = with_listeners
      (List.filter (fun l => negb (existsb (Nat.eqb (token l)) ds))
         (listeners env)) env.
Proof.
  revert env. induction ds as [|d ds IH]; intros env; simpl.
  - destruct env as [? ls ? ? ?]. unfold with_listeners. simpl. f_equal.
    induction ls as [|l ls IHl]; simpl;
      [reflexivity | rewrite <- IHl; reflexivity].
  - rewrite IH. unfold unsubscribe, with_listeners. simpl. f_equal.
    rewrite filter_twice. apply filter_ext. intros l.
    rewrite negb_orb. reflexivity.
Qed.

(** [dispose], exactly. *)
Lemma dispose_exact (a : ActionObject) (env : Services) :
  dispose a env
  = match classOf a with
    | CopyValueAction => (Normal tt, a, env)
    | _ =>
        (Normal tt, with_toDispose [] a,
         with_listeners
           (List.filter
              (fun l => negb (existsb (Nat.eqb (token l)) (toDispose a)))
              (listeners env)) env)
    end.
Proof.
  unfold dispose, bind, get_this.
  destruct (classOf a) eqn:Hc; simpl; try reflexivity;
    unfold AbstractDebugAction_dispose, Action_dispose, lifecycle_dispose,
      bind, ret, get_this, modify_this; simpl;
    rewrite unsubscribe_all_spec; reflexivity.
Qed.

Lemma consistent_owner (w : World) (r : Ref) (a : ActionObject)
    (l : Listener) :
  consistent w -> heap w !! r = Some a -> In l (listeners (services w)) ->
  this l = r
  <-> classOf a <> CopyValueAction /\ In (token l) (toDispose a).
Proof.
  intros [HL HO] Ha Hl. split.
  - intros <-. destruct (HL l Hl) as (_ & a0 & Ha0 & Hk & Hin).
    rewrite Ha in Ha0. injection Ha0 as <-. auto.
  - intros [_ Hin]. destruct (HO r a Ha) as (_ & _ & Hown). auto.
Qed.

Lemma with_listeners_same (env : Services) :
  with_listeners (listeners env) env = env.
Proof. destruct env. reflexivity. Qed.

Lemma filter_all {A} (f : A -> bool) (l : list A) :
  (forall x, In x l -> f x = true) -> List.filter f l = l.
Proof.
  induction l as [|x l IH]; simpl; intros H; [reflexivity|].
  rewrite (H x) by auto. rewrite IH by auto. reflexivity.
Qed.

(** In a consistent world, [dispose] removes the listeners that close
    over the receiver, and nothing else. *)
Lemma call_dispose_exact (w : World) (r : Ref) (a : ActionObject) :
  consistent w -> heap w !! r = Some a ->
  exists a',
    call r dispose w
    = (Normal tt,
       {| services :=
            with_listeners
              (List.filter (fun l => negb (this l =? r))
                 (listeners (services w))) (services w);
          heap := <[r := a']> (heap w); nextRef := nextRef w |})
    /\ classOf a' = classOf a /\ _enabled a' = _enabled a
    /\ (classOf a = CopyValueAction \/ toDispose a' = [])
    /\ (forall t, In t (toDispose a') -> In t (toDispose a)).
Proof.
  intros Hcons Ha. unfold call. rewrite Ha, dispose_exact.
  assert (Hfilter :
    classOf a <> CopyValueAction ->
    List.filter (fun l => negb (existsb (Nat.eqb (token l)) (toDispose a)))
      (listeners (services w))
    = List.filter (fun l => negb (this l =? r)) (listeners (services w))).
  { intros Hk. apply filter_ext_in. intros l Hl. f_equal.
    pose proof (consistent_owner w r a l Hcons Ha Hl) as Hown.
    destruct (this l =? r) eqn:Hr.
    - apply Nat.eqb_eq in Hr. apply Hown in Hr. destruct Hr as [_ Hin].
      apply existsb_exists. exists (token l).
      split; [exact Hin | apply Nat.eqb_refl].
    - apply not_true_is_false. intros Hex. apply existsb_exists in Hex.
      destruct Hex as (t & Hin & Heq). apply Nat.eqb_eq in Heq. subst t.
      apply Nat.eqb_neq in Hr. apply Hr. apply Hown. auto. }
  destruct (classOf a) eqn:Hk.
  - exists (with_toDispose [] a). rewrite Hfilter by discriminate.
    repeat split; simpl; auto. intros t [].
  - exists (with_toDispose [] a). rewrite Hfilter by discriminate.
    repeat split; simpl; auto. intros t [].
  - exists a. rewrite filter_all, with_listeners_same; [repeat split; auto|].
    intros l Hl. apply negb_true_iff, Nat.eqb_neq. intros Hr.
    apply (consistent_owner w r a l Hcons Ha Hl) in Hr.
    destruct Hr as [Hne _]. apply Hne. exact Hk.
Qed.

Lemma consistent_dispose (r : Ref) (w : World) :
  consistent w -> consistent (snd (call r dispose w)).
Proof.
  intros Hcons. destruct (heap w !! r) as [a|] eqn:Ha;
    [|unfold call; rewrite Ha; exact Hcons].
  destruct (call_dispose_exact w r a Hcons Ha)
    as (a' & -> & Hk & _ & _ & Hsub).
  destruct Hcons as [HL HO]. split; simpl.
  - intros l Hl. apply filter_In in Hl. destruct Hl as [Hl Hr].
    apply negb_true_iff, Nat.eqb_neq in Hr.
    destruct (HL l Hl) as (Ht & a0 & Ha0 & Hk0 & Hin).
    split; [exact Ht|]. exists a0. rewrite lookup_insert_ne by congruence.
    auto.
  - intros r0 a0 Ha0. destruct (decide (r0 = r)) as [-> | Hne].
    + rewrite lookup_insert_eq in Ha0. injection Ha0 as <-.
      destruct (HO r a Ha) as (Hr & Ht & Hown).
      split; [exact Hr|]. split; [intros t Hin; apply Ht, Hsub, Hin|].
      intros l Hl Hin. apply filter_In in Hl. destruct Hl as [Hl _].
      apply (Hown l Hl). apply Hsub. exact Hin.
    + rewrite lookup_insert_ne in Ha0 by congruence.
      destruct (HO r0 a0 Ha0) as (Hr & Ht & Hown).
      split; [exact Hr|]. split; [exact Ht|].
      intros l Hl Hin. apply filter_In in Hl. destruct Hl as [Hl _].
      apply (Hown l Hl Hin).
Qed.

Lemma consistent_exec_all (ops : list Op) (w : World) :
  consistent w -> consistent (exec_all w ops).
Proof.
  revert w. induction ops as [|op ops IH]; intros w Hw; [exact Hw|].
  simpl. apply IH. destruct op as [c args | sn | r]; simpl.
  - apply consistent_new. exact Hw.
  - apply consistent_step. exact Hw.
  - apply consistent_dispose. exact Hw.
Qed.

Lemma consistent_fresh (w : World) :
  consistent w -> has_listener (nextRef w) w = false.
Proof.
  intros [HL HO]. apply has_listener_false. intros l Hl Hr.
  destruct (HL l Hl) as (_ & a & Ha & _).
  destruct (HO _ _ Ha) as (Hlt & _). lia.
Qed.

(** X9.  However actions are constructed, notified and disposed, starting
    from the empty world, the bookkeeping of subscriptions stays
    consistent: every registered listener belongs to a live object that
    recorded it in [toDispose] (so no [CopyValueAction] ever has a
    listener), and no object can dispose of another object's listener.
    In particular the reference allocated next is always fresh. *)
Theorem bookkeeping_consistent (ops : list Op) :
  consistent (exec_all empty_world ops)
  /\ has_listener (nextRef (exec_all empty_world ops))
       (exec_all empty_world ops) = false
  /\ forall r a,
       heap (exec_all empty_world ops) !! r = Some a ->
       classOf a = CopyValueAction ->
       has_listener r (exec_all empty_world ops) = false.
Proof.
  pose proof (consistent_exec_all ops empty_world consistent_empty) as Hc.
  split; [exact Hc|]. split; [apply consistent_fresh; exact Hc|].
  intros r a Ha Hk. apply has_listener_false. intros l Hl Hr.
  apply (consistent_owner _ r a l Hc Ha Hl) in Hr. tauto.
Qed.

(** X10.  In any world reached from the empty one, disposing an action
    completes normally and removes exactly the listeners that close over
    that action: the other listeners stay, in their order, so every other
    action keeps the subscriptions it had, and the debug domain is left
    alone. *)
Theorem dispose_removes_own_listeners_only (ops : list Op) (r : Ref)
    (a : ActionObject) :
  heap (exec_all empty_world ops) !! r = Some a ->
  exists w',
    call r dispose (exec_all empty_world ops) = (Normal tt, w')
    /\ listeners (services w')
       = List.filter (fun l => negb (this l =? r))
           (listeners (services (exec_all empty_world ops)))
    /\ debugService (services w')
       = debugService (services (exec_all empty_world ops))
    /\ (forall r' e,
          r' <> r ->
          subscribed r' e w' = subscribed r' e (exec_all empty_world ops))
    /\ (forall r',
          r' <> r -> heap w' !! r' = heap (exec_all empty_world ops) !! r').
Proof.
  intros Ha.
  pose proof (consistent_exec_all ops empty_world consistent_empty) as Hc.
  destruct (call_dispose_exact _ r a Hc Ha) as (a' & -> & _).
  eexists. split; [reflexivity|]. simpl.
  split; [reflexivity|]. split; [reflexivity|]. split.
  - intros r' e Hne. unfold subscribed. simpl.
    induction (listeners (services (exec_all empty_world ops)))
      as [|l ls IH]; simpl; [reflexivity|].
    destruct (this l =? r) eqn:Hr; simpl; rewrite IH; [|reflexivity].
    apply Nat.eqb_eq in Hr.
    rewrite (bool_decide_eq_false_2 (this l = r')) by congruence.
    reflexivity.
  - intros r' Hne. apply lookup_insert_ne. congruence.
Qed.

Lemma dispose_removes_own_listeners_only_witness :
  exists w',
    call 0 dispose
      (exec_all empty_world
         [OpNew (DebugAction StartAction) args0;
          OpNew (DebugAction RemoveAllBreakpointsAction) args0;
          OpStep (one_breakpoint, DidChangeBreakpoints)])
    = (Normal tt, w')
    /\ length (listeners (services w')) = 2
    /\ subscribed 1 OnDidChangeBreakpoints w' = true.
Proof.
  destruct (dispose_removes_own_listeners_only
              [OpNew (DebugAction StartAction) args0;
               OpNew (DebugAction RemoveAllBreakpointsAction) args0;
               OpStep (one_breakpoint, DidChangeBreakpoints)]
              0 _ eq_refl)
    as (w' & Hcall & Hls & _ & Hsub & _).
  exists w'. split; [exact Hcall|]. split.
  - rewrite Hls. vm_compute. reflexivity.
  - rewrite Hsub by discriminate. vm_compute. reflexivity.
Defined.

(** ** More of [CopyValueAction.run] *)

(** X11.  When the value is a [Variable] with an [evaluateName], a stack
    frame and a session are focused, and the session answers the evaluate
    request, [run] resolves, the clipboard holds the result of the
    evaluation (not the value the variable was shown with), and exactly
    one request was sent, for the [evaluateName], the focused frame and the
    action's context. *)
Theorem CopyValueAction_run_evaluated (a : ActionObject) (env : Services)
    (v : DebugVariable.t) (evaluateName : string)
    (stackFrame : StackFrame.t) (session : DebugSession.t)
    (result : EvaluateResponse) :
  value a = VVariable v ->
  DebugVariable.evaluateName v = Some evaluateName ->
  evaluateName <> "" ->
  focusedStackFrame (getViewModel (debugService env)) = Some stackFrame ->
  focusedSession (getViewModel (debugService env)) = Some session ->
  DebugSession.evaluate session evaluateName
    (StackFrame.frameId stackFrame) (context a) = Resolved result ->
  exists env',
    CopyValueAction_run a env = (Normal (Resolved tt), a, env')
    /\ clipboardText env' = VString (body_result result)
    /\ evaluateRequests env'
       = evaluateRequests env
         ++ [(evaluateName, StackFrame.frameId stackFrame, context a)]
    /\ debugService env' = debugService env
    /\ listeners env' = listeners env.
Proof.
  intros Hval Hname Hne Hframe Hsession Hresolved.
  apply truthy_nonempty in Hne.
  unfold CopyValueAction_run, bind, get_this, get_services.
  rewrite Hval, Hframe, Hsession, Hname, Hne.
  unfold session_evaluate, promise_then, bind, modify_services, ret.
  rewrite Hresolved. simpl.
  eexists. split; [reflexivity|]. simpl. repeat split.
Qed.

Lemma CopyValueAction_run_evaluated_witness :
  exists env',
    CopyValueAction_run
      (with_value (VVariable variable_x) "hover" (blank CopyValueAction))
      (with_debugService
         {| state := Stopped; getModel := empty_model;
            getViewModel :=
              {| getSelectedFunctionBreakpoint := None;
                 focusedStackFrame := Some {| StackFrame.frameId := 7 |};
                 focusedSession := Some answering_session |};
            getConfigurationManager := {| getLaunches := [] |} |}
         stopped_services)
    = (Normal (Resolved tt),
       with_value (VVariable variable_x) "hover" (blank CopyValueAction),
       env')
    /\ clipboardText env' = VString "43".
Proof.
  destruct (CopyValueAction_run_evaluated
              (with_value (VVariable variable_x) "hover"
                 (blank CopyValueAction))
              (with_debugService
                 {| state := Stopped; getModel := empty_model;
                    getViewModel :=
                      {| getSelectedFunctionBreakpoint := None;
                         focusedStackFrame :=
                           Some {| StackFrame.frameId := 7 |};
                         focusedSession := Some answering_session |};
                    getConfigurationManager := {| getLaunches := [] |} |}
                 stopped_services)
              variable_x "x" {| StackFrame.frameId := 7 |}
              answering_session {| body_result := "43" |}
              eq_refl eq_refl ltac:(discriminate) eq_refl eq_refl eq_refl)
    as (env' & Hrun & Hclip & _).
  exists env'. split; [exact Hrun | exact Hclip].
Defined.

(** Whether [run] goes to the debug session: the value is a [Variable]
    with a non-empty [evaluateName], and a stack frame and a session are
    focused. *)
Lemma CopyValueAction_run_cases (a : ActionObject) (env : Services) :
  (exists v name stackFrame session,
     value a = VVariable v
     /\ DebugVariable.evaluateName v = Some name /\ name <> ""
     /\ focusedStackFrame (getViewModel (debugService env)) = Some stackFrame
     /\ focusedSession (getViewModel (debugService env)) = Some session)
  \/ CopyValueAction_run a env
     = (Normal (Resolved tt), a,
        {| debugService := debugService env; listeners := listeners env;
           nextToken := nextToken env; clipboardText := value a;
           evaluateRequests := evaluateRequests env |}).
Proof.
  unfold CopyValueAction_run, bind, get_this, get_services.
  destruct (value a) as [|s|v|e|d] eqn:Hv; try (right; reflexivity).
  destruct (focusedStackFrame (getViewModel (debugService env)))
    as [stackFrame|]; [|right; reflexivity].
  destruct (focusedSession (getViewModel (debugService env)))
    as [session|]; [|right; reflexivity].
  destruct (DebugVariable.evaluateName v) as [name|] eqn:Hn;
    [|right; reflexivity].
  destruct (truthy name) eqn:Ht; [|right; reflexivity].
  left. exists v, name, stackFrame, session.
  apply truthy_nonempty in Ht. auto.
Qed.

(** X12.  Unless the value is a [Variable] with an [evaluateName] while a
    stack frame and a session are focused, [run] sends no request and
    puts [this.value] itself on the clipboard: the string, for a string;
    but for a [Variable] (an action that was constructed enabled, and
    nothing is focused) the [Variable] object, not its [value]. *)
Theorem CopyValueAction_run_direct (a : ActionObject) (env : Services) :
  (forall v name,
     value a = VVariable v ->
     DebugVariable.evaluateName v = Some name -> name <> "" ->
     focusedStackFrame (getViewModel (debugService env)) = None
     \/ focusedSession (getViewModel (debugService env)) = None) ->
  exists env',
    CopyValueAction_run a env = (Normal (Resolved tt), a, env')
    /\ clipboardText env' = value a
    /\ evaluateRequests env' = evaluateRequests env
    /\ debugService env' = debugService env
    /\ listeners env' = listeners env.
Proof.
  intros Hno.
  destruct (CopyValueAction_run_cases a env)
    as [(v & name & sf & ses & Hv & Hn & Hne & Hsf & Hses) | Hrun].
  - destruct (Hno v name Hv Hn Hne); congruence.
  - eexists. split; [exact Hrun|]. repeat split.
Qed.

Lemma CopyValueAction_run_direct_witness :
  CopyValueAction_enabled (VVariable variable_x) = true
  /\ exists env',
       CopyValueAction_run
         (with_value (VVariable variable_x) "hover" (blank CopyValueAction))
         (services empty_world)
       = (Normal (Resolved tt),
          with_value (VVariable variable_x) "hover" (blank CopyValueAction),
          env')
       /\ clipboardText env' = VVariable variable_x.
Proof.
  split; [reflexivity|].
  destruct (CopyValueAction_run_direct
              (with_value (VVariable variable_x) "hover"
                 (blank CopyValueAction))
              (services empty_world))
    as (env' & Hrun & Hclip & _).
  - intros v name _ _ _. left. reflexivity.
  - exists env'. split; [exact Hrun | exact Hclip].
Defined.

(** ** [FocusSessionAction.run]: the session it focuses *)

(** X14.  [FocusSessionAction.run] focuses the last session in the model's
    list whose label is the name it is given, so among sessions with the
    same label the most recent one wins; when no session has that label it
    goes on with no session at all ([undefined]). *)
Theorem FocusSessionAction_session_last (sessionName : string)
    (ds : IDebugService) :
  (FocusSessionAction_session sessionName ds = None
   <-> forall s, In s (getSessions (getModel ds)) ->
                 DebugSession.getLabel s <> sessionName)
  /\ (forall s,
        FocusSessionAction_session sessionName ds = Some s ->
        DebugSession.getLabel s = sessionName
        /\ exists before after,
             getSessions (getModel ds) = before ++ s :: after
             /\ forall s', In s' after ->
                           DebugSession.getLabel s' <> sessionName).
Proof.
  unfold FocusSessionAction_session.
  induction (getSessions (getModel ds)) as [|x l [IHnone IHsome]]; simpl.
  - split; [split; [intros _ s [] | reflexivity] | discriminate].
  - destruct (String.eqb (DebugSession.getLabel x) sessionName) eqn:Hx.
    + apply String.eqb_eq in Hx. rewrite last_cons. split.
      * split.
        -- destruct (last _); discriminate.
        -- intros H. destruct (H x (or_introl eq_refl) Hx).
      * intros s Hs.
        destruct (last (List.filter _ l)) as [y|] eqn:Hlast.
        -- injection Hs as ->.
           destruct (IHsome s eq_refl)
             as (Hlabel & before & after & -> & Hafter).
           split; [exact Hlabel|]. exists (x :: before), after. auto.
        -- injection Hs as ->. split; [exact Hx|].
           exists [], l. split; [reflexivity|]. apply IHnone. reflexivity.
    + apply String.eqb_neq in Hx. split.
      * rewrite IHnone. split.
        -- intros H s [<- | Hs]; auto.
        -- intros H s Hs. apply H. auto.
      * intros s Hs.
        destruct (IHsome s Hs) as (Hlabel & before & after & -> & Hafter).
        split; [exact Hlabel|]. exists (x :: before), after. auto.
Qed.

Lemma FocusSessionAction_session_last_witness :
  DebugSession.getLabel answering_session = "node"
  /\ exists before after,
       [failing_session; answering_session]
       = before ++ answering_session :: after
       /\ forall s', In s' after -> DebugSession.getLabel s' <> "node".
Proof.
  apply (proj2 (FocusSessionAction_session_last "node"
                  (with_model
                     {| getSessions := [failing_session; answering_session];
                        getBreakpoints := []; getFunctionBreakpoints := [];
                        getExceptionBreakpoints := [];
                        getWatchExpressions := [];
                        areBreakpointsActivated := true |}
                     empty_debugService)) answering_session).
  reflexivity.
Defined.

(** ** The tooltip of a debug action *)

Lemma prefix_append (s t : string) : String.prefix s (String.append s t) = true.
Proof.
  induction s as [|c s IH]; simpl; [destruct t; reflexivity|].
  destruct (Ascii.ascii_dec c c); [exact IH | congruence].
Qed.

Lemma prefix_self (s : string) : String.prefix s s = true.
Proof.
  induction s as [|c s IH]; simpl; [reflexivity|].
  destruct (Ascii.ascii_dec c c); [exact IH | congruence].
Qed.

Lemma append_longer (s t : string) :
  String.length (String.append s t) = String.length s + String.length t.
Proof.
  induction s as [|c s IH]; simpl; [reflexivity | rewrite IH; reflexivity].
Qed.

(** The getter of [AbstractDebugAction]: what it returns starts with the
    label, and goes beyond it exactly when there is a keybinding with a
    non-empty label. *)
Lemma AbstractDebugAction_tooltip_cases
    (lookupKeybinding : string -> option (option string))
    (a : ActionObject) :
  let shown := AbstractDebugAction_tooltip lookupKeybinding a in
  String.prefix (_label a) shown = true
  /\ (shown = _label a
      <-> ~ exists keybindingLabel,
              lookupKeybinding (_id a) = Some (Some keybindingLabel)
              /\ keybindingLabel <> "")
  /\ (forall keybindingLabel,
        lookupKeybinding (_id a) = Some (Some keybindingLabel) ->
        keybindingLabel <> "" ->
        shown
        = String.append (_label a)
            (String.append " (" (String.append keybindingLabel ")"))).
Proof.
  unfold AbstractDebugAction_tooltip.
  destruct (lookupKeybinding (_id a)) as [[kl|]|]; simpl.
  - destruct (truthy kl) eqn:Ht.
    + apply truthy_nonempty in Ht. split; [apply prefix_append|]. split.
      * split.
        -- intros Heq. apply (f_equal String.length) in Heq.
           rewrite append_longer in Heq. simpl in Heq. lia.
        -- intros H. destruct H. exists kl. auto.
      * intros kl' H. injection H as <-. reflexivity.
    + split; [apply prefix_self|]. split.
      * split; [|reflexivity]. intros _ (kl' & H & Hne).
        injection H as <-. apply truthy_nonempty in Hne. congruence.
      * intros kl' H Hne. injection H as <-.
        apply truthy_nonempty in Hne. congruence.
  - split; [apply prefix_self|]. split.
    + split; [|reflexivity]. intros _ (kl' & H & _). discriminate.
    + discriminate.
  - split; [apply prefix_self|]. split.
    + split; [|reflexivity]. intros _ (kl' & H & _). discriminate.
    + discriminate.
Qed.

(** X15.  The tooltip of a debug action of any class but [ConfigureAction]
    always starts with its current label.  It is the label followed by the
    keybinding's label in parentheses when the action has a keybinding
    with a non-empty label, and it is just the label when there is no
    keybinding, or the keybinding has no label, or an empty one.
    [ConfigureAction] overrides the getter: its tooltip is ["Open
    launch.json"] when the selected configuration has a non-empty name and
    ["Configure or Fix 'launch.json'"] otherwise, whatever the label and
    the keybinding. *)
Theorem tooltip_starts_with_label
    (lookupKeybinding : string -> option (option string))
    (selectedConfiguration_name : option string)
    (c : DebugActionClass) (a : ActionObject) :
  classOf a = DebugAction c ->
  let shown := tooltip lookupKeybinding selectedConfiguration_name a in
  (c <> ConfigureAction ->
     String.prefix (_label a) shown = true
     /\ (shown = _label a
         <-> ~ exists keybindingLabel,
                 lookupKeybinding (_id a) = Some (Some keybindingLabel)
                 /\ keybindingLabel <> "")
     /\ (forall keybindingLabel,
           lookupKeybinding (_id a) = Some (Some keybindingLabel) ->
           keybindingLabel <> "" ->
           shown
           = String.append (_label a)
               (String.append " (" (String.append keybindingLabel ")"))))
  /\ (c = ConfigureAction ->
      (shown = "Open launch.json"
       <-> exists name, selectedConfiguration_name = Some name /\ name <> "")
      /\ (shown = "Configure or Fix 'launch.json'"
          <-> ~ exists name,
                  selectedConfiguration_name = Some name /\ name <> "")).
Proof.
  intros Hc. unfold tooltip. rewrite Hc. split.
  - intros Hne.
    destruct c; try apply AbstractDebugAction_tooltip_cases.
    destruct Hne. reflexivity.
  - intros ->. unfold ConfigureAction_tooltip, ConfigureAction_LABEL.
    destruct selectedConfiguration_name as [name|]; simpl.
    + destruct (truthy name) eqn:Ht.
      * apply truthy_nonempty in Ht. split.
        -- split; [eauto | reflexivity].
        -- split; [discriminate|]. intros H. destruct H. eauto.
      * split.
        -- split; [discriminate|]. intros (name' & H & Hne).
           injection H as <-. apply truthy_nonempty in Hne. congruence.
        -- split; [|reflexivity]. intros _ (name' & H & Hne).
           injection H as <-. apply truthy_nonempty in Hne. congruence.
    + split.
      * split; [discriminate|]. intros (name' & H & _). discriminate.
      * split; [|reflexivity]. intros _ (name' & H & _). discriminate.
Qed.

Lemma tooltip_starts_with_label_witness :
  tooltip (fun _ => Some (Some "F5")) None
    (with_label "Start Debugging" (blank (DebugAction StartAction)))
  = "Start Debugging (F5)"
  /\ tooltip (fun _ => Some (Some "F5")) None
       (with_label "Open launch.json" (blank (DebugAction ConfigureAction)))
     = "Configure or Fix 'launch.json'".
Proof.
  split.
  - apply (proj2 (proj2 (proj1 (tooltip_starts_with_label
                                  (fun _ => Some (Some "F5")) None StartAction
                                  (with_label "Start Debugging"
                                     (blank (DebugAction StartAction)))
                                  eq_refl)
                           ltac:(discriminate))) "F5").
    + reflexivity.
    + discriminate.
  - apply (proj2 (tooltip_starts_with_label
                    (fun _ => Some (Some "F5")) None ConfigureAction
                    (with_label "Open launch.json"
                       (blank (DebugAction ConfigureAction))) eq_refl)
             eq_refl).
    intros (name & H & _). discriminate.
Defined.

(** ** Sequences of calls on the clipboard bridge *)

(** X16.  After any sequence of [readText], [writeText] and [dispose]
    calls on the bridge, [readText] resolves with the value of the last
    [writeText], or with what the clipboard held at the start when nothing
    was written: reads and [dispose] never disturb the clipboard.  (The
    native clipboard is taken to return what was written last.) *)
Theorem clipboard_last_write_wins {W : Type} `{ElectronClipboard W}
    (calls : list BridgeCall) (w : W) :
  (forall v w0, clipboard_readText (clipboard_writeText v w0) = v) ->
  fst (MainThreadCommands.readText (bridge_calls calls w))
  = Resolved (default (clipboard_readText w) (last_written calls)).
Proof.
  intros Hcell. revert w. induction calls as [|call calls IH]; intros w.
  - reflexivity.
  - change (bridge_calls (call :: calls) w)
      with (bridge_calls calls (bridge_call call w)).
    rewrite IH. cbn [last_written].
    destruct (last_written calls) as [v|]; [reflexivity|].
    destruct call; simpl; [reflexivity | rewrite Hcell; reflexivity
                          | reflexivity].
Qed.

Lemma clipboard_last_write_wins_witness :
  fst (MainThreadCommands.readText
         (bridge_calls
            [CallWriteText "a"; CallReadText; CallWriteText "b"; CallDispose;
             CallReadText] "previous text"))
  = Resolved "b".
Proof.
  exact (clipboard_last_write_wins (W := string)
           [CallWriteText "a"; CallReadText; CallWriteText "b"; CallDispose;
            CallReadText] "previous text" (fun v w0 => eq_refl)).
Defined.

(** ** The [run] methods leave the action alone *)

Lemma keeps_ret {A} (x : A) : keeps_this (ret x).
Proof. intros a env. reflexivity. Qed.

Lemma keeps_throw {A} (e : JsError) : keeps_this (throw (A := A) e).
Proof. intros a env. reflexivity. Qed.

Lemma keeps_get_services : keeps_this get_services.
Proof. intros a env. reflexivity. Qed.

Lemma keeps_modify_services (f : Services -> Services) :
  keeps_this (modify_services f).
Proof. intros a env. reflexivity. Qed.

Lemma keeps_service {A} (f : ServiceCall A) : keeps_this (service f).
Proof. intros a env. unfold service. destruct (f env). reflexivity. Qed.

Lemma keeps_bind {A B} (m : Method A) (k : A -> Method B) :
  keeps_this m -> (forall x, keeps_this (k x)) -> keeps_this (bind m k).
Proof.
  intros Hm Hk a env. unfold bind. specialize (Hm a env).
  destruct (m a env) as [[[x|e] a'] env']; simpl in Hm; subst a'.
  - apply Hk.
  - reflexivity.
Qed.

Ltac keeps :=
  repeat first
    [ apply keeps_ret | apply keeps_throw | apply keeps_get_services
    | apply keeps_modify_services | apply keeps_service
    | apply keeps_bind; [|intros ?]
    | match goal with
      | |- keeps_this (match ?x with _ => _ end) => destruct x
      end ].

(** No [run] method of a debug action assigns to a field of [this]:
    whatever the services do and whatever it is called with, the receiver
    is as before when [run] returns or throws. *)
Lemma run_keeps_this (K : Collaborators) (c : DebugActionClass) (e : RunArg) :
  keeps_this (run K c e).
Proof.
  destruct c; unfold run; cbv zeta beta;
    unfold ConfigureAction_run, StartAction_run, SelectAndStartAction_run,
      RemoveBreakpointAction_run, RemoveAllBreakpointsAction_run,
      EnableAllBreakpointsAction_run, DisableAllBreakpointsAction_run,
      ToggleBreakpointsActivatedAction_run, ReapplyBreakpointsAction_run,
      AddFunctionBreakpointAction_run, AddWatchExpressionAction_run,
      EditWatchExpressionAction_run, RemoveWatchExpressionAction_run,
      RemoveAllWatchExpressionsAction_run, FocusSessionAction_run,
      removeBreakpoints, removeFunctionBreakpoints;
    keeps.
Qed.

(** A method that leaves [_enabled] of its receiver alone, called on any
    object, leaves the [enabled] flag of every object alone. *)
Lemma call_keeps_enabled {A} (m : Method A) (r r' : Ref) (w : World) :
  (forall a env, _enabled (snd (fst (m a env))) = _enabled a) ->
  enabled_at r' (snd (call r m w)) = enabled_at r' w.
Proof.
  intros Hm. unfold call, enabled_at.
  destruct (heap w !! r) as [a|] eqn:Ha; [|reflexivity].
  specialize (Hm a (services w)).
  destruct (m a (services w)) as [[res a'] env]. simpl in Hm |- *.
  destruct (decide (r = r')) as [<- | Hne].
  - rewrite lookup_insert_eq, Ha. simpl. rewrite Hm. reflexivity.
  - rewrite lookup_insert_ne by exact Hne. reflexivity.
Qed.

(** ** The state an enablement listener works with *)

Lemma updateEnablement_handed (c : DebugActionClass) (st : option State)
    (a : ActionObject) (env : Services) :
  classOf a = DebugAction c ->
  isEnabled c (debugService env) (default (state (debugService env)) st)
  = Normal (_enabled (snd (fst (updateEnablement st a env)))).
Proof.
  intros Hc.
  destruct (isEnabled_returns c (debugService env)
              (default (state (debugService env)) st)) as [b Hb].
  rewrite (updateEnablement_debug a env st c b Hc Hb). exact Hb.
Qed.

(** An enablement listener sets [enabled] to the predicate at the state
    the notification hands it, provided a state-changed notification goes
    to the listener that takes the state as its argument. *)
Lemma run_callback_handed (c : DebugActionClass) (cb : Callback)
    (n : Notification) (a : ActionObject) (env : Services) :
  classOf a = DebugAction c ->
  updates_enablement cb = true ->
  (event_of n = OnDidChangeState -> cb = cb_updateEnablement_state) ->
  isEnabled c (debugService env) (handed_state (debugService env, n))
  = Normal (_enabled (snd (fst (run_callback cb n a env)))).
Proof.
  intros Hc Hcb Hstate.
  destruct cb; try discriminate Hcb.
  - destruct n; simpl;
      first [ exact (updateEnablement_handed c (Some st) a env Hc)
            | exact (updateEnablement_handed c None a env Hc) ].
  - destruct n; simpl;
      first [ discriminate (Hstate eq_refl)
            | exact (updateEnablement_handed c None a env Hc) ].
  - assert (Hn : handed_state (debugService env, n) = state (debugService env)).
    { destruct n; try reflexivity. discriminate (Hstate eq_refl). }
    rewrite Hn. simpl. unfold bind, get_services, updateLabel, modify_this.
    pose proof (updateEnablement_handed c None
                  (with_label (toggle_label env) a) env Hc) as Hupd.
    destruct (updateEnablement None (with_label (toggle_label env) a) env)
      as [[res a'] env'].
    destruct res; exact Hupd.
Qed.

(** Every constructor hands the state-changed notification to the
    listener that takes the state as its argument, and no other
    notification. *)
Lemma registrations_state (c : DebugActionClass) (e : EventKind)
    (cb : Callback) :
  In (e, cb) (registrations (DebugAction c)) ->
  e = OnDidChangeState <-> cb = cb_updateEnablement_state.
Proof.
  intros Hin. destruct c; simpl in Hin;
    repeat (destruct Hin as [Hin | Hin];
            [injection Hin as <- <-; split; congruence|]);
    destruct Hin.
Qed.

Lemma register_all_In (self : Ref) (regs : list (EventKind * Callback))
    (t : nat) (l : Listener) :
  In l (register_all self t regs) ->
  this l = self /\ In (event l, callback l) regs.
Proof.
  revert t. induction regs as [|[e cb] regs IH]; intros t Hin; [destruct Hin|].
  destruct Hin as [<- | Hin]; [simpl; auto|].
  destruct (IH (S t) Hin) as [Hr Hreg]. split; [exact Hr | right; exact Hreg].
Qed.

(** The listeners of a new debug action for the state-changed
    notification all take the state as their argument. *)
Lemma new_state_listeners (c : DebugActionClass) (args : Args) (w : World)
    (r : Ref) (w1 : World) (l : Listener) :
  has_listener (nextRef w) w = false ->
  new (DebugAction c) args w = (Normal r, w1) ->
  In l (listeners (services w1)) -> this l = r ->
  event l = OnDidChangeState -> callback l = cb_updateEnablement_state.
Proof.
  intros Hfresh Hnew Hl Hr He.
  destruct (new_returns _ _ _ _ _ Hnew)
    as (-> & a1 & _ & _ & _ & Hls & _).
  rewrite Hls in Hl. apply in_app_or in Hl. destruct Hl as [Hold | Hadded].
  - rewrite has_listener_false in Hfresh. destruct (Hfresh l Hold Hr).
  - apply register_all_In in Hadded. destruct Hadded as [_ Hreg].
    apply (registrations_state c (event l) (callback l) Hreg). exact He.
Qed.

(** After a notification the debug action at [r] is subscribed to,
    [enabled] is the predicate at the state the notification handed to
    [updateEnablement]. *)
Lemma step_enabled_is (r : Ref) (c : DebugActionClass) (w : World)
    (sn : IDebugService * Notification) :
  (exists a, heap w !! r = Some a /\ classOf a = DebugAction c) ->
  (forall l, In l (listeners (services w)) -> this l = r ->
     event l = OnDidChangeState -> callback l = cb_updateEnablement_state) ->
  subscribed r (event_of (snd sn)) w = true ->
  enabled_is r c (handed_state sn) (step w sn).
Proof.
  intros (a & Ha & Hk) Hstate Hsub.
  apply subscribed_refreshes in Hsub.
  unfold step, fire. simpl.
  set (env := with_debugService (fst sn) (services w)).
  assert (Hhanded : handed_state (debugService env, snd sn) = handed_state sn).
  { destruct sn as [ds n]. reflexivity. }
  destruct (deliver_establishes
              (fun a0 => isEnabled c (debugService env) (handed_state sn)
                         = Normal (_enabled a0))
              (snd sn) r (DebugAction c) (listeners (services w))
              {| services := env; heap := heap w; nextRef := nextRef w |})
    as (a' & Ha' & Hk' & HQ).
  - simpl. intros l a0 Hl Hr He Hk0 HQ0.
    destruct (updates_enablement (callback l)) eqn:Hcb.
    + rewrite <- Hhanded.
      apply (run_callback_handed c _ (snd sn) a0 env Hk0 Hcb).
      intros Hn. apply (Hstate l Hl Hr). congruence.
    + destruct (run_callback_spec (callback l) (snd sn) a0 env)
        as (res & a0' & -> & _ & _ & Hen & _).
      simpl. rewrite (Hen Hcb). exact HQ0.
  - exists a. simpl. split; [exact Ha|]. split; [exact Hk|]. right.
    apply List.Exists_exists in Hsub.
    destruct Hsub as (l & Hl & Hr & He & Hcb).
    apply List.Exists_exists. exists l. split; [exact Hl|].
    repeat split; try assumption.
    intros a0 Hk0. rewrite <- Hhanded.
    apply (run_callback_handed c _ (snd sn) a0 env Hk0 Hcb).
    intros Hn. apply (Hstate l Hl Hr). congruence.
  - exists a'. repeat split; try assumption.
    destruct (deliver_services (snd sn) (listeners (services w))
                {| services := env; heap := heap w; nextRef := nextRef w |})
      as [-> _].
    exact HQ.
Qed.

(** The predicate at the handed state is the predicate at the current
    state when the two states agree, and for every class whose predicate
    does not look at the state it is handed. *)
Lemma enabled_is_in_sync (r : Ref) (c : DebugActionClass) (st : State)
    (w : World) :
  enabled_is r c st w ->
  st = state (debugService (services w)) \/ c <> ReapplyBreakpointsAction ->
  in_sync r c w.
Proof.
  intros (a & Ha & Hk & Hs) Hor. exists a. split; [exact Ha|].
  split; [exact Hk|]. destruct Hor as [<- | Hne]; [exact Hs|].
  rewrite <- Hs. apply isEnabled_ignores_state. exact Hne.
Qed.

(** ** Enablement, from construction on *)

(** C1, as the code has it.  A debug action that has just been constructed
    (in a world where no listener waits for the reference it gets) has
    [enabled] equal to its own predicate on the current debug state, before
    any event fires, and is subscribed to the notifications of
    [enablement_events], the state-changed notification among them.  From
    then on, whatever happened in between, after the dispatch of a
    notification it is subscribed to, [enabled] equals the predicate
    evaluated with the state handed to [updateEnablement]: the state the
    state-changed notification carries, the current state of the debug
    service for the other notifications.  This is the predicate on the
    current debug state when the notification carries the current state,
    and for every class other than Reapply-all-breakpoints in any case.
    The dispatch of any other notification leaves [enabled] as it was, and
    along a trace whose every step is announced to the action [enabled]
    never goes stale.  [updateEnablement] sets [enabled] to the predicate
    at the state it is given, and nothing else writes [enabled]: not the
    listeners that do not call it, not the [run] method of any class
    whatever the services it calls do, not [dispose]. *)
Theorem enabled_tracks_isEnabled (c : DebugActionClass) (args : Args)
    (w : World) (r : Ref) (w1 : World) :
  has_listener (nextRef w) w = false ->
  new (DebugAction c) args w = (Normal r, w1) ->
  in_sync r c w1
  /\ debugService (services w1) = debugService (services w)
  /\ (forall e, subscribed r e w1 = true <-> In e (enablement_events c))
  /\ (forall trace sn,
        subscribed r (event_of (snd sn)) w1 = true ->
        enabled_is r c (handed_state sn) (step (steps w1 trace) sn)
        /\ (payload_current sn \/ c <> ReapplyBreakpointsAction ->
            in_sync r c (step (steps w1 trace) sn)))
  /\ (forall trace sn,
        subscribed r (event_of (snd sn)) w1 = false ->
        enabled_at r (step (steps w1 trace) sn)
        = enabled_at r (steps w1 trace))
  /\ (forall trace,
        all_announced r c w1 trace -> in_sync r c (steps w1 trace))
  /\ (forall st a env,
        classOf a = DebugAction c ->
        exists b,
          isEnabled c (debugService env)
            (default (state (debugService env)) st) = Normal b
          /\ updateEnablement st a env = (Normal tt, with_enabled b a, env))
  /\ (forall cb n a env,
        updates_enablement cb = false ->
        _enabled (snd (fst (run_callback cb n a env))) = _enabled a)
  /\ (forall K e, keeps_this (run K c e))
  /\ (forall K e w' r',
        enabled_at r' (snd (call r (run K c e) w')) = enabled_at r' w')
  /\ (forall w' r',
        enabled_at r' (snd (call r dispose w')) = enabled_at r' w').
Proof.
  intros Hfresh Hnew.
  destruct (new_returns _ _ _ _ _ Hnew)
    as (Hr & a1 & Ha1 & Hds & Hclass & Hls & Hadded & Hsync).
  assert (Hobj : forall trace,
            exists a, heap (steps w1 trace) !! r = Some a
                      /\ classOf a = DebugAction c).
  { intros trace.
    apply (is_debug_action_identity _ c w1 _ (steps_identity trace w1 _)).
    eauto. }
  assert (Hstart : in_sync r c w1).
  { exists a1. rewrite Hds. auto. }
  assert (Hhanded : forall trace sn,
            subscribed r (event_of (snd sn)) w1 = true ->
            enabled_is r c (handed_state sn) (step (steps w1 trace) sn)).
  { intros trace sn Hsub. apply step_enabled_is.
    - apply Hobj.
    - rewrite steps_listeners. intros l.
      apply (new_state_listeners c args w r w1 l Hfresh Hnew).
    - rewrite subscribed_steps. exact Hsub. }
  split; [|split; [|split; [|split; [|split; [|split; [|split; [|split;
    [|split; [|split]]]]]]]]].
  - exact Hstart.
  - exact Hds.
  - intros e. apply (subscribed_new c args w r w1 e Hfresh Hnew).
  - intros trace sn Hsub. split; [apply Hhanded; exact Hsub|].
    intros Hor. apply (enabled_is_in_sync r c (handed_state sn));
      [apply Hhanded; exact Hsub|].
    destruct Hor as [Hp | Hne]; [left | right; exact Hne].
    rewrite step_services. destruct sn as [ds n]. simpl.
    unfold payload_current, handed_state in *. simpl in *.
    destruct n; auto.
  - intros trace sn Hsub. apply step_quiet.
    rewrite subscribed_steps. exact Hsub.
  - intros trace Hall. apply in_sync_steps; assumption.
  - intros st a env Hc.
    destruct (isEnabled_returns c (debugService env)
                (default (state (debugService env)) st)) as [b Hb].
    exists b. split; [exact Hb|].
    apply (updateEnablement_debug a env st c b Hc Hb).
  - intros cb n a env Hcb.
    destruct (run_callback_spec cb n a env)
      as (res & a' & -> & _ & _ & Hen & _).
    simpl. apply Hen. exact Hcb.
  - intros K e. apply run_keeps_this.
  - intros K e w' r'. apply call_keeps_enabled. intros a env.
    rewrite (run_keeps_this K c e a env). reflexivity.
  - intros w' r'. apply call_keeps_enabled. intros a env.
    destruct (dispose_spec a env) as (a' & env' & -> & Hen & _).
    exact Hen.
Qed.

Lemma enabled_tracks_isEnabled_witness :
  in_sync 0 ReapplyBreakpointsAction reapply_world
  /\ enabled_is 0 ReapplyBreakpointsAction Running
       (step reapply_world (one_breakpoint, DidChangeState Running))
  /\ in_sync 0 ReapplyBreakpointsAction
       (step reapply_world (stopped_at_breakpoint, DidChangeState Stopped))
  /\ enabled_at 0
       (step reapply_world (stopped_at_breakpoint, DidChangeState Stopped))
     = Some true
  /\ enabled_at 0
       (snd (call 0 (run idle ReapplyBreakpointsAction ArgUndefined)
               (step reapply_world
                  (stopped_at_breakpoint, DidChangeState Stopped))))
     = Some true.
Proof.
  destruct (enabled_tracks_isEnabled ReapplyBreakpointsAction args0
              empty_world 0 reapply_world eq_refl eq_refl)
    as (Hnew & _ & _ & Hstep & _ & _ & _ & _ & _ & Hrun & _).
  split; [exact Hnew|]. split; [|split; [|split]].
  - apply (Hstep [] (one_breakpoint, DidChangeState Running)). reflexivity.
  - apply (Hstep [] (stopped_at_breakpoint, DidChangeState Stopped));
      [reflexivity | left; reflexivity].
  - vm_compute. reflexivity.
  - rewrite Hrun. vm_compute. reflexivity.
Defined.

(** C1, as stated, fails: a Reapply-all-breakpoints action is subscribed
    to the state-changed notification, and when that notification carries
    [Running] while the debug service is in state [Inactive], with one
    breakpoint, the listener hands [Running] to [updateEnablement]:
    [enabled] becomes true, while the predicate on the current debug state
    is false. *)
Lemma Reapply_stale_after_state_payload :
  fst (new (DebugAction ReapplyBreakpointsAction) args0 empty_world)
  = Normal 0
  /\ subscribed 0 OnDidChangeState reapply_world = true
  /\ state one_breakpoint = Inactive
  /\ enabled_at 0 (step reapply_world (one_breakpoint, DidChangeState Running))
     = Some true
  /\ isEnabled ReapplyBreakpointsAction one_breakpoint (state one_breakpoint)
     = Normal false
  /\ ~ in_sync 0 ReapplyBreakpointsAction
         (step reapply_world (one_breakpoint, DidChangeState Running)).
Proof.
  split; [reflexivity|]. split; [reflexivity|]. split; [reflexivity|].
  split; [vm_compute; reflexivity|]. split; [reflexivity|].
  intros (a & Ha & _ & Hs). vm_compute in Ha. injection Ha as <-.
  vm_compute in Hs. discriminate Hs.
Qed.
